(** * Local Library: the catalog controllers

    A shallow embedding of the four Express controllers of the catalog
    (genre, book, author, book instance) over an in-memory model of the
    document store, and the properties of the request handlers.

    What is modelled, and how:
    - a value of a request body is a [JsValue] (the application mounts both
      the url-encoded and the JSON body parser, so a field may hold a
      string, a number, an array, or be absent);
    - a document is its model, its [_id] and a finite map of attributes; a
      collection is the list of its documents in storage order;
    - a Mongoose query is a value ([Query]); it touches the store only when
      it is awaited, exactly as in the controllers, where some queries are
      awaited and some are not;
    - a handler is a computation over the store and the log of the calls it
      makes on [res] and [next]; an exception is an outcome that
      [try_catch] intercepts.
    Mongoose and express-validator are libraries. Of express-validator: a
    check applies the sanitizers of its chain before its validators, a
    validator looks at the text of a value, of an array at that of its first
    element, and a sanitizer rewrites strings only. Of Mongoose: an id or a
    reference that is not an ObjectId is a CastError when a query is run and
    leaves the attribute unset when a document is made; [save] runs the
    validators of the schema; [findByIdAndUpdate] runs none. The schemas are
    not part of the sources: which strings are ObjectIds, the defaults and
    the validators of the schemas are an interface ([Mongoose]). The
    database is assumed healthy (a query that is run returns), and
    [populate] not to change which documents a query returns. *)

From stdpp Require Import base option list gmap strings sorting pretty.
From Stdlib Require Import ZArith Lia.

(** ** JavaScript values

    The values a parsed body can hold and the handlers can tell apart.
    Numbers are the integral ones; an empty slot of an array is held as
    [undefined], which is what reading it gives. *)

#[warnings="-register-all"]
Inductive JsValue : Type :=
| JUndefined
| JNull
| JBool (b : bool)
| JNum (n : Z)
| JStr (s : string)
| JDate (iso : string)
| JArr (items : list JsValue).

Fixpoint js_eqb (a b : JsValue) {struct a} : bool :=
  match a, b with
  | JUndefined, JUndefined => true
  | JNull, JNull => true
  | JBool x, JBool y => bool_decide (x = y)
  | JNum x, JNum y => bool_decide (x = y)
  | JStr x, JStr y => bool_decide (x = y)
  | JDate x, JDate y => bool_decide (x = y)
  | JArr xs, JArr ys =>
      (fix go (xs ys : list JsValue) {struct xs} : bool :=
         match xs, ys with
         | [], [] => true
         | x :: xs', y :: ys' => js_eqb x y && go xs' ys'
         | _, _ => false
         end) xs ys
  | _, _ => false
  end.

(** [typeof v === 'undefined'] *)
Definition is_undefined (v : JsValue) : bool :=
  match v with JUndefined => true | _ => false end.

(** [v instanceof Array] *)
Definition is_array (v : JsValue) : bool :=
  match v with JArr _ => true | _ => false end.

(** JavaScript truthiness, as [optional({ checkFalsy: true })] tests it. *)
Definition is_falsy (v : JsValue) : bool :=
  match v with
  | JUndefined | JNull => true
  | JBool b => negb b
  | JNum n => bool_decide (n = 0%Z)
  | JStr s => bool_decide (s = EmptyString)
  | JDate _ | JArr _ => false
  end.

(** ** Exceptions *)

Inductive JsError : Type :=
| HttpError (message : string) (status : nat)
| TypeError (message : string)
| RangeError (message : string)
| CastError (message : string)
| ValidationError (message : string).

(** [err.status || 500], the status the error middleware of the application
    answers with. *)
Definition error_status (e : JsError) : nat :=
  match e with
  | HttpError _ st => if bool_decide (st = 0) then 500 else st
  | TypeError _ | RangeError _ | CastError _ | ValidationError _ => 500
  end.

Inductive Outcome (A : Type) : Type :=
| Ok (a : A)
| Throw (e : JsError).
Arguments Ok {A} a.
Arguments Throw {A} e.

(** [new Array(v)]: a number asks for that many empty slots (and must be a
    valid array length), anything else becomes the single element. An empty
    slot reads as [undefined]. *)
Definition new_Array (v : JsValue) : Outcome JsValue :=
  match v with
  | JNum n =>
      if bool_decide (0 <= n < 2 ^ 32)%Z
      then Ok (JArr (replicate (Z.to_nat n) JUndefined))
      else Throw (RangeError "Invalid array length")
  | _ => Ok (JArr [v])
  end.

(** ** Documents and the store *)

Inductive Model : Type := Author | Book | Genre | BookInstance.

#[global] Instance Model_eq_dec : EqDecision Model.
Proof. solve_decision. Defined.

Definition Id : Type := string.

(** A document: its model, its [_id] (the text of an ObjectId), the
    attributes that are set, and the paths whose value could not be cast
    when the document was made (none for a document read from the store). *)
Record Doc : Type := mkDoc {
  doc_model : Model;
  doc_id : Id;
  doc_fields : gmap string JsValue;
  doc_cast_errors : list string
}.

(** [doc.path]; an attribute that was never set reads as [undefined]. *)
Definition get (d : Doc) (path : string) : JsValue :=
  default JUndefined (doc_fields d !! path).

Record Store : Type := mkStore {
  authors : list Doc;
  books : list Doc;
  genres : list Doc;
  bookinstances : list Doc
}.

Definition coll (m : Model) (s : Store) : list Doc :=
  match m with
  | Author => authors s
  | Book => books s
  | Genre => genres s
  | BookInstance => bookinstances s
  end.

Definition set_coll (m : Model) (l : list Doc) (s : Store) : Store :=
  match m with
  | Author => mkStore l (books s) (genres s) (bookinstances s)
  | Book => mkStore (authors s) l (genres s) (bookinstances s)
  | Genre => mkStore (authors s) (books s) l (bookinstances s)
  | BookInstance => mkStore (authors s) (books s) (genres s) l
  end.

Definition all_docs (s : Store) : list Doc :=
  authors s ++ books s ++ genres s ++ bookinstances s.

(** The ObjectId a new document receives. The driver never hands out an id
    that is in use; here it is a string longer than every id of the store. *)
Definition fresh_id (s : Store) : Id :=
  String.concat EmptyString (replicate (S (max_list (String.length ∘ doc_id <$> all_docs s))) "0").

(** Modelled from the spec: the schemas (models/*.js) are not part of the
    sources at hand. What the handlers need of them is an interface: the
    cast of a string to an ObjectId (its canonical text, or none when the
    string is no ObjectId), the defaults a schema gives to attributes that
    are not set, and the validators [save] runs (required attributes, the
    fixed set of a status). *)
Class Mongoose : Type := {
  cast_id : string → option Id;
  defaults : Model → gmap string JsValue;
  validates : Doc → bool
}.

(** Modelled from the spec: the types of the attributes, from the data
    model (section 3). Author: first_name, family_name, date_of_birth,
    date_of_death; Genre: name; Book: title, author (ref), summary, isbn,
    genre (ref list); BookInstance: book (ref), imprint, status, due_back. *)
Inductive Kind : Type := K_text | K_date | K_ref | K_refs.

Definition kind (m : Model) (path : string) : Kind :=
  match m with
  | Author =>
      if String.eqb path "date_of_birth" || String.eqb path "date_of_death"
      then K_date else K_text
  | Genre => K_text
  | Book =>
      if String.eqb path "author" then K_ref
      else if String.eqb path "genre" then K_refs else K_text
  | BookInstance =>
      if String.eqb path "book" then K_ref
      else if String.eqb path "due_back" then K_date else K_text
  end.

Section Documents.
Context `{G : Mongoose}.

(** The cast of a reference: a string that is an ObjectId becomes that id,
    [null] and [undefined] stay; nothing else is followed here (none). *)
Definition cast_ref (v : JsValue) : option JsValue :=
  match v with
  | JStr s => JStr <$> cast_id s
  | JUndefined | JNull => Some v
  | _ => None
  end.

(** The cast of an element of a list of references: as a reference, but
    an empty slot, which reads [undefined], is written as [null]. *)
Definition cast_item (v : JsValue) : option JsValue :=
  match v with
  | JUndefined => Some JNull
  | _ => cast_ref v
  end.

(** The cast of the value given for an attribute; [None] is a CastError.
    Text takes strings, numbers and booleans; a date is what [toDate] made
    (a Date or [null]); a list of references takes an array whose elements
    are all references, a single value as a one-element list, and is empty
    when nothing is given. *)
Definition cast (k : Kind) (v : JsValue) : option JsValue :=
  match k with
  | K_text =>
      match v with
      | JStr _ | JNull | JUndefined => Some v
      | JNum n => Some (JStr (pretty n))
      | JBool b => Some (JStr (if b then "true" else "false"))
      | JDate _ | JArr _ => None
      end
  | K_date =>
      match v with
      | JDate _ | JNull | JUndefined => Some v
      | _ => None
      end
  | K_ref => cast_ref v
  | K_refs =>
      match v with
      | JArr items => JArr <$> mapM cast_item items
      | JUndefined => Some (JArr [])
      | _ => (λ x, JArr [x]) <$> cast_ref v
      end
  end.

(** [new Model(obj)] with the given [_id]: every value is cast to the type
    of its attribute; a value that cannot be cast leaves the attribute as it
    was and the path is remembered; an attribute given as [undefined] is
    not set; the defaults of the schema fill what is not set. *)
Definition cast_attr (m : Model) (kv : string * JsValue) : option (string * JsValue) :=
  match cast (kind m kv.1) kv.2 with
  | Some v => if is_undefined v then None else Some (kv.1, v)
  | None => None
  end.

Definition cast_failed (m : Model) (kv : string * JsValue) : option string :=
  match cast (kind m kv.1) kv.2 with
  | Some _ => None
  | None => Some kv.1
  end.

Definition doc_of (m : Model) (id : Id) (obj : list (string * JsValue)) : Doc :=
  mkDoc m id (list_to_map (omap (cast_attr m) obj) ∪ defaults m)
    (omap (cast_failed m) obj).

(** [new Model(obj)] where [obj] names the [_id]: it is cast like any other
    value, and a text that is no ObjectId is a cast error of the path. *)
Definition doc_with_id (m : Model) (text : string) (obj : list (string * JsValue)) : Doc :=
  match cast_id text with
  | Some i => doc_of m i obj
  | None =>
      let d := doc_of m text obj in
      mkDoc m text (doc_fields d) ("_id" :: doc_cast_errors d)
  end.

End Documents.

(** Modelled from the spec: the [url] virtual of the schemas (models/*.js),
    the address of the detail page of a document. It is kept symbolic. *)
Inductive Target : Type :=
| Path (p : string)
| DetailUrl (m : Model) (id : Id)
| NoUrl.

Definition url (d : Doc) : Target := DetailUrl (doc_model d) (doc_id d).

(** ** Queries

    [Model.find(...)], [Model.findById(...)] and the like build a query;
    [.sort] and [.populate] refine it. Nothing is read or written until the
    query is awaited. *)

Inductive Filter : Type :=
| FAll
| FEq (path : string) (v : JsValue).

Inductive Query : Type :=
| Q_find (m : Model) (f : Filter) (select : option (list string))
| Q_findOne (m : Model) (f : Filter)
| Q_findById (m : Model) (id : JsValue)
| Q_findByIdAndUpdate (m : Model) (id : JsValue) (update : Doc)
| Q_findByIdAndRemove (m : Model) (id : JsValue)
| Q_sort (q : Query) (path : string)
| Q_populate (q : Query) (path : string).

(** What a variable of a handler may hold: the result of an awaited query
    ([null], a document, a list of documents) or a query that was not
    awaited. *)
Inductive Val : Type :=
| VNull
| VDoc (d : Doc)
| VDocs (l : list Doc)
| VQuery (q : Query).

(** [v == null] *)
Definition is_null (v : Val) : bool :=
  match v with VNull => true | _ => false end.

(** A condition [{ path: v }] holds of a document whose attribute equals
    [v] or is an array with [v] among its elements. *)
Definition matches (f : Filter) (d : Doc) : bool :=
  match f with
  | FAll => true
  | FEq path v =>
      js_eqb (get d path) v ||
      match get d path with
      | JArr items => existsb (js_eqb v) items
      | _ => false
      end
  end.

Section Store.
Context `{G : Mongoose}.

(** A document answers to an id that is the text of its ObjectId. *)
Definition has_id (id : JsValue) (d : Doc) : bool :=
  js_eqb (JStr (doc_id d)) id && bool_decide (cast_id (doc_id d) = Some (doc_id d)).

Definition project (select : option (list string)) (d : Doc) : Doc :=
  match select with
  | None => d
  | Some paths =>
      mkDoc (doc_model d) (doc_id d) (filter (λ kv, kv.1 ∈ paths) (doc_fields d))
        (doc_cast_errors d)
  end.

(** The order of an ascending sort: values of different types by the rank
    of their type, numbers and strings by their value (strings byte-wise).
    Arrays are not compared further among themselves. *)
Definition bson_rank (v : JsValue) : nat :=
  match v with
  | JUndefined | JNull => 1
  | JNum _ => 2
  | JStr _ => 3
  | JArr _ => 5
  | JBool _ => 8
  | JDate _ => 9
  end.

Definition bson_leb (a b : JsValue) : bool :=
  if (bson_rank a <? bson_rank b)%nat then true
  else if (bson_rank b <? bson_rank a)%nat then false
  else match a, b with
       | JNum x, JNum y => (x <=? y)%Z
       | JStr x, JStr y => String.leb x y
       | JDate x, JDate y => String.leb x y
       | JBool x, JBool y => implb x y
       | _, _ => true
       end.

Definition ascending (path : string) (a b : Doc) : Prop :=
  bson_leb (get a path) (get b path) = true.

#[global] Instance ascending_dec path : RelDecision (ascending path).
Proof. intros a b. unfold ascending. apply _. Defined.

(** [$set]: the attributes of the update replace those of the stored
    document, which keeps its [_id] and its other attributes. *)
Definition apply_update (update old : Doc) : Doc :=
  mkDoc (doc_model old) (doc_id old) (doc_fields update ∪ doc_fields old)
    (doc_cast_errors old).

Fixpoint update_first (id : JsValue) (update : Doc) (l : list Doc) : list Doc :=
  match l with
  | [] => []
  | d :: l' =>
      if has_id id d then apply_update update d :: l'
      else d :: update_first id update l'
  end.

Fixpoint remove_first (id : JsValue) (l : list Doc) : list Doc :=
  match l with
  | [] => []
  | d :: l' => if has_id id d then l' else d :: remove_first id l'
  end.

Definition one (o : option Doc) : Val :=
  match o with Some d => VDoc d | None => VNull end.

(** The cast of the id a query is given: the ObjectId of a string that is
    one, a CastError for any other string; [null] and [undefined] are no
    id and find nothing. *)
Definition query_id (id : JsValue) : Outcome JsValue :=
  match cast_ref id with
  | Some v => Ok v
  | None => Throw (CastError "Cast to ObjectId failed")
  end.

(** The cast of a condition: the value asked of a reference is cast as an
    id is, any other condition is taken as it is. *)
Definition cast_filter (m : Model) (f : Filter) : Outcome Filter :=
  match f with
  | FAll => Ok FAll
  | FEq path v =>
      match kind m path with
      | K_ref | K_refs =>
          match query_id v with
          | Ok v' => Ok (FEq path v')
          | Throw e => Throw e
          end
      | K_text | K_date => Ok f
      end
  end.

(** Running a query against the store. *)
Fixpoint exec (q : Query) (s : Store) : Outcome Val * Store :=
  match q with
  | Q_find m f select =>
      match cast_filter m f with
      | Ok f' => (Ok (VDocs (project select <$> filter (λ d, matches f' d = true) (coll m s))), s)
      | Throw e => (Throw e, s)
      end
  | Q_findOne m f =>
      match cast_filter m f with
      | Ok f' => (Ok (one (List.find (matches f') (coll m s))), s)
      | Throw e => (Throw e, s)
      end
  | Q_findById m id =>
      match query_id id with
      | Ok i => (Ok (one (List.find (has_id i) (coll m s))), s)
      | Throw e => (Throw e, s)
      end
  | Q_findByIdAndUpdate m id update =>
      match query_id id with
      | Ok i =>
          (Ok (one (List.find (has_id i) (coll m s))),
           set_coll m (update_first i update (coll m s)) s)
      | Throw e => (Throw e, s)
      end
  | Q_findByIdAndRemove m id =>
      match query_id id with
      | Ok i =>
          (Ok (one (List.find (has_id i) (coll m s))),
           set_coll m (remove_first i (coll m s)) s)
      | Throw e => (Throw e, s)
      end
  | Q_sort q' path =>
      match exec q' s with
      | (Ok (VDocs l), s') => (Ok (VDocs (merge_sort (ascending path) l)), s')
      | r => r
      end
  | Q_populate q' _ => exec q' s
  end.

(** What [doc.save()] writes of a new document. *)
Definition insert_doc (d : Doc) (s : Store) : Store :=
  set_coll (doc_model d) (coll (doc_model d) s ++ [d]) s.

End Store.

(** ** Responses *)

Record VError : Type := mkVError { param : string; msg : string }.

Inductive Local : Type :=
| L_str (s : string)
| L_val (v : Val)
| L_js (v : JsValue)
| L_body (b : gmap string JsValue)
| L_errors (l : list VError).

(** The calls a handler makes on [res] and [next]. *)
Inductive Action : Type :=
| Render (view : string) (locals : list (string * Local))
| Redirect (t : Target)
| Next (e : JsError).

(** ** Handler computations *)

Definition is_empty_list {A} (l : list A) : bool :=
  match l with [] => true | _ => false end.

Record HState : Type := mkH { db : Store; sent : list Action }.

Definition M (A : Type) : Type := HState → Outcome A * HState.

Definition ret {A} (a : A) : M A := λ h, (Ok a, h).

Definition bind {A B} (c : M A) (k : A → M B) : M B :=
  λ h, match c h with
       | (Ok a, h') => k a h'
       | (Throw e, h') => (Throw e, h')
       end.

Definition throw {A} (e : JsError) : M A := λ h, (Throw e, h).

(** [try { c } catch (err) { handler err }] *)
Definition try_catch {A} (c : M A) (handler : JsError → M A) : M A :=
  λ h, match c h with
       | (Ok a, h') => (Ok a, h')
       | (Throw e, h') => handler e h'
       end.

Definition lift {A} (o : Outcome A) : M A := λ h, (o, h).

#[global] Instance M_ret : MRet M := @ret.
#[global] Instance M_bind : MBind M := λ A B k c, bind c k.

(** [await v]: a query is run, and what it throws is thrown; any other
    value is itself. *)
Definition await `{G : Mongoose} (v : Val) : M Val :=
  λ h, match v with
       | VQuery q => let (r, s) := exec q (db h) in (r, mkH s (sent h))
       | _ => (Ok v, h)
       end.

Definition emit (a : Action) : M unit :=
  λ h, (Ok tt, mkH (db h) (sent h ++ [a])).

Definition res_render (view : string) (locals : list (string * Local)) : M unit :=
  emit (Render view locals).
Definition res_redirect (t : Target) : M unit := emit (Redirect t).
Definition next (e : JsError) : M unit := emit (Next e).

(** [new Model(obj)], with a fresh [_id] unless [obj] names one. *)
Definition new_doc `{G : Mongoose} (m : Model) (id : option string)
    (obj : list (string * JsValue)) : M Doc :=
  λ h, (Ok match id with
           | None => doc_of m (fresh_id (db h)) obj
           | Some text => doc_with_id m text obj
           end, h).

(** What [save] asks of a document: every value it was made with could be
    cast, and the validators of the schema hold. *)
Definition accepted `{G : Mongoose} (d : Doc) : bool :=
  is_empty_list (doc_cast_errors d) && validates d.

(** [doc.save()]: the document is validated, then written; a document that
    is not accepted is a ValidationError and nothing is written. *)
Definition save `{G : Mongoose} (d : Doc) : M Doc :=
  λ h, if accepted d
       then (Ok d, mkH (insert_doc d (db h)) (sent h))
       else (Throw (ValidationError "Validation failed"), h).

(** [v.url] *)
Definition url_of (v : Val) : Outcome Target :=
  match v with
  | VNull => Throw (TypeError "Cannot read property 'url' of null")
  | VDoc d => Ok (url d)
  | VDocs _ | VQuery _ => Ok NoUrl
  end.

(** A handler is run on a store with nothing sent yet. *)
Definition run {A} (c : M A) (s : Store) : Outcome A * HState := c (mkH s []).

Definition responses {A} (c : M A) (s : Store) : list Action := sent (run c s).2.
Definition store_after {A} (c : M A) (s : Store) : Store := db (run c s).2.

(** ** Requests *)

Record Req : Type := mkReq {
  params_id : Id;                  (* req.params.id *)
  body : gmap string JsValue;      (* req.body *)
  verrors : list VError            (* what validationResult(req) reports *)
}.

Definition param_id (req : Req) : JsValue := JStr (params_id req).

(** [req.body.name] *)
Definition field (req : Req) (name : string) : JsValue :=
  default JUndefined (body req !! name).

Definition set_body (b : gmap string JsValue) (req : Req) : Req :=
  mkReq (params_id req) b (verrors req).

Coercion VQuery : Query >-> Val.

(** ** express-validator

    The string functions of validator.js are an interface: the handlers
    are verified for every implementation of it. *)

Class Validator : Type := {
  trim : string → string;
  escape : string → string;
  isAlphanumeric : string → bool;
  isISO8601 : string → bool;
  toDate : string → JsValue
}.

(** The text of a value; that of an array is the texts of its elements,
    joined by commas. *)
Fixpoint js_string (v : JsValue) : string :=
  match v with
  | JUndefined | JNull => EmptyString
  | JBool b => if b then "true" else "false"
  | JNum n => pretty n
  | JStr s => s
  | JDate iso => iso
  | JArr items =>
      String.concat ","
        ((fix go (l : list JsValue) : list string :=
            match l with
            | [] => []
            | x :: l' => js_string x :: go l'
            end) items)
  end.

(** The text a validator looks at: of an array it is the text of the first
    element. *)
Definition to_string (v : JsValue) : string :=
  match v with
  | JArr (x :: _) => js_string x
  | _ => js_string v
  end.

(** The links of a chain, as the chain is written. A message given with
    [.withMessage] is kept with the validator it belongs to. *)
Inductive Step : Type :=
| Optional                                    (* optional({ checkFalsy: true }) *)
| IsLength (min : nat) (message : option string)
| IsAlphanumeric (message : option string)
| IsISO8601 (message : option string)
| Trim
| Escape
| ToDate.

Section Controllers.
Context `{V : Validator} `{G : Mongoose}.

(** A sanitizer rewrites strings and leaves any other value alone. *)
Definition on_string (f : string → JsValue) (v : JsValue) : JsValue :=
  match v with JStr s => f s | _ => v end.

Definition failed (name : string) (dflt : string) (message : option string)
    (ok : bool) : list VError :=
  if ok then [] else [mkVError name (default dflt message)].

(** What a link does to the value: a sanitizer rewrites it, any other
    link leaves it alone. *)
Definition sanitizer (step : Step) (v : JsValue) : JsValue :=
  match step with
  | Trim => on_string (JStr ∘ trim) v
  | Escape => on_string (JStr ∘ escape) v
  | ToDate => on_string toDate v
  | Optional | IsLength _ _ | IsAlphanumeric _ | IsISO8601 _ => v
  end.

(** The errors a link reports of a text: a validator that fails reports
    one, any other link none. *)
Definition validator (name dflt : string) (text : string) (step : Step) : list VError :=
  match step with
  | IsLength min message => failed name dflt message (min <=? String.length text)%nat
  | IsAlphanumeric message => failed name dflt message (isAlphanumeric text)
  | IsISO8601 message => failed name dflt message (isISO8601 text)
  | Optional | Trim | Escape | ToDate => []
  end.

Definition is_optional (step : Step) : bool :=
  match step with Optional => true | _ => false end.

(** The sanitizers of a chain, applied in their order. *)
Definition sanitize (steps : list Step) (v : JsValue) : JsValue :=
  foldl (λ w step, sanitizer step w) v steps.

(** The errors of a chain on a value that its sanitizers have been applied
    to: none if the chain is optional and the value is falsy; otherwise
    every validator looks at the text of the value, and each one that fails
    reports its error. *)
Definition validate (name dflt : string) (steps : list Step) (v : JsValue) : list VError :=
  if existsb is_optional steps && is_falsy v then []
  else concat (validator name dflt (to_string v) <$> steps).

(** Running a chain on a value. The sanitizers of the chain are applied
    first, whatever their place among the validators; the validators look
    at the sanitized value. *)
Definition run_steps (name dflt : string) (steps : list Step) (v : JsValue)
    : list VError * JsValue :=
  (validate name dflt steps (sanitize steps v), sanitize steps v).

(** A middleware of a route either hands the request on or throws. *)
Definition Middleware : Type := Req → Outcome Req.

(** [body(name, message). ...] : the errors are added to the request and
    a field that is present holds the sanitized value afterwards. *)
Definition check_body (name dflt : string) (steps : list Step) : Middleware :=
  λ req,
    let r := run_steps name dflt steps (field req name) in
    Ok (mkReq (params_id req)
              (match body req !! name with
               | Some _ => <[name := r.2]> (body req)
               | None => body req
               end)
              (verrors req ++ r.1)%list).

(** [sanitizeBody(name). ...] *)
Definition sanitizeBody (name : string) (steps : list Step) : Middleware :=
  λ req, Ok (set_body (alter (sanitize steps) name (body req)) req).

(** [sanitizeBody('*'). ...] : every field of the body. *)
Definition sanitizeBody_all (steps : list Step) : Middleware :=
  λ req, Ok (set_body (sanitize steps <$> body req) req).

(** [sanitizeBody('name.*'). ...] : every element of the array [name]. *)
Definition sanitizeBody_each (name : string) (steps : list Step) : Middleware :=
  λ req,
    Ok (set_body
          (alter (λ v, match v with
                       | JArr items => JArr (sanitize steps <$> items)
                       | _ => v
                       end) name (body req)) req).

(** A route: the middlewares in order, then the handler. An exception of a
    middleware goes to [next]. *)
Fixpoint stack (ms : list Middleware) (handler : Req → M unit) (req : Req) : M unit :=
  match ms with
  | [] => handler req
  | m :: ms' =>
      match m req with
      | Ok req' => stack ms' handler req'
      | Throw e => next e
      end
  end.

(** The request as the handler of a route receives it. *)
Fixpoint prepare (ms : list Middleware) (req : Req) : Outcome Req :=
  match ms with
  | [] => Ok req
  | m :: ms' =>
      match m req with
      | Ok req' => prepare ms' req'
      | Throw e => Throw e
      end
  end.

(** A middleware that only ever adds to the validation errors. *)
Definition keeps_errors (m : Middleware) : Prop :=
  ∀ req r, m req = Ok r → ∃ es, verrors r = verrors req ++ es.

(** A middleware that leaves the parameters of the URL alone. *)
Definition keeps_params (m : Middleware) : Prop :=
  ∀ req r, m req = Ok r → params_id r = params_id req.

(** A middleware that never throws. *)
Definition total (m : Middleware) : Prop := ∀ req, ∃ r, m req = Ok r.

Definition is_empty (errors : list VError) : bool :=
  match errors with [] => true | _ => false end.

(** *** Genre controller *)

(* Display list of all Genre. *)
Definition genre_list (req : Req) : M unit :=
  try_catch
    (list_genres ← await (Q_sort (Q_find Genre FAll None) "name");
     res_render "genre_list"
       [("title", L_str "Genre List"); ("list_genres", L_val list_genres)])
    next.

(* Display detail page for a specific Genre. *)
Definition genre_detail (req : Req) : M unit :=
  try_catch
    (genre ← await (Q_findById Genre (param_id req));
     genre_books ← await (Q_find Book (FEq "genre" (param_id req)) None);
     if is_null genre then next (HttpError "Genre not found" 404)
     else
       res_render "genre_detail"
         [("title", L_str "Genre Detail"); ("genre", L_val genre);
          ("genre_books", L_val genre_books)])
    next.

(* Display Genre create form on GET. *)
Definition genre_create_get (req : Req) : M unit :=
  res_render "genre_form" [("title", L_str "Create Genre")].

(* Handle Genre create on POST. *)
Definition genre_create_post_handler (req : Req) : M unit :=
  let errors := verrors req in
  genre ← new_doc Genre None [("name", field req "name")];
  if negb (is_empty errors) then
    res_render "genre_form"
      [("title", L_str "Create Genre"); ("genre", L_val (VDoc genre));
       ("errors", L_errors errors)]
  else
    try_catch
      (found_genre ← await (Q_findOne Genre (FEq "name" (field req "name")));
       if negb (is_null found_genre) then
         u ← lift (url_of found_genre); res_redirect u
       else
         save genre;; res_redirect (url genre))
      next.

Definition genre_checks : list Middleware :=
  [check_body "name" "Genre name required" [IsLength 1 None; Trim];
   sanitizeBody "name" [Trim; Escape]].

Definition genre_create_post : Req → M unit :=
  stack genre_checks genre_create_post_handler.

(* Display Genre delete form on GET. *)
Definition genre_delete_get (req : Req) : M unit :=
  try_catch
    (genre ← await (Q_findById Genre (param_id req));
     genre_books ← await (Q_find Book (FEq "genre" (param_id req)) None);
     (if is_null genre then res_redirect (Path "/catalog/genres") else mret tt);;
     res_render "genre_delete"
       [("title", L_str "Delete Genre"); ("genre", L_val genre);
        ("genre_books", L_val genre_books)])
    next.

Definition has_docs (v : Val) : bool :=
  match v with VDocs (_ :: _) => true | _ => false end.

(* Handle Genre delete on POST. *)
Definition genre_delete_post (req : Req) : M unit :=
  try_catch
    (genre ← await (Q_findById Genre (param_id req));
     genre_books ← await (Q_find Book (FEq "genre" (param_id req)) None);
     if has_docs genre_books then
       res_render "genre_delete"
         [("title", L_str "Delete Genre"); ("genre", L_val genre);
          ("genre_books", L_val genre_books)]
     else
       await (Q_findByIdAndRemove Genre (field req "id"));;
       res_redirect (Path "/catalog/genres"))
    next.

(* Display Genre update form on GET. *)
Definition genre_update_get (req : Req) : M unit :=
  try_catch
    (genre ← await (Q_findById Genre (param_id req));
     if is_null genre then next (HttpError "Genre not found" 404)
     else res_render "genre_form" [("title", L_str "Update Genre"); ("genre", L_val genre)])
    next.

(* Handle Genre update on POST. *)
Definition genre_update_post_handler (req : Req) : M unit :=
  let errors := verrors req in
  genre ← new_doc Genre (Some (params_id req)) [("name", field req "name")];
  if negb (is_empty errors) then
    res_render "genre_form"
      [("title", L_str "Update Genre"); ("genre", L_val (VDoc genre));
       ("errors", L_errors errors)]
  else
    try_catch
      (thegenre ← await (Q_findByIdAndUpdate Genre (param_id req) genre);
       u ← lift (url_of thegenre); res_redirect u)
      next.

Definition genre_update_post : Req → M unit :=
  stack genre_checks genre_update_post_handler.

(** *** Book controller *)

(** [doc.checked = 'true'], on the object in memory. *)
Definition set_checked (g : Doc) : Doc :=
  mkDoc (doc_model g) (doc_id g) (<["checked" := JStr "true"]> (doc_fields g))
    (doc_cast_errors g).

(** [book.genre]: an array attribute of a document is always an array. *)
Definition genre_of (book : Doc) : list JsValue :=
  match get book "genre" with
  | JArr items => items
  | JUndefined => []
  | v => [v]
  end.

(** The loop of the form handlers:
    [if (book.genre.indexOf(genres[i]._id) > -1) genres[i].checked = 'true'] *)
Definition check_selected (book : Doc) (genres : Val) : Val :=
  match genres with
  | VDocs l =>
      VDocs ((λ g, if existsb (js_eqb (JStr (doc_id g))) (genre_of book)
                   then set_checked g else g) <$> l)
  | v => v
  end.

(** [ref._id.toString()] of a stored reference; only a reference has an
    [_id]. *)
Definition ref_text (v : JsValue) : Outcome string :=
  match v with
  | JStr s => Ok s
  | _ => Throw (TypeError "Cannot read property 'toString' of undefined")
  end.

(** The nested loops of the book forms: every genre against every genre of
    the book, compared as text. *)
Fixpoint check_against (g : Doc) (items : list JsValue) : Outcome Doc :=
  match items with
  | [] => Ok g
  | item :: rest =>
      match ref_text item with
      | Ok t => check_against (if String.eqb (doc_id g) t then set_checked g else g) rest
      | Throw e => Throw e
      end
  end.

Fixpoint check_all (genres : list Doc) (items : list JsValue) : Outcome (list Doc) :=
  match genres with
  | [] => Ok []
  | g :: gs =>
      match check_against g items with
      | Ok g' =>
          match check_all gs items with
          | Ok gs' => Ok (g' :: gs')
          | Throw e => Throw e
          end
      | Throw e => Throw e
      end
  end.

Definition check_genres_of (book genres : Val) : Outcome Val :=
  match book, genres with
  | VDoc b, VDocs l =>
      match check_all l (genre_of b) with
      | Ok l' => Ok (VDocs l')
      | Throw e => Throw e
      end
  | _, v => Ok v
  end.

(** [err.message] *)
Definition error_message (e : JsError) : string :=
  match e with
  | HttpError message _ | TypeError message | RangeError message
  | CastError message | ValidationError message => message
  end.

(** [await Model.count(filter)] *)
Definition count (m : Model) (f : Filter) : M JsValue :=
  λ h, (Ok (JNum (Z.of_nat (length (filter (λ d, matches f d = true) (coll m (db h)))))), h).

(* The home page; a caught error is handed to the view by its message. *)
Definition index (req : Req) : M unit :=
  try_catch
    (book_count ← count Book FAll;
     book_instance_count ← count BookInstance FAll;
     book_instance_available_count ← count BookInstance (FEq "status" (JStr "Available"));
     author_count ← count Author FAll;
     genre_count ← count Genre FAll;
     res_render "index"
       [("title", L_str "Local Library Home"); ("error", L_js JNull);
        ("data", L_body (list_to_map
                   [("book_count", book_count);
                    ("book_instance_count", book_instance_count);
                    ("book_instance_available_count", book_instance_available_count);
                    ("author_count", author_count);
                    ("genre_count", genre_count)]))])
    (λ err,
       res_render "index"
         [("title", L_str "Local Library Home"); ("error", L_js (JStr (error_message err)));
          ("data", L_js JNull)]).

(* Display list of all books. *)
Definition book_list (req : Req) : M unit :=
  try_catch
    (list_books ← await (Q_populate (Q_find Book FAll (Some ["title"; "author"])) "author");
     res_render "book_list"
       [("title", L_str "Book List"); ("book_list", L_val list_books)])
    next.

(* Display detail page for a specific book. *)
Definition book_detail (req : Req) : M unit :=
  try_catch
    (book ← await (Q_populate (Q_populate (Q_findById Book (param_id req)) "author") "genre");
     book_instance ← await (Q_find BookInstance (FEq "book" (param_id req)) None);
     if is_null book then next (HttpError "Book not found" 404)
     else
       res_render "book_detail"
         [("title", L_str "Title"); ("book", L_val book);
          ("book_instances", L_val book_instance)])
    next.

(* Display book create form on GET. *)
Definition book_create_get (req : Req) : M unit :=
  try_catch
    (authors ← await (Q_find Author FAll None);
     genres ← await (Q_find Genre FAll None);
     res_render "book_form"
       [("title", L_str "Create Book"); ("authors", L_val authors); ("genres", L_val genres)])
    next.

(* Convert the genre to an array. *)
Definition genre_to_array : Middleware :=
  λ req,
    if negb (is_array (field req "genre")) then
      if is_undefined (field req "genre") then
        Ok (set_body (<["genre" := JArr []]> (body req)) req)
      else
        match new_Array (field req "genre") with
        | Ok a => Ok (set_body (<["genre" := a]> (body req)) req)
        | Throw e => Throw e
        end
    else Ok req.

(* Handle book create on POST. *)
Definition book_create_post_handler (req : Req) : M unit :=
  let errors := verrors req in
  book ← new_doc Book None
    [("title", field req "title"); ("author", field req "author");
     ("summary", field req "summary"); ("isbn", field req "isbn");
     ("genre", field req "genre")];
  if negb (is_empty errors) then
    try_catch
      (authors ← await (Q_find Author FAll None);
       genres ← await (Q_find Genre FAll None);
       res_render "book_form"
         [("title", L_str "Create Book"); ("authors", L_val authors);
          ("genres", L_val (check_selected book genres)); ("book", L_val (VDoc book));
          ("errors", L_errors errors)])
      next
  else
    try_catch (save book;; res_redirect (url book)) next.

Definition book_create_checks : list Middleware :=
  [genre_to_array;
   check_body "title" "Title must not be empty." [IsLength 1 None; Trim];
   check_body "author" "Author must not be empty." [IsLength 1 None; Trim];
   check_body "summary" "Summary must not be empty." [IsLength 1 None; Trim];
   check_body "isbn" "ISBN must not be empty" [IsLength 1 None; Trim];
   sanitizeBody_all [Trim; Escape];
   sanitizeBody_each "genre" [Trim; Escape]].

Definition book_create_post : Req → M unit :=
  stack book_create_checks book_create_post_handler.

(* Display book delete form on GET. *)
Definition book_delete_get (req : Req) : M unit :=
  try_catch
    (book ← await (Q_populate (Q_populate (Q_findById Book (param_id req)) "author") "genre");
     book_bookinstances ← await (Q_find BookInstance (FEq "book" (param_id req)) None);
     (if is_null book then res_redirect (Path "/catalog/books") else mret tt);;
     res_render "book_delete"
       [("title", L_str "Delete Book"); ("book", L_val book);
        ("book_instances", L_val book_bookinstances)])
    next.

(* Handle book delete on POST. *)
Definition book_delete_post (req : Req) : M unit :=
  try_catch
    (book ← await (Q_populate (Q_populate (Q_findById Book (param_id req)) "author") "genre");
     authors ← await (Q_find Author FAll None);
     genres ← await (Q_find Genre FAll None);
     if is_null book then next (HttpError "Book not found" 404)
     else
       genres' ← lift (check_genres_of book genres);
       res_render "book_form"
         [("title", L_str "Update Book"); ("authors", L_val authors);
          ("genres", L_val genres'); ("book", L_val book)])
    next.

(* Display book update form on GET. *)
Definition book_update_get (req : Req) : M unit :=
  try_catch
    (book ← await (Q_populate (Q_populate (Q_findById Book (param_id req)) "author") "genre");
     authors ← await (Q_find Author FAll None);
     genres ← await (Q_find Genre FAll None);
     if is_null book then next (HttpError "Book not found" 404)
     else
       genres' ← lift (check_genres_of book genres);
       res_render "book_form"
         [("title", L_str "Update Book"); ("authors", L_val authors);
          ("genres", L_val genres'); ("book", L_val book)])
    next.

(* Handle book update on POST. *)
Definition book_update_post_handler (req : Req) : M unit :=
  let errors := verrors req in
  book ← new_doc Book (Some (params_id req))
    [("title", field req "title"); ("author", field req "author");
     ("summary", field req "summary"); ("isbn", field req "isbn");
     ("genre", if is_undefined (field req "genre") then JArr [] else field req "genre")];
  try_catch
    (if negb (is_empty errors) then
       authors ← await (Q_find Author FAll None);
       genres ← await (Q_find Genre FAll None);
       res_render "book_form"
         [("title", L_str "Update Book"); ("authors", L_val authors);
          ("genres", L_val (check_selected book genres)); ("book", L_val (VDoc book));
          ("errors", L_errors errors)]
     else
       thebook ← await (Q_findByIdAndUpdate Book (param_id req) book);
       u ← lift (url_of thebook); res_redirect u)
    next.

Definition book_update_checks : list Middleware :=
  [genre_to_array;
   check_body "title" "Title must not be empty." [IsLength 1 None; Trim];
   check_body "author" "Author must not be empty." [IsLength 1 None; Trim];
   check_body "summary" "Summary must not be empty." [IsLength 1 None; Trim];
   check_body "isbn" "ISBN must not be empty" [IsLength 1 None; Trim];
   sanitizeBody "title" [Trim; Escape];
   sanitizeBody "author" [Trim; Escape];
   sanitizeBody "summary" [Trim; Escape];
   sanitizeBody "isbn" [Trim; Escape];
   sanitizeBody_each "genre" [Trim; Escape]].

Definition book_update_post : Req → M unit :=
  stack book_update_checks book_update_post_handler.

(** *** Author controller *)

(* Display list of all Authors. *)
Definition author_list (req : Req) : M unit :=
  try_catch
    (list_authors ← await (Q_sort (Q_find Author FAll None) "family_name");
     res_render "author_list"
       [("title", L_str "Author List"); ("author_list", L_val list_authors)])
    next.

(* Display detail page for a specific Author. *)
Definition author_detail (req : Req) : M unit :=
  try_catch
    (let author : Val := Q_findById Author (param_id req) in
     let authors_books : Val :=
       Q_find Book (FEq "author" (param_id req)) (Some ["title"; "summary"]) in
     author ← await author;
     authors_books ← await authors_books;
     if is_null author then next (HttpError "Author not found" 404)
     else
       res_render "author_detail"
         [("title", L_str "Author Detail"); ("author", L_val author);
          ("author_books", L_val authors_books)])
    next.

Definition author_checks : list Middleware :=
  [check_body "first_name" "Invalid value"
     [IsLength 1 (Some "First name must be specified."); Trim;
      IsAlphanumeric (Some "First name has non-alphanumeric characters.")];
   check_body "family_name" "Invalid value"
     [IsLength 1 (Some "Family name must be specified."); Trim;
      IsAlphanumeric (Some "Family name has non-alphanumeric characters.")];
   check_body "date_of_birth" "Invalid date of birth" [Optional; IsISO8601 None];
   check_body "date_of_death" "Invalid date of death" [Optional; IsISO8601 None];
   sanitizeBody "first_name" [Trim; Escape];
   sanitizeBody "family_name" [Trim; Escape];
   sanitizeBody "date_of_birth" [ToDate];
   sanitizeBody "date_of_death" [ToDate]].

(* Display Author create form on GET. *)
Definition author_create_get (req : Req) : M unit :=
  res_render "author_form" [("title", L_str "Create Author")].

(* Handle Author create on POST. *)
Definition author_create_post_handler (req : Req) : M unit :=
  let errors := verrors req in
  if negb (is_empty errors) then
    res_render "author_form"
      [("title", L_str "Create Author"); ("author", L_body (body req));
       ("errors", L_errors errors)]
  else
    try_catch
      (author ← new_doc Author None
         [("first_name", field req "first_name");
          ("family_name", field req "family_name");
          ("date_of_birth", field req "date_of_birth");
          ("date_of_death", field req "date_of_death")];
       author ← save author;
       res_redirect (url author))
      next.

Definition author_create_post : Req → M unit :=
  stack author_checks author_create_post_handler.

(* Display Author delete form on GET. *)
Definition author_delete_get (req : Req) : M unit :=
  try_catch
    (let author : Val := Q_findById Author (param_id req) in
     let authors_books : Val := Q_find Book (FEq "author" (param_id req)) None in
     author ← await author;
     authors_books ← await authors_books;
     (if is_null author then res_redirect (Path "/catalog/authors") else mret tt);;
     res_render "author_delete"
       [("title", L_str "Delete Author"); ("author", L_val author);
        ("author_books", L_val authors_books)])
    next.

(* Handle Author delete on POST. *)
Definition author_delete_post (req : Req) : M unit :=
  try_catch
    (let author : Val := Q_findById Author (field req "authorid") in
     let author_books : Val := Q_find Book (FEq "author" (field req "authorid")) None in
     author ← await author;
     authors_books ← await author_books;
     if has_docs authors_books then
       res_render "author_delete"
         [("title", L_str "Delete Author"); ("author", L_val author);
          ("authors_books", L_val authors_books)]
     else
       await (Q_findByIdAndRemove Author (field req "authorid"));;
       res_redirect (Path "/catalog/authors"))
    next.

(* Display Author update form on GET. *)
Definition author_update_get (req : Req) : M unit :=
  try_catch
    (author ← await (Q_findById Author (param_id req));
     if is_null author then next (HttpError "Author not found" 404)
     else res_render "author_form" [("title", L_str "Update Author"); ("author", L_val author)])
    next.

(* Handle Author update on POST. *)
Definition author_update_post_handler (req : Req) : M unit :=
  let errors := verrors req in
  author ← new_doc Author (Some (params_id req))
    [("first_name", field req "first_name");
     ("family_name", field req "family_name");
     ("date_of_birth", field req "date_of_birth");
     ("date_of_death", field req "date_of_death")];
  if negb (is_empty errors) then
    res_render "author_form"
      [("title", L_str "Update Author"); ("author", L_val (VDoc author));
       ("errors", L_errors errors)]
  else
    try_catch
      (let theauthor : Val := Q_findByIdAndUpdate Author (param_id req) author in
       u ← lift (url_of theauthor); res_redirect u)
      next.

Definition author_update_post : Req → M unit :=
  stack author_checks author_update_post_handler.

(** *** BookInstance controller *)

(** [ref._id] of a reference attribute; reading it off an attribute that
    is not set throws. *)
Definition ref_id (v : JsValue) : Outcome JsValue :=
  match v with
  | JStr s => Ok (JStr s)
  | _ => Throw (TypeError "Cannot read property '_id' of undefined")
  end.

(* Display list of all BookInstances. *)
Definition bookinstance_list (req : Req) : M unit :=
  try_catch
    (list_bookinstances ← await (Q_populate (Q_find BookInstance FAll None) "book");
     res_render "bookinstance_list"
       [("title", L_str "Book Instance List");
        ("bookinstance_list", L_val list_bookinstances)])
    next.

(* Display detail page for a specific BookInstance. *)
Definition bookinstance_detail (req : Req) : M unit :=
  try_catch
    (let bookinstance : Val := Q_populate (Q_findById BookInstance (param_id req)) "book" in
     if is_null bookinstance then next (HttpError "Book copy not found" 404)
     else
       res_render "bookinstance_detail"
         [("title", L_str "Book:"); ("bookinstance", L_val bookinstance)])
    next.

Definition bookinstance_checks : list Middleware :=
  [check_body "book" "Book must be specified" [IsLength 1 None; Trim];
   check_body "imprint" "Imprint must be specified" [IsLength 1 None; Trim];
   check_body "due_back" "Invalid date" [Optional; IsISO8601 None];
   sanitizeBody "book" [Trim; Escape];
   sanitizeBody "imprint" [Trim; Escape];
   sanitizeBody "status" [Trim; Escape];
   sanitizeBody "due_back" [ToDate]].

(* Display BookInstance create form on GET. *)
Definition bookinstance_create_get (req : Req) : M unit :=
  try_catch
    (books ← await (Q_find Book FAll (Some ["title"]));
     res_render "bookinstance_form"
       [("title", L_str "Create BookInstance"); ("book_list", L_val books)])
    next.

(* Handle BookInstance create on POST. *)
Definition bookinstance_create_post_handler (req : Req) : M unit :=
  let errors := verrors req in
  bookinstance ← new_doc BookInstance None
    [("book", field req "book"); ("imprint", field req "imprint");
     ("status", field req "status"); ("due_back", field req "due_back")];
  try_catch
    (if negb (is_empty errors) then
       books ← await (Q_find Book FAll (Some ["title"]));
       selected_book ← lift (ref_id (get bookinstance "book"));
       res_render "bookinstance_form"
         [("title", L_str "Create BookInstance"); ("book_list", L_val books);
          ("selected_book", L_js selected_book); ("errors", L_errors errors);
          ("bookinstance", L_val (VDoc bookinstance))]
     else
       save bookinstance;; res_redirect (url bookinstance))
    next.

Definition bookinstance_create_post : Req → M unit :=
  stack bookinstance_checks bookinstance_create_post_handler.

(* Display BookInstance delete form on GET. *)
Definition bookinstance_delete_get (req : Req) : M unit :=
  try_catch
    (bookinstance ← await (Q_populate (Q_findById BookInstance (param_id req)) "book");
     (if is_null bookinstance then res_redirect (Path "/catalog/bookinstances") else mret tt);;
     res_render "bookinstance_delete"
       [("title", L_str "Delete BookInstance"); ("bookinstance", L_val bookinstance)])
    next.

(* Handle BookInstance delete on POST. *)
Definition bookinstance_delete_post (req : Req) : M unit :=
  try_catch
    (await (Q_findByIdAndRemove BookInstance (field req "id"));;
     res_redirect (Path "/catalog/bookinstances"))
    next.

(** [v.book._id] of what a query gave. *)
Definition book_ref_of (v : Val) : Outcome JsValue :=
  match v with
  | VDoc d => ref_id (get d "book")
  | VNull => Throw (TypeError "Cannot read property 'book' of null")
  | VDocs _ | VQuery _ => Throw (TypeError "Cannot read property '_id' of undefined")
  end.

(* Display BookInstance update form on GET. *)
Definition bookinstance_update_get (req : Req) : M unit :=
  try_catch
    (bookinstance ← await (Q_populate (Q_findById BookInstance (param_id req)) "book");
     books ← await (Q_find Book FAll None);
     if is_null bookinstance then next (HttpError "Book copy not found" 404)
     else
       selected_book ← lift (book_ref_of bookinstance);
       res_render "bookinstance_form"
         [("title", L_str "Update  BookInstance"); ("book_list", L_val books);
          ("selected_book", L_js selected_book); ("bookinstance", L_val bookinstance)])
    next.

(* Handle BookInstance update on POST. *)
Definition bookinstance_update_post_handler (req : Req) : M unit :=
  let errors := verrors req in
  bookinstance ← new_doc BookInstance (Some (params_id req))
    [("book", field req "book"); ("imprint", field req "imprint");
     ("status", field req "status"); ("due_back", field req "due_back")];
  try_catch
    (if negb (is_empty errors) then
       books ← await (Q_find Book FAll (Some ["title"]));
       selected_book ← lift (ref_id (get bookinstance "book"));
       res_render "bookinstance_form"
         [("title", L_str "Update BookInstance"); ("book_list", L_val books);
          ("selected_book", L_js selected_book); ("errors", L_errors errors);
          ("bookinstance", L_val (VDoc bookinstance))]
     else
       thebookinstance ← await (Q_findByIdAndUpdate BookInstance (param_id req) bookinstance);
       u ← lift (url_of thebookinstance); res_redirect u)
    next.

Definition bookinstance_update_post : Req → M unit :=
  stack bookinstance_checks bookinstance_update_post_handler.

End Controllers.

(** ** The routes by entity *)

Section Routes.
Context `{V : Validator} `{G : Mongoose}.

(** Whether a document with this [_id] is in the collection of the model. *)
Definition stored (m : Model) (id : Id) (s : Store) : bool :=
  existsb (has_id (JStr id)) (coll m s).

Definition list_page (m : Model) : string :=
  match m with
  | Author => "/catalog/authors"
  | Book => "/catalog/books"
  | Genre => "/catalog/genres"
  | BookInstance => "/catalog/bookinstances"
  end.

Definition detail (m : Model) : Req → M unit :=
  match m with
  | Author => author_detail
  | Book => book_detail
  | Genre => genre_detail
  | BookInstance => bookinstance_detail
  end.

Definition update_get (m : Model) : Req → M unit :=
  match m with
  | Author => author_update_get
  | Book => book_update_get
  | Genre => genre_update_get
  | BookInstance => bookinstance_update_get
  end.

Definition delete_get (m : Model) : Req → M unit :=
  match m with
  | Author => author_delete_get
  | Book => book_delete_get
  | Genre => genre_delete_get
  | BookInstance => bookinstance_delete_get
  end.

Definition delete_view (m : Model) : string :=
  match m with
  | Author => "author_delete"
  | Book => "book_delete"
  | Genre => "genre_delete"
  | BookInstance => "bookinstance_delete"
  end.

Definition list_of (m : Model) : Req → M unit :=
  match m with
  | Author => author_list
  | Book => book_list
  | Genre => genre_list
  | BookInstance => bookinstance_list
  end.

Definition create_get (m : Model) : Req → M unit :=
  match m with
  | Author => author_create_get
  | Book => book_create_get
  | Genre => genre_create_get
  | BookInstance => bookinstance_create_get
  end.

Definition delete_post (m : Model) : Req → M unit :=
  match m with
  | Author => author_delete_post
  | Book => book_delete_post
  | Genre => genre_delete_post
  | BookInstance => bookinstance_delete_post
  end.

Definition detail_view (m : Model) : string :=
  match m with
  | Author => "author_detail"
  | Book => "book_detail"
  | Genre => "genre_detail"
  | BookInstance => "bookinstance_detail"
  end.

(** The ids of a collection. *)
Definition ids (m : Model) (s : Store) : list Id := doc_id <$> coll m s.

(** A book refers to [id] in its attribute [path] if a search for the books
    of [id] finds it. *)
Definition refers (path : string) (id : Id) (b : Doc) : bool :=
  matches (FEq path (JStr id)) b.

(** Every reference in attribute [path] of a book is to a stored document
    of the model. *)
Definition references_stored (path : string) (m : Model) (s : Store) : Prop :=
  ∀ b id, b ∈ books s → refers path id b = true → stored m id s = true.

(** *** The application: the last two middlewares of app.js *)

(* Catch 404 and forward to error handler *)
Definition not_found (req : Req) : M unit := next (HttpError "Not Found" 404).

(** What the error handler sends: the status, the view and its locals (the
    error itself only in development). *)
Record ErrorPage : Type := mkErrorPage {
  page_status : nat;
  page_view : string;
  page_message : string;
  page_error : option JsError
}.

(* Error handler *)
Definition error_handler (env : string) (err : JsError) : ErrorPage :=
  mkErrorPage (error_status err) "error" (error_message err)
    (if bool_decide (env = "development") then Some err else None).

(** What a client is answered with. *)
Inductive Answer : Type :=
| Page (view : string)
| Location (t : Target)
| Failure (page : ErrorPage).

Definition answer (env : string) (a : Action) : Answer :=
  match a with
  | Render view _ => Page view
  | Redirect t => Location t
  | Next e => Failure (error_handler env e)
  end.

(** The documents a list page shows: the list handed to the view. *)
Definition listing (c : M unit) (s : Store) : list Doc :=
  match responses c s with
  | [Render _ [_; (_, L_val (VDocs l))]] => l
  | _ => []
  end.

(** A genre answers to a name if a search for that name finds it. *)
Definition named (name : JsValue) (g : Doc) : bool := matches (FEq "name" name) g.

Definition count_named (name : JsValue) (s : Store) : nat :=
  length (filter (λ g, named name g = true) (genres s)).

(** The request as the handler of a route receives it, when no middleware
    throws. *)
Definition prepared (ms : list Middleware) (req : Req) : Req :=
  match prepare ms req with Ok r => r | Throw _ => req end.

(** The two forms of an entity and their POST routes. *)
Inductive Form : Type := Create | Update.

Definition checks (f : Form) (m : Model) : list Middleware :=
  match m, f with
  | Author, _ => author_checks
  | Book, Create => book_create_checks
  | Book, Update => book_update_checks
  | Genre, _ => genre_checks
  | BookInstance, _ => bookinstance_checks
  end.

Definition post_handler (f : Form) (m : Model) : Req → M unit :=
  match m, f with
  | Author, Create => author_create_post_handler
  | Author, Update => author_update_post_handler
  | Book, Create => book_create_post_handler
  | Book, Update => book_update_post_handler
  | Genre, Create => genre_create_post_handler
  | Genre, Update => genre_update_post_handler
  | BookInstance, Create => bookinstance_create_post_handler
  | BookInstance, Update => bookinstance_update_post_handler
  end.

Definition post (f : Form) (m : Model) : Req → M unit :=
  match m, f with
  | Author, Create => author_create_post
  | Author, Update => author_update_post
  | Book, Create => book_create_post
  | Book, Update => book_update_post
  | Genre, Create => genre_create_post
  | Genre, Update => genre_update_post
  | BookInstance, Create => bookinstance_create_post
  | BookInstance, Update => bookinstance_update_post
  end.

Definition form_view (m : Model) : string :=
  match m with
  | Author => "author_form"
  | Book => "book_form"
  | Genre => "genre_form"
  | BookInstance => "bookinstance_form"
  end.

(** The routes of the site, by the handler they are bound to. *)
Inductive Route : Type :=
| R_index
| R_list (m : Model)
| R_detail (m : Model)
| R_create_get (m : Model)
| R_create_post (m : Model)
| R_update_get (m : Model)
| R_update_post (m : Model)
| R_delete_get (m : Model)
| R_delete_post (m : Model).

Definition handler (r : Route) : Req → M unit :=
  match r with
  | R_index => index
  | R_list m => list_of m
  | R_detail m => detail m
  | R_create_get m => create_get m
  | R_create_post m => post Create m
  | R_update_get m => update_get m
  | R_update_post m => post Update m
  | R_delete_get m => delete_get m
  | R_delete_post m => delete_post m
  end.

Definition is_get (r : Route) : bool :=
  match r with
  | R_create_post _ | R_update_post _ | R_delete_post _ => false
  | _ => true
  end.

(** The attributes a document of the model is made with. *)
Definition attributes (m : Model) : list string :=
  match m with
  | Author => ["first_name"; "family_name"; "date_of_birth"; "date_of_death"]
  | Book => ["title"; "author"; "summary"; "isbn"; "genre"]
  | Genre => ["name"]
  | BookInstance => ["book"; "imprint"; "status"; "due_back"]
  end.

(** *** The middlewares of the forms, by what they do to the body

    Apart from the conversion of the genre, the middlewares of a route hand
    the request on whatever it holds; what the handler receives is then a
    function of the body that was submitted. *)

Inductive Pure : Type :=
| P_check (name dflt : string) (steps : list Step)
| P_sanitize (name : string) (steps : list Step)
| P_sanitize_all (steps : list Step)
| P_sanitize_each (name : string) (steps : list Step).

Definition middleware (p : Pure) : Middleware :=
  match p with
  | P_check name dflt steps => check_body name dflt steps
  | P_sanitize name steps => sanitizeBody name steps
  | P_sanitize_all steps => sanitizeBody_all steps
  | P_sanitize_each name steps => sanitizeBody_each name steps
  end.

(** The fields of the body after a middleware, from the fields before. *)
Definition field_after (p : Pure) (fields : string → JsValue) (k : string) : JsValue :=
  match p with
  | P_check name _ steps | P_sanitize name steps =>
      if String.eqb k name then sanitize steps (fields name) else fields k
  | P_sanitize_all steps => sanitize steps (fields k)
  | P_sanitize_each name steps =>
      if String.eqb k name
      then match fields name with
           | JArr items => JArr (sanitize steps <$> items)
           | v => v
           end
      else fields k
  end.

(** The errors a middleware adds. *)
Definition errors_of (p : Pure) (fields : string → JsValue) : list VError :=
  match p with
  | P_check name dflt steps => validate name dflt steps (sanitize steps (fields name))
  | P_sanitize _ _ | P_sanitize_all _ | P_sanitize_each _ _ => []
  end.

Fixpoint fields_through (ps : list Pure) (fields : string → JsValue) : string → JsValue :=
  match ps with
  | [] => fields
  | p :: ps' => fields_through ps' (field_after p fields)
  end.

Fixpoint errors_through (ps : list Pure) (fields : string → JsValue) : list VError :=
  match ps with
  | [] => []
  | p :: ps' => errors_of p fields ++ errors_through ps' (field_after p fields)
  end.

(** The middlewares of a form that come after the conversion of the genre
    (for the other entities: all of them). *)
Definition pure_checks (f : Form) (m : Model) : list Pure :=
  match m, f with
  | Author, _ =>
      [P_check "first_name" "Invalid value"
         [IsLength 1 (Some "First name must be specified."); Trim;
          IsAlphanumeric (Some "First name has non-alphanumeric characters.")];
       P_check "family_name" "Invalid value"
         [IsLength 1 (Some "Family name must be specified."); Trim;
          IsAlphanumeric (Some "Family name has non-alphanumeric characters.")];
       P_check "date_of_birth" "Invalid date of birth" [Optional; IsISO8601 None];
       P_check "date_of_death" "Invalid date of death" [Optional; IsISO8601 None];
       P_sanitize "first_name" [Trim; Escape];
       P_sanitize "family_name" [Trim; Escape];
       P_sanitize "date_of_birth" [ToDate];
       P_sanitize "date_of_death" [ToDate]]
  | Genre, _ =>
      [P_check "name" "Genre name required" [IsLength 1 None; Trim];
       P_sanitize "name" [Trim; Escape]]
  | Book, Create =>
      [P_check "title" "Title must not be empty." [IsLength 1 None; Trim];
       P_check "author" "Author must not be empty." [IsLength 1 None; Trim];
       P_check "summary" "Summary must not be empty." [IsLength 1 None; Trim];
       P_check "isbn" "ISBN must not be empty" [IsLength 1 None; Trim];
       P_sanitize_all [Trim; Escape];
       P_sanitize_each "genre" [Trim; Escape]]
  | Book, Update =>
      [P_check "title" "Title must not be empty." [IsLength 1 None; Trim];
       P_check "author" "Author must not be empty." [IsLength 1 None; Trim];
       P_check "summary" "Summary must not be empty." [IsLength 1 None; Trim];
       P_check "isbn" "ISBN must not be empty" [IsLength 1 None; Trim];
       P_sanitize "title" [Trim; Escape];
       P_sanitize "author" [Trim; Escape];
       P_sanitize "summary" [Trim; Escape];
       P_sanitize "isbn" [Trim; Escape];
       P_sanitize_each "genre" [Trim; Escape]]
  | BookInstance, _ =>
      [P_check "book" "Book must be specified" [IsLength 1 None; Trim];
       P_check "imprint" "Imprint must be specified" [IsLength 1 None; Trim];
       P_check "due_back" "Invalid date" [Optional; IsISO8601 None];
       P_sanitize "book" [Trim; Escape];
       P_sanitize "imprint" [Trim; Escape];
       P_sanitize "status" [Trim; Escape];
       P_sanitize "due_back" [ToDate]]
  end.

(** The text of a field of a form as the handler receives it: trimmed by
    the chain of its check, then trimmed and escaped by the sanitizers. *)
Definition clean (t : string) : string := escape (trim (trim t)).

(** *** What the forms require *)

(** [trim] of a value, as a chain applies it. *)
Definition trimmed (v : JsValue) : JsValue := on_string (JStr ∘ trim) v.

(** [isLength({ min: 1 })] of the text of a value. *)
Definition nonempty (v : JsValue) : bool := (1 <=? String.length (to_string v))%nat.

(** The errors of the four required fields of the book forms, in the order
    of their checks: each field is trimmed, then required to be non-empty. *)
Definition book_errors (req : Req) : list VError :=
  failed "title" "Title must not be empty." None (nonempty (trimmed (field req "title")))
  ++ failed "author" "Author must not be empty." None (nonempty (trimmed (field req "author")))
  ++ failed "summary" "Summary must not be empty." None (nonempty (trimmed (field req "summary")))
  ++ failed "isbn" "ISBN must not be empty" None (nonempty (trimmed (field req "isbn"))).

(** The errors of a name of the author forms. *)
Definition name_errors (name required alphanumeric : string) (v : JsValue) : list VError :=
  failed name "Invalid value" (Some required) (nonempty (trimmed v))
  ++ failed name "Invalid value" (Some alphanumeric) (isAlphanumeric (to_string (trimmed v))).

(** The errors of an optional date. *)
Definition date_errors (name message : string) (v : JsValue) : list VError :=
  if is_falsy v then [] else failed name message None (isISO8601 (to_string v)).

(** The errors of the author forms, in the order of their checks. *)
Definition author_errors (req : Req) : list VError :=
  name_errors "first_name" "First name must be specified."
    "First name has non-alphanumeric characters." (field req "first_name")
  ++ name_errors "family_name" "Family name must be specified."
       "Family name has non-alphanumeric characters." (field req "family_name")
  ++ date_errors "date_of_birth" "Invalid date of birth" (field req "date_of_birth")
  ++ date_errors "date_of_death" "Invalid date of death" (field req "date_of_death").

(** A reference as a form or a document holds it: a string. *)
Definition is_ref (v : JsValue) : bool :=
  match v with JStr _ => true | _ => false end.

(** The genre of a request as an array: the elements the book routes find
    in it when it is not a number. *)
Definition genre_items (v : JsValue) : list JsValue :=
  match v with
  | JUndefined => []
  | JArr items => items
  | _ => [v]
  end.

End Routes.

(** ** A reference implementation of the validator interface

    Plain ASCII versions of the string functions, to run the routes on
    concrete requests: [trim] strips white space, [escape] replaces the
    characters & < > / \ the two quotes and the backquote, and the dates
    taken are the calendar dates. *)

Definition is_char (c : string) (a : Ascii.ascii) : bool :=
  bool_decide (String a EmptyString = c).

Definition is_code (n : nat) (a : Ascii.ascii) : bool :=
  (Ascii.nat_of_ascii a =? n)%nat.

Definition is_alnum (a : Ascii.ascii) : bool :=
  let n := Ascii.nat_of_ascii a in
  ((48 <=? n) && (n <=? 57) || (65 <=? n) && (n <=? 90) || (97 <=? n) && (n <=? 122))%nat.

Definition is_digit (a : Ascii.ascii) : bool :=
  let n := Ascii.nat_of_ascii a in ((48 <=? n) && (n <=? 57))%nat.

Fixpoint trim_left (s : string) : string :=
  match s with
  | String a s' => if Ascii.is_space a then trim_left s' else s
  | EmptyString => EmptyString
  end.

Definition ascii_trim (s : string) : string :=
  String.rev (trim_left (String.rev (trim_left s))).

Fixpoint ascii_escape (s : string) : string :=
  match s with
  | EmptyString => EmptyString
  | String a s' =>
      (if is_char "&" a then "&amp;"
       else if is_code 34 a then "&quot;"
       else if is_char "'" a then "&#x27;"
       else if is_char "<" a then "&lt;"
       else if is_char ">" a then "&gt;"
       else if is_char "/" a then "&#x2F;"
       else if is_code 92 a then "&#x5C;"
       else if is_code 96 a then "&#96;"
       else String a EmptyString) +:+ ascii_escape s'
  end.

Fixpoint all_chars (p : Ascii.ascii → bool) (s : string) : bool :=
  match s with
  | EmptyString => true
  | String a s' => p a && all_chars p s'
  end.

Definition ascii_isAlphanumeric (s : string) : bool :=
  negb (bool_decide (s = EmptyString)) && all_chars is_alnum s.

Definition digit (a : Ascii.ascii) : nat := Ascii.nat_of_ascii a - 48.

(** The calendar dates [YYYY-MM-DD] among the ISO 8601 dates: a month from
    01 to 12 and a day from 01 to 31. *)
Definition ascii_isISO8601 (s : string) : bool :=
  match s with
  | String y1 (String y2 (String y3 (String y4 (String d1 (String m1 (String m2
      (String d2 (String a1 (String a2 EmptyString))))))))) =>
      is_digit y1 && is_digit y2 && is_digit y3 && is_digit y4 &&
      is_char "-" d1 && is_digit m1 && is_digit m2 && is_char "-" d2 &&
      is_digit a1 && is_digit a2 &&
      (let month := 10 * digit m1 + digit m2 in (1 <=? month) && (month <=? 12))%nat &&
      (let day := 10 * digit a1 + digit a2 in (1 <=? day) && (day <=? 31))%nat
  | _ => false
  end.

#[global] Instance ascii_validator : Validator := {|
  trim := ascii_trim;
  escape := ascii_escape;
  isAlphanumeric := ascii_isAlphanumeric;
  isISO8601 := ascii_isISO8601;
  toDate := λ s, if ascii_isISO8601 s then JDate s else JNull
|}.

(** ** A reference implementation of the Mongoose interface

    An ObjectId is written as 24 hexadecimal digits, in lower case when it
    is read back. A schema in line with the data model of the spec: the
    names of an author, the name of a genre, title, author, summary and
    isbn of a book, book and imprint of a book instance are required, the
    status is one of four and is Maintenance when none is given. *)

Definition is_hex (a : Ascii.ascii) : bool :=
  let n := Ascii.nat_of_ascii a in
  ((48 <=? n) && (n <=? 57) || (65 <=? n) && (n <=? 70) || (97 <=? n) && (n <=? 102))%nat.

Definition lower (a : Ascii.ascii) : Ascii.ascii :=
  let n := Ascii.nat_of_ascii a in
  if ((65 <=? n) && (n <=? 90))%nat then Ascii.ascii_of_nat (n + 32) else a.

Fixpoint lower_case (s : string) : string :=
  match s with
  | EmptyString => EmptyString
  | String a s' => String (lower a) (lower_case s')
  end.

Definition hex_cast_id (s : string) : option Id :=
  if (String.length s =? 24)%nat && all_chars is_hex s then Some (lower_case s) else None.

Definition statuses : list string := ["Available"; "Maintenance"; "Loaned"; "Reserved"].

(** [required]: the attribute is set and is not the empty string. *)
Definition given (d : Doc) (path : string) : bool := negb (is_falsy (get d path)).

Definition library_validates (d : Doc) : bool :=
  match doc_model d with
  | Author => given d "first_name" && given d "family_name"
  | Genre => given d "name"
  | Book => given d "title" && given d "author" && given d "summary" && given d "isbn"
  | BookInstance =>
      given d "book" && given d "imprint"
      && match get d "status" with
         | JStr st => bool_decide (st ∈ statuses)
         | _ => false
         end
  end.

#[global] Instance library_mongoose : Mongoose := {|
  cast_id := hex_cast_id;
  defaults := λ m, match m with
                   | BookInstance => {[ "status" := JStr "Maintenance" ]}
                   | _ => ∅
                   end;
  validates := library_validates
|}.

(** ** Example data *)

Definition a1 : Id := "0000000000000000000000a1".
Definition b1 : Id := "0000000000000000000000b1".
Definition c1 : Id := "0000000000000000000000c1".
Definition g1 : Id := "0000000000000000000000e1".
Definition g2 : Id := "0000000000000000000000e2".
Definition a9 : Id := "0000000000000000000000a9".
(** An ObjectId that no document of the examples has. *)
Definition no_id : Id := "0000000000000000000000ff".

Definition fantasy : Doc := doc_of Genre g1 [("name", JStr "Fantasy")].
Definition poetry : Doc := doc_of Genre g2 [("name", JStr "Poetry")].
Definition tolkien : Doc :=
  doc_of Author a1 [("first_name", JStr "John"); ("family_name", JStr "Tolkien")].
Definition hobbit : Doc :=
  doc_of Book b1
    [("title", JStr "The Hobbit"); ("author", JStr a1); ("summary", JStr "There and back");
     ("isbn", JStr "9780261102217"); ("genre", JArr [JStr g1])].
Definition hobbit_copy : Doc :=
  doc_of BookInstance c1
    [("book", JStr b1); ("imprint", JStr "Unwin 1937"); ("status", JStr "Available")].

Definition library : Store := mkStore [tolkien] [hobbit] [fantasy; poetry] [hobbit_copy].

(** Two documents of a collection whose attribute [path] is stored in
    descending order. *)
Definition descending_pair (m : Model) (path : string) : list Doc :=
  [mkDoc m "000000000000000000000002" {[ path := JStr "b" ]} [];
   mkDoc m "000000000000000000000001" {[ path := JStr "a" ]} []].

(** A valid update of the stored book. *)
Definition hobbit_update : Req :=
  mkReq b1
    (list_to_map
       [("title", JStr " The Hobbit "); ("author", JStr a1);
        ("summary", JStr "In a hole in the ground"); ("isbn", JStr "9780261102217");
        ("genre", JStr g2)]) [].

(** A request to create "Dune" by the stored author, in no genre. *)
Definition dune (title : string) : Req :=
  mkReq EmptyString
    (list_to_map [("title", JStr title); ("author", JStr a1); ("summary", JStr "Arrakis");
                  ("isbn", JStr "9780441013593")]) [].

(** A form that names a genre. *)
Definition genre_request (name : string) : Req := mkReq EmptyString {[ "name" := JStr name ]} [].

(** * Properties *)

(** ** Values and lookups *)

Lemma js_eqb_refl : ∀ v, js_eqb v v = true.
Proof.
  fix IH 1. intros [| |b|n|t|t|items]; simpl; try done;
    try (by apply bool_decide_eq_true).
  induction items as [|x items IHitems]; [done|].
  rewrite IH. exact IHitems.
Qed.

Lemma find_none_existsb {A} (p : A → bool) (l : list A) :
  existsb p l = false → List.find p l = None.
Proof.
  induction l as [|x l IH]; simpl; [done|].
  destruct (p x); simpl; [done|]. exact IH.
Qed.

Lemma find_some_existsb {A} (p : A → bool) (l : list A) :
  existsb p l = true → ∃ x, List.find p l = Some x ∧ x ∈ l ∧ p x = true.
Proof.
  induction l as [|x l IH]; simpl; [done|].
  destruct (p x) eqn:Hp; simpl.
  - intros _. exists x. split_and!; [done| |done]. apply list_elem_of_here.
  - intros H. destruct (IH H) as (y & ? & ? & ?). exists y.
    split_and!; [done| |done]. by apply list_elem_of_further.
Qed.

Section Lookups.
Context `{G : Mongoose}.

Lemma has_id_inv (id : JsValue) (d : Doc) : has_id id d = true → id = JStr (doc_id d).
Proof.
  unfold has_id. intros [H _]%andb_true_iff. destruct id; simpl in H; try done.
  apply bool_decide_eq_true in H. by rewrite H.
Qed.

Lemma has_id_canonical (id : JsValue) (d : Doc) :
  has_id id d = true → cast_id (doc_id d) = Some (doc_id d).
Proof. unfold has_id. intros [_ H]%andb_true_iff. by apply bool_decide_eq_true in H. Qed.

Lemma has_id_intro (d : Doc) :
  cast_id (doc_id d) = Some (doc_id d) → has_id (JStr (doc_id d)) d = true.
Proof.
  intros H. unfold has_id. rewrite js_eqb_refl. by apply bool_decide_eq_true.
Qed.

(** A stored id is the text of an ObjectId. *)
Lemma stored_canonical (m : Model) (id : Id) (s : Store) :
  stored m id s = true → cast_id id = Some id.
Proof.
  intros (d & _ & _ & Hd)%find_some_existsb.
  pose proof (has_id_inv _ _ Hd) as [= ->]. by apply has_id_canonical in Hd.
Qed.

Lemma stored_find_id (m : Model) (id : Id) (s : Store) :
  stored m id s =
    match List.find (has_id (JStr id)) (coll m s) with
    | Some _ => true
    | None => false
    end.
Proof.
  unfold stored. induction (coll m s) as [|d l IH]; simpl; [done|].
  by destruct (has_id (JStr id) d).
Qed.

Lemma find_missing (m : Model) (id : Id) (s : Store) :
  stored m id s = false → List.find (has_id (JStr id)) (coll m s) = None.
Proof. apply find_none_existsb. Qed.

Lemma query_id_cast (p : string) (i : Id) :
  cast_id p = Some i → query_id (JStr p) = Ok (JStr i).
Proof. intros H. unfold query_id. simpl. by rewrite H. Qed.

Lemma query_id_malformed (p : string) :
  cast_id p = None → query_id (JStr p) = Throw (CastError "Cast to ObjectId failed").
Proof. intros H. unfold query_id. simpl. by rewrite H. Qed.

Lemma query_id_stored (m : Model) (id : Id) (s : Store) :
  stored m id s = true → query_id (JStr id) = Ok (JStr id).
Proof. intros H. by apply query_id_cast, (stored_canonical m id s). Qed.

(** A query throws nothing but a CastError. *)
Lemma query_id_throw (v : JsValue) (e : JsError) :
  query_id v = Throw e → e = CastError "Cast to ObjectId failed".
Proof. unfold query_id. destruct (cast_ref v); [done|]. by intros [= <-]. Qed.

(** What a document is made with: the cast of each value, the default of
    the schema for what is not set. *)
Lemma lookup_cast_attrs (m : Model) (obj : list (string * JsValue)) (k : string) (v : JsValue) :
  NoDup obj.*1 → (k, v) ∈ obj →
  (list_to_map (omap (cast_attr m) obj) : gmap string JsValue) !! k
  = snd <$> cast_attr m (k, v).
Proof.
  induction obj as [|[k' v'] obj IH]; simpl; [by intros _ ?%elem_of_nil|].
  intros [Hk' Hnd]%NoDup_cons [[= -> ->]|Hin]%elem_of_cons.
  - destruct (cast_attr m (k', v')) as [[k1 w]|] eqn:Hc; simpl.
    + assert (k1 = k') as ->.
      { revert Hc. unfold cast_attr. simpl. destruct (cast _ _) as [u|]; [|done].
        destruct (is_undefined u); [done|]. by intros [= <- _]. }
      by rewrite lookup_insert_eq.
    + apply not_elem_of_list_to_map_1. intros Hin. apply Hk'.
      apply list_elem_of_fmap in Hin as ([k2 w] & -> & Hin).
      apply list_elem_of_omap in Hin as ([k3 u] & Hin & Hc3).
      assert (k3 = k2) as ->.
      { revert Hc3. unfold cast_attr. simpl. destruct (cast _ _) as [u'|]; [|done].
        destruct (is_undefined u'); [done|]. by intros [= <- _]. }
      apply list_elem_of_fmap. by exists (k2, u).
  - assert (k ≠ k') as Hne.
    { intros ->. apply Hk'. apply list_elem_of_fmap. by exists (k', v). }
    destruct (cast_attr m (k', v')) as [[k1 w]|] eqn:Hc; simpl; [|by apply IH].
    assert (k1 = k') as ->.
    { revert Hc. unfold cast_attr. simpl. destruct (cast _ _) as [u|]; [|done].
      destruct (is_undefined u); [done|]. by intros [= <- _]. }
    rewrite lookup_insert_ne by done. by apply IH.
Qed.

Lemma get_doc_of (m : Model) (id : Id) (obj : list (string * JsValue)) (k : string) (v w : JsValue) :
  NoDup obj.*1 → (k, v) ∈ obj →
  cast (kind m k) v = Some w → is_undefined w = false →
  get (doc_of m id obj) k = w.
Proof.
  intros Hnd Hin Hc Hw. unfold get, doc_of. simpl.
  rewrite lookup_union, (lookup_cast_attrs m obj k v Hnd Hin).
  unfold cast_attr. simpl. rewrite Hc, Hw. simpl.
  by destruct (defaults m !! k).
Qed.

(** An attribute that is given no value, or one that cannot be cast, is
    left to the default of the schema. *)
Lemma get_doc_of_unset (m : Model) (id : Id) (obj : list (string * JsValue)) (k : string) (v : JsValue) :
  NoDup obj.*1 → (k, v) ∈ obj →
  cast (kind m k) v = None ∨ cast (kind m k) v = Some JUndefined →
  get (doc_of m id obj) k = default JUndefined (defaults m !! k).
Proof.
  intros Hnd Hin Hc. unfold get, doc_of. simpl.
  rewrite lookup_union, (lookup_cast_attrs m obj k v Hnd Hin).
  unfold cast_attr. simpl. destruct Hc as [-> | ->]; simpl; by destruct (defaults m !! k).
Qed.

Lemma get_doc_with_id (m : Model) (text : string) (obj : list (string * JsValue)) (k : string) :
  get (doc_with_id m text obj) k = get (doc_of m text obj) k.
Proof. unfold doc_with_id. by destruct (cast_id text). Qed.

Lemma doc_with_id_cast (m : Model) (text : string) (i : Id) (obj : list (string * JsValue)) :
  cast_id text = Some i → doc_with_id m text obj = doc_of m i obj.
Proof. unfold doc_with_id. by intros ->. Qed.

End Lookups.

#[global] Arguments accepted : simpl never.
#[global] Arguments get : simpl never.
#[global] Arguments doc_with_id : simpl never.
#[global] Arguments matches : simpl never.
#[global] Arguments has_id : simpl never.
#[global] Arguments param_id : simpl never.
#[global] Arguments query_id : simpl never.
#[global] Arguments doc_of : simpl never.

(** Unfolds a handler down to the queries it runs. *)
Ltac run_handler :=
  unfold responses, store_after, run, try_catch, mbind, M_bind, bind, mret,
    M_ret, ret, await, res_render, res_redirect, next, emit, lift, new_doc,
    save, throw;
  simpl.

(** Runs the queries on an id whose cast is known. *)
Ltac run_queries H := repeat (rewrite H; simpl).

(** ** Detail pages *)

Section Pages.
Context `{G : Mongoose}.

(** The detail page of an Author, a Book or a Genre whose id is an ObjectId
    that no document has is answered with a 404. *)
Lemma detail_missing_404 (m : Model) (s : Store) (req : Req) (i : Id) :
  m ≠ BookInstance →
  cast_id (params_id req) = Some i →
  stored m i s = false →
  ∃ message, responses (detail m req) s = [Next (HttpError message 404)]
             ∧ error_status (HttpError message 404) = 404.
Proof.
  intros Hm Hc%query_id_cast Hs%find_missing.
  destruct m; [| | |done]; eexists; simpl in Hs;
    (split; [|reflexivity]); unfold detail, author_detail, book_detail, genre_detail;
    run_handler; unfold param_id; run_queries Hc; rewrite Hs; reflexivity.
Qed.

(** The update form of an entity whose id is an ObjectId that no document
    has is answered with a 404, for all four entities: each of these
    handlers awaits its query. *)
Lemma update_get_missing_404 (m : Model) (s : Store) (req : Req) (i : Id) :
  cast_id (params_id req) = Some i →
  stored m i s = false →
  ∃ message, responses (update_get m req) s = [Next (HttpError message 404)].
Proof.
  intros Hc%query_id_cast Hs%find_missing.
  destruct m; eexists; simpl in Hs;
    unfold update_get, author_update_get, book_update_get, genre_update_get,
      bookinstance_update_get;
    run_handler; unfold param_id; run_queries Hc; rewrite Hs; reflexivity.
Qed.

(** C2 (the code departs from it): the BookInstance detail handler tests the
    query it has just built, not its result, so it never answers 404: for
    every store and every id it renders the detail view, the unawaited
    query in place of the document. *)
Theorem bookinstance_detail_never_404 (s : Store) (req : Req) :
  responses (bookinstance_detail req) s =
    [Render "bookinstance_detail"
       [("title", L_str "Book:");
        ("bookinstance",
         L_val (Q_populate (Q_findById BookInstance (param_id req)) "book"))]]
  ∧ store_after (bookinstance_detail req) s = s.
Proof. split; reflexivity. Qed.

(** ** Delete confirmation pages *)

(** A GET route whose id is not an ObjectId ends in the error handler: the
    first query throws a CastError, which the handler passes to [next]. *)
Lemma delete_get_malformed (m : Model) (s : Store) (req : Req) :
  cast_id (params_id req) = None →
  responses (delete_get m req) s = [Next (CastError "Cast to ObjectId failed")]
  ∧ store_after (delete_get m req) s = s.
Proof.
  intros Hc%query_id_malformed.
  destruct m; unfold delete_get, author_delete_get, book_delete_get, genre_delete_get,
      bookinstance_delete_get;
    run_handler; unfold param_id; run_queries Hc; split; reflexivity.
Qed.

(** C9, as the code has it: a delete-GET request whose id is an ObjectId
    that no document has makes the handler call [res.redirect] with the
    list page of the entity and then, in the same request, [res.render]
    with the confirmation view; no error is raised and nothing is written. *)
Theorem delete_get_missing_redirects_then_renders (m : Model) (s : Store) (req : Req)
    (i : Id) :
  cast_id (params_id req) = Some i →
  stored m i s = false →
  ∃ locals,
    responses (delete_get m req) s =
      [Redirect (Path (list_page m)); Render (delete_view m) locals]
    ∧ store_after (delete_get m req) s = s.
Proof.
  intros Hc%query_id_cast Hs%find_missing.
  destruct m; simpl in Hs; eexists;
    unfold delete_get, author_delete_get, book_delete_get, genre_delete_get,
      bookinstance_delete_get;
    run_handler; unfold param_id; run_queries Hc; rewrite Hs; simpl; split; reflexivity.
Qed.

End Pages.

Lemma delete_get_missing_redirects_then_renders_witness :
  ∃ locals,
    responses (delete_get Book (mkReq no_id ∅ [])) library =
      [Redirect (Path "/catalog/books"); Render "book_delete" locals]
    ∧ store_after (delete_get Book (mkReq no_id ∅ [])) library = library.
Proof.
  apply (delete_get_missing_redirects_then_renders Book library (mkReq no_id ∅ []) no_id);
    reflexivity.
Defined.

(** C9 as stated fails: an id of the URL that is not an ObjectId has no
    matching document, yet the delete-GET handler neither redirects nor
    renders; the query throws and the request ends in the error handler
    with status 500. *)
Lemma delete_get_malformed_id_is_an_error :
  let req := mkReq "zz" ∅ [] in
  stored Book (params_id req) library = false
  ∧ responses (delete_get Book req) library = [Next (CastError "Cast to ObjectId failed")]
  ∧ error_status (CastError "Cast to ObjectId failed") = 500
  ∧ ¬ (∀ m s req, stored m (params_id req) s = false →
         ∃ locals, responses (delete_get m req) s
                   = [Redirect (Path (list_page m)); Render (delete_view m) locals]).
Proof.
  split_and!; [reflexivity..|].
  intros H. destruct (H Book library (mkReq "zz" ∅ []) eq_refl) as [locals Hr].
  vm_compute in Hr. discriminate.
Qed.

(** ** Deleting a book *)

Section Deleting.
Context `{G : Mongoose}.

(** C1 (the code departs from it): the Book delete-POST handler removes
    nothing and redirects nowhere. Whatever the store and the request, the
    store is left as it was and no call of [res.redirect] is made. *)
Theorem book_delete_post_removes_nothing (s : Store) (req : Req) :
  store_after (book_delete_post req) s = s
  ∧ ∀ t, Redirect t ∉ responses (book_delete_post req) s.
Proof.
  unfold book_delete_post. run_handler.
  destruct (query_id (param_id req)) as [i|e]; simpl.
  - destruct (List.find _ (books s)) as [b|]; simpl.
    + destruct (check_all _ _); simpl; (split; [done|]);
        intros t Ht; apply list_elem_of_singleton in Ht; discriminate.
    + split; [done|]. intros t Ht; apply list_elem_of_singleton in Ht; discriminate.
  - split; [done|]. intros t Ht; apply list_elem_of_singleton in Ht; discriminate.
Qed.

(** ** Deleting a genre *)

Lemma filter_nonempty {A} (p : A → bool) (l : list A) (x : A) :
  x ∈ l → p x = true → filter (λ y, p y = true) l ≠ [].
Proof.
  intros Hin Hp Hf.
  assert (x ∈ filter (λ y, p y = true) l) as H by (by apply list_elem_of_filter).
  rewrite Hf in H. by apply not_elem_of_nil in H.
Qed.

(** As long as a book refers to the genre of the URL, the confirmation page
    is shown again and the store is left alone. *)
Lemma genre_delete_post_blocked (s : Store) (req : Req) (b : Doc) :
  b ∈ books s →
  cast_id (params_id req) = Some (params_id req) →
  matches (FEq "genre" (param_id req)) b = true →
  (∃ locals, responses (genre_delete_post req) s = [Render "genre_delete" locals])
  ∧ store_after (genre_delete_post req) s = s.
Proof.
  intros Hb Hc%query_id_cast Hm. unfold genre_delete_post. run_handler.
  unfold param_id in *. run_queries Hc.
  destruct (filter _ (books s)) as [|b' l] eqn:Hf; simpl.
  - by destruct (filter_nonempty _ _ _ Hb Hm).
  - split; [eexists|]; reflexivity.
Qed.

Lemma removed_is_target (id : JsValue) (g : Id) (l : list Doc) :
  existsb (has_id (JStr g)) l = true →
  existsb (has_id (JStr g)) (remove_first id l) = false →
  id = JStr g.
Proof.
  induction l as [|d l IH]; simpl; [done|].
  destruct (has_id id d) eqn:Hd; simpl.
  - intros Hin Hout. rewrite Hout, orb_false_r in Hin.
    apply has_id_inv in Hd. apply has_id_inv in Hin. congruence.
  - intros Hin Hout. apply orb_false_iff in Hout as [Hg Hout].
    rewrite Hg in Hin. simpl in Hin. by apply IH.
Qed.

(** The Author delete-POST handler checks and removes by one and the same
    id, [req.body.authorid]. *)
Lemma author_delete_post_blocked (s : Store) (req : Req) (b : Doc) (a : Id) :
  b ∈ books s →
  query_id (field req "authorid") = Ok (JStr a) →
  matches (FEq "author" (JStr a)) b = true →
  store_after (author_delete_post req) s = s.
Proof.
  intros Hb Hc Hm. unfold author_delete_post. run_handler. run_queries Hc.
  destruct (filter _ (books s)) as [|b' l] eqn:Hf; simpl; [|done].
  by destruct (filter_nonempty _ _ _ Hb Hm).
Qed.

End Deleting.

(** On the example library, deleting the stored book shows the update form
    and leaves the book in place. *)
Example book_delete_post_library :
  (∃ locals, responses (book_delete_post (mkReq b1 ∅ [])) library
             = [Render "book_form" (("title", L_str "Update Book") :: locals)])
  ∧ stored Book b1 (store_after (book_delete_post (mkReq b1 ∅ [])) library) = true.
Proof. split; [eexists|]; reflexivity. Qed.

(** C4 (the code departs from it): the check is made for the genre of the
    URL, the removal for the genre named in the form. A request for the
    delete page of [g2] (Poetry, no books) that posts the id of [g1] removes
    Fantasy although The Hobbit still refers to it. *)
Theorem genre_delete_post_removes_referenced_genre :
  let req := mkReq g2 {[ "id" := JStr g1 ]} [] in
  let after := store_after (genre_delete_post req) library in
  responses (genre_delete_post req) library = [Redirect (Path "/catalog/genres")]
  ∧ stored Genre g1 library = true
  ∧ stored Genre g1 after = false
  ∧ genres after = [poetry]
  ∧ hobbit ∈ books after
  ∧ matches (FEq "genre" (JStr g1)) hobbit = true.
Proof. vm_compute. split_and!; try reflexivity. apply list_elem_of_here. Qed.

(** ** Validation failures *)

(** What the first middleware of the book routes does to a genre that is
    not a number: absent becomes the empty array, an array stays, any other
    value becomes a one-element array. *)
Lemma genre_to_array_spec (req : Req) :
  (∀ n, field req "genre" ≠ JNum n) →
  ∃ r, genre_to_array req = Ok r
       ∧ field r "genre" = match field req "genre" with
                           | JUndefined => JArr []
                           | JArr items => JArr items
                           | v => JArr [v]
                           end.
Proof.
  intros Hn. unfold genre_to_array.
  destruct (field req "genre") as [| |b|n|t|t|items] eqn:Hg; simpl;
    try (eexists; split; [reflexivity|]; unfold field; simpl;
         by rewrite lookup_insert_eq).
  - by destruct (Hn n).
  - eexists; split; [reflexivity|]. done.
Qed.

(** Whenever the middleware hands the request on, the genre is an array. *)
Lemma genre_to_array_is_array (req r : Req) :
  genre_to_array req = Ok r → is_array (field r "genre") = true.
Proof.
  unfold genre_to_array.
  destruct (is_array (field req "genre")) eqn:Ha; simpl; [by intros [= <-]|].
  destruct (is_undefined _).
  - intros [= <-]. unfold field. simpl. by rewrite lookup_insert_eq.
  - unfold new_Array. destruct (field req "genre"); try case_bool_decide;
      intros [= <-]; unfold field; simpl; by rewrite lookup_insert_eq.
Qed.

Create HintDb checks.

Section Validation.
Context `{V : Validator} `{G : Mongoose}.

Lemma stack_prepare (ms : list Middleware) (h : Req → M unit) (req : Req) :
  stack ms h req = match prepare ms req with Ok r => h r | Throw e => next e end.
Proof.
  revert req. induction ms as [|m ms IH]; intros req; simpl; [done|].
  destruct (m req); [apply IH|done].
Qed.

Lemma post_stack (f : Form) (m : Model) :
  post f m = stack (checks f m) (post_handler f m).
Proof. by destruct m, f. Qed.

(** A handler that is given validation errors writes nothing. *)
Lemma invalid_handler_writes_nothing (f : Form) (m : Model) (s : Store) (req : Req) :
  verrors req ≠ [] → store_after (post_handler f m req) s = s.
Proof.
  intros He. destruct (verrors req) as [|e es] eqn:Hv; [done|].
  destruct m, f; unfold post_handler, author_create_post_handler,
    author_update_post_handler, book_create_post_handler, book_update_post_handler,
    genre_create_post_handler, genre_update_post_handler,
    bookinstance_create_post_handler, bookinstance_update_post_handler;
    run_handler; rewrite Hv; simpl; try done;
    destruct (ref_id _); done.
Qed.

(** A POST route whose validation fails writes nothing, for every entity
    and both forms. *)
Lemma invalid_post_writes_nothing (f : Form) (m : Model) (s : Store) (req r : Req) :
  prepare (checks f m) req = Ok r →
  verrors r ≠ [] →
  store_after (post f m req) s = s.
Proof.
  intros Hp He. rewrite post_stack, stack_prepare, Hp.
  by apply invalid_handler_writes_nothing.
Qed.

(** For Author, Book and Genre the form is shown again with the errors. *)
Lemma invalid_post_renders_form (f : Form) (m : Model) (s : Store) (req r : Req) :
  m ≠ BookInstance →
  prepare (checks f m) req = Ok r →
  verrors r ≠ [] →
  ∃ locals, responses (post f m req) s = [Render (form_view m) locals]
            ∧ ("errors", L_errors (verrors r)) ∈ locals.
Proof.
  intros Hm Hp He. rewrite post_stack, stack_prepare, Hp.
  destruct (verrors r) as [|e es] eqn:Hv; [done|].
  destruct m, f; try done; unfold post_handler, author_create_post_handler,
    author_update_post_handler, book_create_post_handler, book_update_post_handler,
    genre_create_post_handler, genre_update_post_handler;
    run_handler; rewrite Hv; simpl; eexists; (split; [reflexivity|]);
    rewrite !elem_of_cons; auto 10.
Qed.

(** The book of a BookInstance that is made with a string: the ObjectId
    the string is cast to, or nothing. *)
Lemma bookinstance_book (id : Id) (b : string) (imprint status due_back : JsValue) :
  let d := doc_of BookInstance id
             [("book", JStr b); ("imprint", imprint); ("status", status);
              ("due_back", due_back)] in
  get d "book" = match cast_id b with
                 | Some i => JStr i
                 | None => default JUndefined (defaults BookInstance !! "book")
                 end.
Proof.
  intros d. unfold d. clear d. destruct (cast_id b) as [i|] eqn:Hc.
  - apply (get_doc_of _ _ _ "book" (JStr b)); [by apply (bool_decide_unpack _); vm_compute
      |apply list_elem_of_here|simpl; by rewrite Hc|done].
  - apply (get_doc_of_unset _ _ _ "book" (JStr b)); [by apply (bool_decide_unpack _); vm_compute
      |apply list_elem_of_here|left; simpl; by rewrite Hc].
Qed.

(** For a BookInstance it is shown again provided the book of the form is
    an ObjectId. *)
Lemma invalid_bookinstance_post_renders_form (f : Form) (s : Store) (req r : Req)
    (b : string) (i : Id) :
  prepare (checks f BookInstance) req = Ok r →
  verrors r ≠ [] →
  field r "book" = JStr b →
  cast_id b = Some i →
  ∃ locals, responses (post f BookInstance req) s = [Render "bookinstance_form" locals]
            ∧ ("errors", L_errors (verrors r)) ∈ locals
            ∧ ("selected_book", L_js (JStr i)) ∈ locals.
Proof.
  intros Hp He Hb Hc. rewrite post_stack, stack_prepare, Hp.
  destruct (verrors r) as [|e es] eqn:Hv; [done|].
  destruct f; unfold post_handler, bookinstance_create_post_handler,
    bookinstance_update_post_handler;
    run_handler; rewrite Hv; simpl; rewrite ?get_doc_with_id, Hb, bookinstance_book, Hc;
    simpl; eexists; (split_and!; [reflexivity|..]); rewrite !elem_of_cons; auto 10.
Qed.


Lemma check_body_keeps_errors name dflt steps : keeps_errors (check_body name dflt steps).
Proof. intros req r [= <-]. simpl. eauto. Qed.

Lemma sanitizeBody_keeps_errors name steps : keeps_errors (sanitizeBody name steps).
Proof. intros req r [= <-]. exists []. simpl. by rewrite app_nil_r. Qed.

Lemma sanitizeBody_all_keeps_errors steps : keeps_errors (sanitizeBody_all steps).
Proof. intros req r [= <-]. exists []. simpl. by rewrite app_nil_r. Qed.

Lemma sanitizeBody_each_keeps_errors name steps : keeps_errors (sanitizeBody_each name steps).
Proof. intros req r [= <-]. exists []. simpl. by rewrite app_nil_r. Qed.

Lemma genre_to_array_keeps_errors : keeps_errors genre_to_array.
Proof.
  intros req r. unfold genre_to_array.
  destruct (negb _); [destruct (is_undefined _); [|destruct (new_Array _)]|];
    intros [= <-]; exists []; simpl; by rewrite app_nil_r.
Qed.

Lemma prepare_keeps_errors (ms : list Middleware) (req r : Req) :
  Forall keeps_errors ms → prepare ms req = Ok r → ∃ es, verrors r = verrors req ++ es.
Proof.
  intros Hms. revert req. induction Hms as [|m ms Hm _ IH]; intros req; simpl.
  - intros [= <-]. exists []. by rewrite app_nil_r.
  - destruct (m req) as [r1|] eqn:Hr1; [|done]. intros Hp.
    destruct (Hm _ _ Hr1) as [es1 H1], (IH _ Hp) as [es2 H2].
    exists (es1 ++ es2). by rewrite H2, H1, app_assoc.
Qed.


Lemma prepare_total (ms : list Middleware) (req : Req) :
  Forall total ms → ∃ r, prepare ms req = Ok r.
Proof.
  intros Hms. revert req. induction Hms as [|m ms Hm _ IH]; intros req; simpl; [eauto|].
  destruct (Hm req) as [r1 ->]. apply IH.
Qed.

Lemma check_body_total name dflt steps : total (check_body name dflt steps).
Proof. intros req. eexists. reflexivity. Qed.

Lemma sanitizeBody_total name steps : total (sanitizeBody name steps).
Proof. intros req. eexists. reflexivity. Qed.

Lemma sanitizeBody_each_total name steps : total (sanitizeBody_each name steps).
Proof. intros req. eexists. reflexivity. Qed.

Lemma sanitizeBody_all_total steps : total (sanitizeBody_all steps).
Proof. intros req. eexists. reflexivity. Qed.

#[local] Hint Resolve check_body_total sanitizeBody_total sanitizeBody_each_total
  sanitizeBody_all_total : checks.
#[local] Hint Resolve check_body_keeps_errors sanitizeBody_keeps_errors
  sanitizeBody_all_keeps_errors sanitizeBody_each_keeps_errors
  genre_to_array_keeps_errors : checks.

Lemma genre_to_array_other (req r : Req) (name : string) :
  genre_to_array req = Ok r → name ≠ "genre" → field r name = field req name.
Proof.
  unfold genre_to_array. intros H Hn.
  destruct (negb _); [destruct (is_undefined _); [|destruct (new_Array _)]|];
    simplify_eq; try done; unfold field; simpl; by rewrite lookup_insert_ne.
Qed.

(** What each middleware does to a field of the body. *)
Lemma sanitize_undefined (steps : list Step) : sanitize steps JUndefined = JUndefined.
Proof. unfold sanitize. induction steps as [|[] steps IH]; simpl; done. Qed.

Lemma check_body_field (name dflt : string) (steps : list Step) (req r : Req) (k : string) :
  check_body name dflt steps req = Ok r →
  field r k = if String.eqb k name then sanitize steps (field req name) else field req k.
Proof.
  intros [= <-]. unfold field at 1. simpl.
  destruct (String.eqb_spec k name) as [->|Hk].
  - unfold field. destruct (body req !! name) eqn:Hb; simpl.
    + by rewrite lookup_insert_eq.
    + by rewrite Hb, sanitize_undefined.
  - destruct (body req !! name); [by rewrite lookup_insert_ne|done].
Qed.

Lemma check_body_errors (name dflt : string) (steps : list Step) (req r : Req) :
  check_body name dflt steps req = Ok r →
  verrors r = verrors req ++ validate name dflt steps (sanitize steps (field req name)).
Proof. by intros [= <-]. Qed.

Lemma sanitizeBody_field (name : string) (steps : list Step) (req r : Req) (k : string) :
  sanitizeBody name steps req = Ok r →
  field r k = if String.eqb k name then sanitize steps (field req name) else field req k.
Proof.
  intros [= <-]. unfold field. simpl.
  destruct (String.eqb_spec k name) as [->|Hk].
  - rewrite lookup_alter_eq. destruct (body req !! name); simpl; [done|].
    by rewrite sanitize_undefined.
  - by rewrite lookup_alter_ne.
Qed.

Lemma sanitizeBody_each_field (name : string) (steps : list Step) (req r : Req) (k : string) :
  sanitizeBody_each name steps req = Ok r →
  field r k = if String.eqb k name
              then match field req name with
                   | JArr items => JArr (sanitize steps <$> items)
                   | v => v
                   end
              else field req k.
Proof.
  intros [= <-]. unfold field. simpl.
  destruct (String.eqb_spec k name) as [->|Hk].
  - rewrite lookup_alter_eq. by destruct (body req !! name) as [[]|].
  - by rewrite lookup_alter_ne.
Qed.

Lemma sanitizeBody_all_field (steps : list Step) (req r : Req) (k : string) :
  sanitizeBody_all steps req = Ok r → field r k = sanitize steps (field req k).
Proof.
  intros [= <-]. unfold field. simpl. rewrite lookup_fmap.
  destruct (body req !! k); simpl; [done|].
  by rewrite sanitize_undefined.
Qed.

Lemma sanitizers_keep (req r : Req) :
  (∃ name steps, sanitizeBody name steps req = Ok r)
  ∨ (∃ name steps, sanitizeBody_each name steps req = Ok r)
  ∨ (∃ steps, sanitizeBody_all steps req = Ok r)
  ∨ genre_to_array req = Ok r →
  verrors r = verrors req ∧ params_id r = params_id req.
Proof.
  intros [(?&?&[= <-])|[(?&?&[= <-])|[(?&[= <-])|H]]]; try done.
  revert H. unfold genre_to_array.
  destruct (negb _); [destruct (is_undefined _); [|destruct (new_Array _)]|];
    by intros [= <-].
Qed.

Lemma check_body_params (name dflt : string) (steps : list Step) (req r : Req) :
  check_body name dflt steps req = Ok r → params_id r = params_id req.
Proof. by intros [= <-]. Qed.

Lemma sanitizeBody_head (name : string) (steps : list Step) (req r : Req) :
  sanitizeBody name steps req = Ok r →
  verrors r = verrors req ∧ params_id r = params_id req.
Proof. intros H. apply sanitizers_keep. eauto. Qed.

Lemma sanitizeBody_each_head (name : string) (steps : list Step) (req r : Req) :
  sanitizeBody_each name steps req = Ok r →
  verrors r = verrors req ∧ params_id r = params_id req.
Proof. intros H. apply sanitizers_keep. eauto 6. Qed.

Lemma sanitizeBody_all_head (steps : list Step) (req r : Req) :
  sanitizeBody_all steps req = Ok r →
  verrors r = verrors req ∧ params_id r = params_id req.
Proof. intros H. apply sanitizers_keep. eauto 6. Qed.

Lemma genre_to_array_head (req r : Req) :
  genre_to_array req = Ok r →
  verrors r = verrors req ∧ params_id r = params_id req.
Proof. intros H. apply sanitizers_keep. eauto 6. Qed.

Lemma prepare_cons (m : Middleware) (ms : list Middleware) (req r : Req) :
  prepare (m :: ms) req = Ok r → ∃ r1, m req = Ok r1 ∧ prepare ms r1 = Ok r.
Proof. simpl. destruct (m req) as [r1|]; [eauto|done]. Qed.

Lemma field_after_ext (p : Pure) (f g : string → JsValue) :
  (∀ k, f k = g k) → ∀ k, field_after p f k = field_after p g k.
Proof. intros H k. destruct p; simpl; by rewrite ?H. Qed.

Lemma errors_of_ext (p : Pure) (f g : string → JsValue) :
  (∀ k, f k = g k) → errors_of p f = errors_of p g.
Proof. intros H. destruct p; simpl; by rewrite ?H. Qed.

Lemma fields_through_ext (ps : list Pure) (f g : string → JsValue) :
  (∀ k, f k = g k) → ∀ k, fields_through ps f k = fields_through ps g k.
Proof.
  revert f g. induction ps as [|p ps IH]; intros f g H k; simpl; [done|].
  apply IH. by apply field_after_ext.
Qed.

Lemma errors_through_ext (ps : list Pure) (f g : string → JsValue) :
  (∀ k, f k = g k) → errors_through ps f = errors_through ps g.
Proof.
  revert f g. induction ps as [|p ps IH]; intros f g H; simpl; [done|].
  rewrite (errors_of_ext p f g H). f_equal. apply IH. by apply field_after_ext.
Qed.

(** What the handler of a form receives, from what was submitted. *)
Lemma prepare_pure (ps : list Pure) (req : Req) :
  ∃ r, prepare (middleware <$> ps) req = Ok r
       ∧ params_id r = params_id req
       ∧ verrors r = verrors req ++ errors_through ps (field req)
       ∧ ∀ k, field r k = fields_through ps (field req) k.
Proof.
  revert req. induction ps as [|p ps IH]; intros req.
  - exists req. split_and!; [done..|by rewrite app_nil_r|done].
  - assert (∃ r1, middleware p req = Ok r1
                  ∧ params_id r1 = params_id req
                  ∧ verrors r1 = verrors req ++ errors_of p (field req)
                  ∧ ∀ k, field r1 k = field_after p (field req) k)
      as (r1 & H1 & Hp1 & He1 & Hf1).
    { destruct p as [name dflt steps|name steps|steps|name steps];
        eexists; (split; [reflexivity|]); simpl.
      - split_and!; [done|done|]. intros k. by apply (check_body_field name dflt steps req).
      - split_and!; [done|by rewrite app_nil_r|]. intros k.
        by apply (sanitizeBody_field name steps req).
      - split_and!; [done|by rewrite app_nil_r|]. intros k.
        by apply (sanitizeBody_all_field steps req).
      - split_and!; [done|by rewrite app_nil_r|]. intros k.
        by apply (sanitizeBody_each_field name steps req). }
    destruct (IH r1) as (r & Hr & Hp & He & Hf).
    exists r. cbn [fmap list_fmap prepare]. rewrite H1.
    split_and!; [done|congruence| |].
    + rewrite He, He1, <- app_assoc. simpl. f_equal. f_equal.
      by apply errors_through_ext.
    + intros k. rewrite Hf. simpl. by apply fields_through_ext.
Qed.

(** The middlewares of a form: the conversion of the genre for a book, then
    those that hand the request on. *)
Lemma checks_pure (f : Form) (m : Model) :
  checks f m = (match m with Book => [genre_to_array] | _ => [] end)
               ++ (middleware <$> pure_checks f m).
Proof. by destruct m, f. Qed.

(** What the handler of a form receives when the genre is no number: the
    fields of the body, the genre made an array, taken through the checks
    and sanitizers of the route. *)
Lemma prepare_checks (f : Form) (m : Model) (req : Req) :
  (m = Book → ∀ n, field req "genre" ≠ JNum n) →
  let fields := λ k, match m with
                     | Book => if String.eqb k "genre"
                               then JArr (genre_items (field req "genre"))
                               else field req k
                     | _ => field req k
                     end in
  ∃ r, prepare (checks f m) req = Ok r
       ∧ params_id r = params_id req
       ∧ verrors r = verrors req ++ errors_through (pure_checks f m) fields
       ∧ ∀ k, field r k = fields_through (pure_checks f m) fields k.
Proof.
  intros Hg fields. rewrite checks_pure.
  destruct (decide (m = Book)) as [->|Hm].
  - destruct (genre_to_array_spec req (Hg eq_refl)) as (r1 & H1 & Hg1).
    destruct (prepare_pure (pure_checks f Book) r1) as (r & Hr & Hp & He & Hf).
    exists r. cbn [app prepare]. rewrite H1.
    destruct (genre_to_array_head _ _ H1) as [He1 Hp1].
    assert (∀ k, field r1 k = fields k) as Hfields.
    { intros k. unfold fields.
      destruct (String.eqb_spec k "genre") as [->|Hk].
      - rewrite Hg1. unfold genre_items. by destruct (field req "genre").
      - by apply genre_to_array_other. }
    split_and!; [done|congruence| |].
    + rewrite He, He1. f_equal. by apply errors_through_ext.
    + intros k. rewrite Hf. by apply fields_through_ext.
  - destruct (prepare_pure (pure_checks f m) req) as (r & Hr & Hp & He & Hf).
    exists r. assert (∀ k, field req k = fields k) as Hfields.
    { intros k. unfold fields. by destruct m. }
    split_and!.
    + by destruct m.
    + done.
    + rewrite He. f_equal. by apply errors_through_ext.
    + intros k. rewrite Hf. by apply fields_through_ext.
Qed.

(** A required field that passed its check holds a value. *)
Lemma required_field_defined (name dflt : string) (v : JsValue) :
  validate name dflt [IsLength 1 None; Trim] (sanitize [Trim] v) = [] →
  is_undefined (sanitize [Trim; Escape] (sanitize [Trim] v)) = false.
Proof. by destruct v. Qed.

(** Creating a Book with a title that is empty once it is trimmed: nothing
    is saved, and the answer is the form again (or the error of a genre
    that could not be made an array), never a redirect to a new book. *)
Lemma empty_title_is_rejected (s : Store) (req : Req) (t : string) :
  field req "title" = JStr t →
  trim t = EmptyString →
  store_after (book_create_post req) s = s
  ∧ ((∃ locals, responses (book_create_post req) s = [Render "book_form" locals])
     ∨ (∃ e, genre_to_array req = Throw e ∧ responses (book_create_post req) s = [Next e])).
Proof.
  intros Ht Htrim. destruct (prepare book_create_checks req) as [r|e] eqn:Hp.
  - assert (verrors r ≠ []) as He.
    { unfold book_create_checks in Hp.
      apply prepare_cons in Hp as (r1 & Hg & Hp).
      apply prepare_cons in Hp as (r2 & H2 & Hp).
      apply prepare_keeps_errors in Hp as [es Hes];
        [|repeat first [apply Forall_nil_2 | apply Forall_cons_2; [by auto with checks|]]].
      rewrite Hes, (check_body_errors _ _ _ _ _ H2),
        (genre_to_array_other _ _ "title" Hg), Ht by done.
      unfold validate. simpl. rewrite Htrim. simpl. intros H. apply app_eq_nil in H as [H _].
      apply app_eq_nil in H as [_ H]. done. }
    split.
    + by apply (invalid_post_writes_nothing Create Book s req r).
    + left. destruct (invalid_post_renders_form Create Book s req r) as [locals [H _]]; eauto.
  - assert (genre_to_array req = Throw e) as Hg.
    { unfold book_create_checks in Hp. cbn [prepare] in Hp.
      destruct (genre_to_array req); [discriminate|congruence]. }
    unfold book_create_post. rewrite stack_prepare, Hp. split; [done|]. right. eauto.
Qed.

End Validation.

#[global] Hint Resolve check_body_total sanitizeBody_total sanitizeBody_each_total
  sanitizeBody_all_total check_body_keeps_errors sanitizeBody_keeps_errors
  sanitizeBody_all_keeps_errors sanitizeBody_each_keeps_errors
  genre_to_array_keeps_errors : checks.

(** Proves a property of every middleware of a route. *)
Ltac solve_checks :=
  unfold author_checks, genre_checks, bookinstance_checks, book_create_checks,
    book_update_checks;
  repeat first [apply Forall_nil_2 | apply Forall_cons_2; [by auto with checks|]].

(** ** Updating an author *)

Section Author_update.
Context `{V : Validator} `{G : Mongoose}.

(** C5 (the code departs from it): the update query of the Author
    update-POST handler is built and never awaited, so it is never run. For
    every store and request the stored authors stay as they were, and the
    answer is either the form again or a redirect to an undefined address,
    not to the author's page. *)
Theorem author_update_post_writes_nothing (s : Store) (req : Req) :
  store_after (author_update_post req) s = s
  ∧ (responses (author_update_post req) s = [Redirect NoUrl]
     ∨ ∃ locals, responses (author_update_post req) s = [Render "author_form" locals]).
Proof.
  unfold author_update_post. rewrite stack_prepare.
  destruct (prepare_total author_checks req) as [r Hr]; [solve_checks|].
  rewrite Hr.
  unfold author_update_post_handler. run_handler.
  destruct (verrors r); simpl; split; eauto.
Qed.

End Author_update.

(** On the example library, a valid update of the stored author is
    answered with a redirect to no address and changes nothing. *)
Example author_update_post_library :
  let req := mkReq a1 (list_to_map [("first_name", JStr "Ronald"); ("family_name", JStr "Tolkien")]) [] in
  responses (author_update_post req) library = [Redirect NoUrl]
  ∧ authors (store_after (author_update_post req) library) = [tolkien].
Proof. vm_compute. split; reflexivity. Qed.

(** C3 (the code departs from it): a BookInstance form posted without a book
    fails validation, yet the handler does not show the form again: reading
    [bookinstance.book._id] throws, and the request ends in the error
    handler. Nothing is saved. (For the other entities, and for a
    BookInstance whose book field is present, the form is shown again; in
    all cases nothing is written: see the lemmas above.) *)
Theorem bookinstance_create_post_without_book `{V : Validator} :
  let req := mkReq EmptyString {[ "imprint" := JStr "Unwin 1937" ]} [] in
  (∃ r, prepare bookinstance_checks req = Ok r
        ∧ verrors r = mkVError "book" "Book must be specified"
                      :: failed "imprint" "Imprint must be specified" None
                           (nonempty (JStr (trim "Unwin 1937"))))
  ∧ responses (bookinstance_create_post req) library
    = [Next (TypeError "Cannot read property '_id' of undefined")]
  ∧ error_status (TypeError "Cannot read property '_id' of undefined") = 500
  ∧ store_after (bookinstance_create_post req) library = library.
Proof.
  destruct V as [tr es al iso td].
  split_and!; [eexists; split; [reflexivity|]|..].
  - vm_compute. by destruct (tr "Unwin 1937").
  - vm_compute. by destruct (tr "Unwin 1937").
  - reflexivity.
  - vm_compute. by destruct (tr "Unwin 1937").
Qed.

(** ** The genre field of the book forms *)

Section Book_create.
Context `{V : Validator} `{G : Mongoose}.

(** The handler of the create route always receives the genre as an array,
    so a Book is never saved with a genre that is not a list. *)
Lemma book_create_genre_is_array (req r : Req) :
  prepare book_create_checks req = Ok r → is_array (field r "genre") = true.
Proof.
  unfold book_create_checks. intros Hp.
  apply prepare_cons in Hp as (r1 & H1 & Hp).
  apply prepare_cons in Hp as (r2 & H2 & Hp).
  apply prepare_cons in Hp as (r3 & H3 & Hp).
  apply prepare_cons in Hp as (r4 & H4 & Hp).
  apply prepare_cons in Hp as (r5 & H5 & Hp).
  apply prepare_cons in Hp as (r6 & H6 & Hp).
  apply prepare_cons in Hp as (r7 & H7 & Hp).
  simpl in Hp. injection Hp as ->.
  pose proof (genre_to_array_is_array _ _ H1) as Hg.
  rewrite (sanitizeBody_each_field _ _ _ _ "genre" H7),
    (sanitizeBody_all_field _ _ _ "genre" H6),
    (check_body_field _ _ _ _ _ "genre" H5), (check_body_field _ _ _ _ _ "genre" H4),
    (check_body_field _ _ _ _ _ "genre" H3), (check_body_field _ _ _ _ _ "genre" H2).
  simpl. revert Hg. by destruct (field r1 "genre").
Qed.

End Book_create.

(** A Book can be created with no genre selected: it is saved with the
    empty list. *)
Example book_created_without_genre :
  let req := mkReq EmptyString (list_to_map
               [("title", JStr "Dune"); ("author", JStr a1); ("summary", JStr "Arrakis");
                ("isbn", JStr "9780441013593")]) [] in
  let after := store_after (book_create_post req) library in
  responses (book_create_post req) library = [Redirect (DetailUrl Book (fresh_id library))]
  ∧ (λ b, get b "genre") <$> last (books after) = Some (JArr []).
Proof. split; vm_compute; reflexivity. Qed.

(** C10 (the code departs from it): [new Array(genre)] does not wrap a
    number. A JSON body with "genre": 2 leaves the middleware with an array
    of two empty slots, not with the one-element list [2], and the new book
    is saved with the two slots, written as [null]. *)
Theorem genre_to_array_number :
  let req := mkReq EmptyString (list_to_map
               [("title", JStr "Dune"); ("author", JStr a1); ("summary", JStr "Arrakis");
                ("isbn", JStr "9780441013593"); ("genre", JNum 2)]) [] in
  let after := store_after (book_create_post req) library in
  (∃ r, genre_to_array req = Ok r ∧ field r "genre" = JArr [JUndefined; JUndefined])
  ∧ responses (book_create_post req) library = [Redirect (DetailUrl Book (fresh_id library))]
  ∧ (λ b, get b "genre") <$> last (books after) = Some (JArr [JNull; JNull]).
Proof. split_and!; [eexists; split|..]; vm_compute; reflexivity. Qed.

(** ** Updating a book *)

Section Updating.
Context `{G : Mongoose}.

Lemma find_update_first (id : JsValue) (u old : Doc) (l : list Doc) :
  List.find (has_id id) l = Some old →
  List.find (has_id id) (update_first id u l) = Some (apply_update u old).
Proof.
  induction l as [|d l IH]; simpl; [done|].
  destruct (has_id id d) eqn:Hd; simpl.
  - intros [= ->]. by rewrite (eq_refl : has_id id (apply_update u old) = has_id id old), Hd.
  - rewrite Hd. exact IH.
Qed.

Lemma update_first_ids (id : JsValue) (u : Doc) (l : list Doc) :
  doc_id <$> update_first id u l = doc_id <$> l.
Proof.
  induction l as [|d l IH]; simpl; [done|].
  destruct (has_id id d); simpl; [done|]. f_equal. exact IH.
Qed.

(** An attribute that the update sets is that of the update. *)
Lemma get_apply_update (u old : Doc) (k : string) :
  is_undefined (get u k) = false → get (apply_update u old) k = get u k.
Proof.
  unfold get, apply_update. simpl. rewrite lookup_union.
  destruct (doc_fields u !! k) as [v|]; [|done]. by destruct (doc_fields old !! k).
Qed.

Lemma mapM_cast_item (l : list string) :
  mapM cast_item (JStr <$> l) = fmap JStr <$> mapM cast_id l.
Proof.
  induction l as [|x l IH]; [done|]. cbn [fmap list_fmap mapM]. rewrite IH.
  cbn [cast_item cast_ref]. destruct (cast_id x); [|done]. simpl.
  by destruct (mapM cast_id l).
Qed.

End Updating.

Lemma nonempty_length (t : string) : t ≠ EmptyString → (1 <=? String.length t)%nat = true.
Proof. by destruct t. Qed.

(** The keys of the object a document of a model is made with are
    distinct. *)
Ltac distinct_keys := by apply (bool_decide_unpack _); vm_compute.

(** The place of an attribute in the object a document is made with. *)
Ltac find_key := repeat first [apply list_elem_of_here | apply list_elem_of_further].

Section Book_update.
Context `{V : Validator} `{G : Mongoose}.

(** What the handler of a book form receives of a form whose title, author,
    summary and isbn are strings and whose genre is no string, one string
    or a list of strings. *)
Lemma book_form_prepared (f : Form) (req : Req) (title author summary isbn : string)
    (genre : list string) :
  field req "title" = JStr title →
  field req "author" = JStr author →
  field req "summary" = JStr summary →
  field req "isbn" = JStr isbn →
  genre_items (field req "genre") = JStr <$> genre →
  ∃ r, prepare (checks f Book) req = Ok r
       ∧ params_id r = params_id req
       ∧ verrors r = verrors req ++ book_errors req
       ∧ field r "title" = JStr (clean title)
       ∧ field r "author" = JStr (clean author)
       ∧ field r "summary" = JStr (clean summary)
       ∧ field r "isbn" = JStr (clean isbn)
       ∧ field r "genre" = JArr (JStr <$> (escape ∘ trim <$> genre)).
Proof.
  intros Ht Ha Hsu Hi Hg.
  destruct (prepare_checks f Book req) as (r & Hp & Hpid & He & Hf).
  { intros _ n Hn. rewrite Hn in Hg. by destruct genre. }
  exists r. split_and!; [done|done|..]; rewrite ?He, ?Hf.
  - f_equal. unfold book_errors, nonempty, trimmed.
    destruct f; simpl; unfold validate; simpl; by rewrite !app_nil_r.
  - destruct f; simpl; by rewrite Ht.
  - destruct f; simpl; by rewrite Ha.
  - destruct f; simpl; by rewrite Hsu.
  - destruct f; simpl; by rewrite Hi.
  - destruct f; simpl; rewrite Hg; f_equal; rewrite <- !list_fmap_compose;
      by apply list_fmap_ext.
Qed.


(** The document a book form is made into. *)
Lemma book_doc (d : Doc) (title author summary isbn : string) (genre : list string)
    (author_id : Id) (genre_ids : list Id) :
  (∀ k, get d k = get (doc_of Book (doc_id d)
                         [("title", JStr (clean title)); ("author", JStr (clean author));
                          ("summary", JStr (clean summary)); ("isbn", JStr (clean isbn));
                          ("genre", JArr (JStr <$> (escape ∘ trim <$> genre)))]) k) →
  cast_id (clean author) = Some author_id →
  mapM cast_id (escape ∘ trim <$> genre) = Some genre_ids →
  get d "title" = JStr (clean title)
  ∧ get d "author" = JStr author_id
  ∧ get d "summary" = JStr (clean summary)
  ∧ get d "isbn" = JStr (clean isbn)
  ∧ get d "genre" = JArr (JStr <$> genre_ids).
Proof.
  intros Hd Ha Hg. rewrite !Hd. split_and!.
  - by apply (get_doc_of _ _ _ "title" (JStr (clean title))); [distinct_keys|find_key|..].
  - apply (get_doc_of _ _ _ "author" (JStr (clean author))); [distinct_keys|find_key| |done].
    simpl. by rewrite Ha.
  - by apply (get_doc_of _ _ _ "summary" (JStr (clean summary))); [distinct_keys|find_key|..].
  - by apply (get_doc_of _ _ _ "isbn" (JStr (clean isbn))); [distinct_keys|find_key|..].
  - apply (get_doc_of _ _ _ "genre" (JArr (JStr <$> (escape ∘ trim <$> genre))));
      [distinct_keys|find_key| |done].
    simpl. by rewrite mapM_cast_item, Hg.
Qed.


End Book_update.


(** What the update stores on the example: the trimmed title and the genre
    as a one-element array. *)
Example hobbit_update_stored :
  (λ b, (get b "title", get b "genre"))
    <$> books (store_after (book_update_post hobbit_update) library)
  = [(JStr "The Hobbit", JArr [JStr g2])].
Proof. vm_compute. reflexivity. Qed.

(** ** List pages *)

Lemma bson_leb_total (a b : JsValue) : bson_leb a b = true ∨ bson_leb b a = true.
Proof.
  destruct a as [| |x|x|x|x|x], b as [| |y|y|y|y|y]; unfold bson_leb; simpl; auto.
  - destruct x, y; auto.
  - destruct (Z.leb_spec x y), (Z.leb_spec y x); auto; lia.
  - apply String.leb_total.
  - apply String.leb_total.
Qed.

Lemma bson_leb_trans (a b c : JsValue) :
  bson_leb a b = true → bson_leb b c = true → bson_leb a c = true.
Proof.
  destruct a as [| |x|x|x|x|x], b as [| |y|y|y|y|y], c as [| |z|z|z|z|z];
    unfold bson_leb; simpl; try done.
  - by destruct x, y, z.
  - rewrite !Z.leb_le. lia.
  - intros H1%Is_true_true H2%Is_true_true. apply Is_true_true.
    by apply (transitivity (R := String.le) H1 H2).
  - intros H1%Is_true_true H2%Is_true_true. apply Is_true_true.
    by apply (transitivity (R := String.le) H1 H2).
Qed.

#[global] Instance ascending_total (path : string) : Total (ascending path).
Proof. intros a b. apply bson_leb_total. Qed.

#[global] Instance ascending_trans (path : string) : Transitive (ascending path).
Proof. intros a b c. apply bson_leb_trans. Qed.

Section Lists.
Context `{G : Mongoose}.

Lemma filter_all (l : list Doc) : filter (λ d, matches FAll d = true) l = l.
Proof.
  induction l as [|d l IH]; [done|].
  rewrite filter_cons_True by done. by rewrite IH.
Qed.

Lemma project_all (l : list Doc) : project None <$> l = l.
Proof. induction l as [|d l IH]; [done|]. by rewrite fmap_cons, IH. Qed.

(** C7, as the code has it: the Author list is the stored authors in
    ascending order of family_name, the Genre list the stored genres in
    ascending order of name; the Book list and the BookInstance list are the
    stored documents in storage order (of a book only title and author),
    with no sort applied. *)
Theorem list_pages (s : Store) (req : Req) :
  (StronglySorted (ascending "family_name") (listing (author_list req) s)
   ∧ listing (author_list req) s ≡ₚ authors s)
  ∧ (StronglySorted (ascending "name") (listing (genre_list req) s)
     ∧ listing (genre_list req) s ≡ₚ genres s)
  ∧ listing (book_list req) s = project (Some ["title"; "author"]) <$> books s
  ∧ listing (bookinstance_list req) s = bookinstances s.
Proof.
  unfold listing, author_list, genre_list, book_list, bookinstance_list.
  run_handler. rewrite !filter_all, !project_all.
  split_and!; try done.
  - apply StronglySorted_merge_sort; apply _.
  - apply merge_sort_Permutation.
  - apply StronglySorted_merge_sort; apply _.
  - apply merge_sort_Permutation.
Qed.

End Lists.

(** C7 as stated fails: there is no attribute in which the BookInstance list
    is ascending for every store, and neither title nor author is one for
    the Book list; a collection stored in descending order is listed in
    descending order. *)
Lemma lists_not_all_sorted :
  ¬ (∃ path, ∀ s, Sorted (ascending path) (listing (bookinstance_list (mkReq EmptyString ∅ [])) s))
  ∧ (∀ path, path = "title" ∨ path = "author" →
       ¬ ∀ s, Sorted (ascending path) (listing (book_list (mkReq EmptyString ∅ [])) s))
  ∧ listing (book_list (mkReq EmptyString ∅ [])) (mkStore [] (descending_pair Book "title") [] [])
    = descending_pair Book "title".
Proof.
  split_and!.
  - intros [path H].
    specialize (H (mkStore [] [] [] (descending_pair BookInstance path))).
    apply Sorted_inv in H as [_ H]. apply HdRel_inv in H.
    unfold ascending, get in H. simpl in H. rewrite !lookup_singleton_eq in H.
    discriminate.
  - intros path [-> | ->] H.
    + specialize (H (mkStore [] (descending_pair Book "title") [] [])).
      apply Sorted_inv in H as [_ H]. apply HdRel_inv in H. vm_compute in H. discriminate.
    + specialize (H (mkStore [] (descending_pair Book "author") [] [])).
      apply Sorted_inv in H as [_ H]. apply HdRel_inv in H. vm_compute in H. discriminate.
  - vm_compute. reflexivity.
Qed.

(** ** Creating a genre *)

Lemma named_same (name : JsValue) (g : Doc) : get g "name" = name → named name g = true.
Proof. intros <-. unfold named, matches. by rewrite js_eqb_refl. Qed.

Lemma find_app_none {A} (p : A → bool) (l : list A) (x : A) :
  List.find p l = None → p x = true → List.find p (l ++ [x]) = Some x.
Proof.
  induction l as [|y l IH]; simpl.
  - by intros _ ->.
  - destruct (p y); [done|]. exact IH.
Qed.

Lemma filter_none {A} (p : A → bool) (l : list A) :
  List.find p l = None → filter (λ x, p x = true) l = [].
Proof.
  induction l as [|y l IH]; simpl; [done|].
  destruct (p y) eqn:Hy; [done|]. intros H.
  rewrite filter_cons_False by congruence. by apply IH.
Qed.

Section Genre_create.
Context `{V : Validator} `{G : Mongoose}.

(** What the handler of a genre form receives of a form whose name is a
    string: the name trimmed and escaped, and an error if the trimmed name
    is empty. *)
Lemma genre_form_prepared (f : Form) (req : Req) (name : string) :
  field req "name" = JStr name →
  ∃ r, prepare (checks f Genre) req = Ok r
       ∧ params_id r = params_id req
       ∧ verrors r = verrors req
                     ++ failed "name" "Genre name required" None (nonempty (JStr (trim name)))
       ∧ field r "name" = JStr (clean name).
Proof.
  intros Hn. destruct (prepare_checks f Genre req) as (r & Hp & Hpid & He & Hf); [done|].
  exists r. split_and!; [done|done|..]; rewrite ?He, ?Hf.
  - f_equal. destruct f; simpl; unfold validate; simpl; by rewrite Hn, !app_nil_r.
  - destruct f; simpl; by rewrite Hn.
Qed.

(** The document a genre form is made into. *)
Lemma genre_doc_name (id : Id) (name : string) :
  let genre := doc_of Genre id [("name", JStr name)] in
  get genre "name" = JStr name ∧ doc_cast_errors genre = [].
Proof.
  split; [|done].
  by apply (get_doc_of _ _ _ "name" (JStr name)); [distinct_keys|find_key|..].
Qed.

(** What a valid Genre create-POST does, by whether the name is taken and
    whether the schema accepts the new genre. *)
Lemma genre_create_post_run (s : Store) (req : Req) (name : string) :
  verrors req = [] →
  field req "name" = JStr name →
  trim name ≠ EmptyString →
  run (genre_create_post req) s =
    match List.find (named (JStr (clean name))) (genres s) with
    | Some g => (Ok tt, mkH s [Redirect (url g)])
    | None =>
        let genre := doc_of Genre (fresh_id s) [("name", JStr (clean name))] in
        if accepted genre
        then (Ok tt, mkH (insert_doc genre s) [Redirect (url genre)])
        else (Ok tt, mkH s [Next (ValidationError "Validation failed")])
    end.
Proof.
  intros Hv Hn Ht.
  destruct (genre_form_prepared Create req name Hn) as (r & Hp & Hpid & He & Hf).
  rewrite Hv, (nonempty_length _ Ht : nonempty (JStr (trim name)) = true) in He. simpl in He.
  unfold genre_create_post. change genre_checks with (checks Create Genre).
  rewrite stack_prepare, Hp.
  unfold genre_create_post_handler. run_handler. rewrite He, Hf. simpl.
  unfold named. destruct (List.find _ (genres s)); simpl; [done|].
  by destruct (accepted _).
Qed.

(** C8: a Genre create-POST whose name is not blank and, trimmed and
    escaped, is that of a stored Genre saves nothing and redirects to the
    page of a stored Genre of that name. Any creation leaves the store as a
    second, identical request finds it and leaves it; if no Genre had the
    name and the schema accepts it, exactly one has it after the two
    requests. *)
Theorem genre_create_post_idempotent (s : Store) (req : Req) (name : string) :
  verrors req = [] →
  field req "name" = JStr name →
  trim name ≠ EmptyString →
  let stored_name := JStr (clean name) in
  let once := store_after (genre_create_post req) s in
  let twice := store_after (genre_create_post req) once in
  (∀ g, g ∈ genres s → get g "name" = stored_name →
     once = s
     ∧ ∃ g0, g0 ∈ genres s ∧ named stored_name g0 = true
             ∧ responses (genre_create_post req) s = [Redirect (url g0)])
  ∧ twice = once
  ∧ (count_named stored_name s = 0 →
     validates (doc_of Genre (fresh_id s) [("name", stored_name)]) = true →
     count_named stored_name twice = 1).
Proof.
  intros Hv Hn Ht stored_name once twice. subst stored_name.
  pose proof (genre_create_post_run s req name Hv Hn Ht) as Hrun. cbv zeta in Hrun.
  set (genre := doc_of Genre (fresh_id s) [("name", JStr (clean name))]) in *.
  assert (named (JStr (clean name)) genre = true) as Hnew.
  { apply named_same. apply genre_doc_name. }
  assert (accepted genre = validates genre) as Hacc by done.
  rewrite Hacc in Hrun.
  assert (once = match List.find (named (JStr (clean name))) (genres s) with
                 | Some _ => s
                 | None => if validates genre then insert_doc genre s else s
                 end) as Honce.
  { unfold once, store_after. rewrite Hrun. destruct (List.find _ _); [done|].
    simpl. by destruct (validates genre). }
  assert (twice = once) as Htwice.
  { unfold twice, store_after. rewrite (genre_create_post_run once req name Hv Hn Ht).
    destruct (List.find (named (JStr (clean name))) (genres s)) as [g|] eqn:Hf.
    - rewrite Honce, Hf. done.
    - destruct (validates genre) eqn:Hval.
      + rewrite Honce. simpl. by rewrite (find_app_none _ _ _ Hf Hnew).
      + rewrite Honce, Hf. simpl. fold genre. by rewrite Hacc. }
  split_and!; [|done|].
  - intros g Hg Hname. unfold once, store_after, responses. rewrite Hrun.
    destruct (List.find (named (JStr (clean name))) (genres s)) as [g0|] eqn:Hf.
    + apply find_some in Hf as [Hin Hnamed]. split; [done|]. exists g0.
      split_and!; [by apply list_elem_of_In|done|done].
    + exfalso. apply list_elem_of_In in Hg. apply (find_none _ _ Hf g) in Hg.
      by rewrite (named_same _ _ Hname) in Hg.
  - unfold count_named. intros H0 Hval. rewrite Htwice, Honce.
    destruct (List.find (named (JStr (clean name))) (genres s)) as [g0|] eqn:Hf.
    + exfalso. apply find_some in Hf as [Hin Hnamed].
      apply length_zero_iff_nil in H0.
      assert (g0 ∈ filter (λ g, named (JStr (clean name)) g = true) (genres s)) as Hg0
        by (apply list_elem_of_filter; split; [done|by apply list_elem_of_In]).
      rewrite H0 in Hg0. by apply not_elem_of_nil in Hg0.
    + rewrite Hval. simpl. rewrite filter_app, (filter_none _ _ Hf). simpl.
      rewrite filter_cons_True by done. done.
Qed.

End Genre_create.

Lemma genre_create_post_idempotent_witness :
  let req := genre_request " Poetry " in
  let stored_name := JStr (clean " Poetry ") in
  let once := store_after (genre_create_post req) library in
  let twice := store_after (genre_create_post req) once in
  (∀ g, g ∈ genres library → get g "name" = stored_name →
     once = library
     ∧ ∃ g0, g0 ∈ genres library ∧ named stored_name g0 = true
             ∧ responses (genre_create_post req) library = [Redirect (url g0)])
  ∧ twice = once
  ∧ (count_named stored_name library = 0 →
     validates (doc_of Genre (fresh_id library) [("name", stored_name)]) = true →
     count_named stored_name twice = 1).
Proof.
  apply (genre_create_post_idempotent library (genre_request " Poetry ") " Poetry ");
    [reflexivity|reflexivity|by vm_compute].
Defined.

(** On the example library: "Poetry" is taken, so the request is answered
    with the page of the stored genre; "Satire" is new and is stored once,
    however often it is submitted; a blank name is refused. *)
Example genre_create_post_library :
  responses (genre_create_post (genre_request "Poetry")) library = [Redirect (url poetry)]
  ∧ store_after (genre_create_post (genre_request "Poetry")) library = library
  ∧ count_named (JStr "Satire") library = 0
  ∧ count_named (JStr "Satire")
      (store_after (genre_create_post (genre_request "Satire"))
         (store_after (genre_create_post (genre_request "Satire")) library)) = 1
  ∧ store_after (genre_create_post (genre_request "  ")) library = library
  ∧ ∃ locals, responses (genre_create_post (genre_request "  ")) library
              = [Render "genre_form" locals].
Proof. vm_compute. split_and!; try reflexivity. by eexists. Qed.

(** * Further properties of the controllers *)

(** ** Every route answers *)

Lemma stored_find `{G : Mongoose} (m : Model) (req : Req) (s : Store) :
  stored m (params_id req) s =
    match List.find (has_id (param_id req)) (coll m s) with
    | Some _ => true
    | None => false
    end.
Proof. apply stored_find_id. Qed.

(** Unfolds every handler of the site. *)
Ltac unfold_handlers :=
  unfold handler, list_of, detail, create_get, update_get, delete_get, delete_post,
    index, count,
    author_list, book_list, genre_list, bookinstance_list,
    author_detail, book_detail, genre_detail, bookinstance_detail,
    author_create_get, book_create_get, genre_create_get, bookinstance_create_get,
    author_update_get, book_update_get, genre_update_get, bookinstance_update_get,
    author_delete_get, book_delete_get, genre_delete_get, bookinstance_delete_get,
    author_delete_post, book_delete_post, genre_delete_post, bookinstance_delete_post,
    post_handler,
    author_create_post_handler, book_create_post_handler, genre_create_post_handler,
    bookinstance_create_post_handler,
    author_update_post_handler, book_update_post_handler, genre_update_post_handler,
    bookinstance_update_post_handler.

(** Follows a handler along every outcome of its queries and of [save]. *)
Ltac split_cases :=
  repeat match goal with
         | |- context [query_id ?v] => destruct (query_id v) eqn:?; simpl
         | |- context [List.find ?p ?l] => destruct (List.find p l) eqn:?; simpl
         | |- context [check_all ?a ?b] => destruct (check_all a b) eqn:?; simpl
         | |- context [ref_id ?a] => destruct (ref_id a) eqn:?; simpl
         | |- context [filter ?p ?l] => destruct (filter p l); simpl
         | |- context [accepted ?d] => destruct (accepted d); simpl
         end.

Section Answers.
Context `{V : Validator} `{G : Mongoose}.

(** Whatever the store and the request, every handler runs to its end
    without an exception escaping it, and calls [res] or [next] exactly
    once, except the delete-GET handlers for an id that is an ObjectId no
    document has, which call [res] twice. *)
Theorem every_request_is_answered (r : Route) (s : Store) (req : Req) :
  (run (handler r req) s).1 = Ok tt
  ∧ length (responses (handler r req) s) =
      match r with
      | R_delete_get m =>
          match cast_id (params_id req) with
          | Some i => if stored m i s then 1 else 2
          | None => 1
          end
      | _ => 1
      end.
Proof.
  destruct r as [|m|m|m|m|m|m|m|m].
  1: by unfold handler, index, count; run_handler.
  1, 2, 3, 5, 8: destruct m; unfold_handlers; run_handler; split_cases; by split.
  3: { unfold handler. destruct (cast_id (params_id req)) as [i|] eqn:Hc.
       - rewrite stored_find_id. apply query_id_cast in Hc.
         destruct m; unfold_handlers; run_handler; unfold param_id; run_queries Hc;
           destruct (List.find _ _); by split.
       - apply query_id_malformed in Hc.
         destruct m; unfold_handlers; run_handler; unfold param_id; run_queries Hc;
           by split. }
  all: unfold handler; rewrite post_stack, stack_prepare;
    match goal with |- context [prepare ?ms ?rq] => destruct (prepare ms rq) as [r|e] end;
    [|by split];
    destruct m; unfold_handlers; run_handler; destruct (verrors r); simpl;
    split_cases; by split.
Qed.

End Answers.

(** ** Pages that only read *)

(** No GET route writes: the home page, the lists, the detail pages and the
    create, update and delete forms all leave the store as it was. *)
Theorem get_routes_are_read_only `{V : Validator} `{G : Mongoose}
    (r : Route) (s : Store) (req : Req) :
  is_get r = true → store_after (handler r req) s = s.
Proof.
  destruct r as [|m|m|m|m|m|m|m|m]; try discriminate; intros _.
  1: done.
  all: destruct m; unfold_handlers; run_handler; split_cases; done.
Qed.

Lemma get_routes_are_read_only_witness :
  store_after (handler (R_delete_get Book) (mkReq b1 ∅ [])) library = library.
Proof.
  apply (get_routes_are_read_only (R_delete_get Book) library (mkReq b1 ∅ [])).
  reflexivity.
Defined.

Section Reading.
Context `{G : Mongoose}.

(** A detail page whose id is not an ObjectId ends in the error handler. *)
Lemma detail_malformed (m : Model) (s : Store) (req : Req) :
  m ≠ BookInstance →
  cast_id (params_id req) = None →
  responses (detail m req) s = [Next (CastError "Cast to ObjectId failed")].
Proof.
  intros Hm Hc%query_id_malformed.
  destruct m; [| | |done]; unfold_handlers; run_handler; unfold param_id;
    by run_queries Hc.
Qed.

(** The detail page of a stored Author, Book or Genre shows it. *)
Lemma detail_stored (m : Model) (s : Store) (req : Req) (i : Id) :
  m ≠ BookInstance →
  cast_id (params_id req) = Some i →
  stored m i s = true →
  ∃ d locals, d ∈ coll m s ∧ doc_id d = i
              ∧ responses (detail m req) s = [Render (detail_view m) locals]
              ∧ L_val (VDoc d) ∈ locals.*2.
Proof.
  intros Hm Hc%query_id_cast (d & Hf & Hin & Hid)%find_some_existsb.
  apply has_id_inv in Hid as [= ->]. exists d.
  destruct m; [| | |done]; simpl in Hf; unfold_handlers; run_handler; unfold param_id;
    run_queries Hc; rewrite Hf; simpl; eexists; (split_and!; [done|done|reflexivity|]);
    simpl; rewrite !elem_of_cons; auto.
Qed.

(** The detail page of an Author, a Book or a Genre answers 404 exactly
    when the id of the URL is an ObjectId that no document has. For an
    ObjectId that a document has it renders the detail view once, with a
    stored document of that id; for an id that is no ObjectId the query
    throws and the request ends in the error handler (status 500). *)
Theorem detail_404_iff_missing (m : Model) (s : Store) (req : Req) :
  m ≠ BookInstance →
  ((∃ message, responses (detail m req) s = [Next (HttpError message 404)])
   ↔ ∃ i, cast_id (params_id req) = Some i ∧ stored m i s = false)
  ∧ (∀ i, cast_id (params_id req) = Some i → stored m i s = true →
     ∃ d locals, d ∈ coll m s ∧ doc_id d = i
                 ∧ responses (detail m req) s = [Render (detail_view m) locals]
                 ∧ L_val (VDoc d) ∈ locals.*2)
  ∧ (cast_id (params_id req) = None →
     responses (detail m req) s = [Next (CastError "Cast to ObjectId failed")]
     ∧ error_status (CastError "Cast to ObjectId failed") = 500).
Proof.
  intros Hm. split_and!.
  - split.
    + intros [message Hr]. destruct (cast_id (params_id req)) as [i|] eqn:Hc.
      * exists i. split; [done|]. destruct (stored m i s) eqn:Hs; [|done].
        destruct (detail_stored m s req i Hm Hc Hs) as (d & locals & _ & _ & Hr' & _).
        rewrite Hr' in Hr. discriminate.
      * rewrite (detail_malformed m s req Hm Hc) in Hr. discriminate.
    + intros (i & Hc & Hs).
      destruct (detail_missing_404 m s req i Hm Hc Hs) as (message & Hr & _). eauto.
  - intros i Hc Hs. by apply detail_stored.
  - intros Hc. split; [by apply detail_malformed|done].
Qed.

(** For an id that is stored, a delete-GET request only renders the
    confirmation page, with a stored document of that id; it does not
    redirect. *)
Theorem delete_get_stored_renders (m : Model) (s : Store) (req : Req) :
  stored m (params_id req) s = true →
  ∃ d locals, d ∈ coll m s ∧ doc_id d = params_id req
              ∧ responses (delete_get m req) s = [Render (delete_view m) locals]
              ∧ L_val (VDoc d) ∈ locals.*2.
Proof.
  intros Hs. pose proof (query_id_stored _ _ _ Hs) as Hc.
  apply find_some_existsb in Hs as (d & Hf & Hin & Hid).
  apply has_id_inv in Hid as Hd. injection Hd as Hd.
  exists d. destruct m; simpl in Hf; unfold_handlers; run_handler; unfold param_id;
    run_queries Hc; rewrite Hf; simpl; eexists; (split_and!; [done|done|reflexivity|]);
    simpl; rewrite !elem_of_cons; auto.
Qed.

End Reading.

Lemma detail_404_iff_missing_witness :
  let req := mkReq no_id ∅ [] in
  ((∃ message, responses (detail Author req) library = [Next (HttpError message 404)])
   ↔ ∃ i, cast_id (params_id req) = Some i ∧ stored Author i library = false)
  ∧ (∀ i, cast_id (params_id req) = Some i → stored Author i library = true →
     ∃ d locals, d ∈ coll Author library ∧ doc_id d = i
                 ∧ responses (detail Author req) library = [Render (detail_view Author) locals]
                 ∧ L_val (VDoc d) ∈ locals.*2)
  ∧ (cast_id (params_id req) = None →
     responses (detail Author req) library = [Next (CastError "Cast to ObjectId failed")]
     ∧ error_status (CastError "Cast to ObjectId failed") = 500).
Proof.
  apply (detail_404_iff_missing Author library (mkReq no_id ∅ [])). discriminate.
Defined.

(** On the example library: the page of the stored author, of an ObjectId
    that no author has, and of an id that is no ObjectId. *)
Example author_detail_library :
  (∃ locals, responses (author_detail (mkReq a1 ∅ [])) library
             = [Render "author_detail" locals])
  ∧ responses (author_detail (mkReq no_id ∅ [])) library
    = [Next (HttpError "Author not found" 404)]
  ∧ responses (author_detail (mkReq "zz" ∅ [])) library
    = [Next (CastError "Cast to ObjectId failed")].
Proof. split_and!; [eexists|..]; reflexivity. Qed.

Lemma delete_get_stored_renders_witness :
  ∃ d locals, d ∈ genres library ∧ doc_id d = g2
              ∧ responses (delete_get Genre (mkReq g2 ∅ [])) library
                = [Render "genre_delete" locals]
              ∧ L_val (VDoc d) ∈ locals.*2.
Proof.
  apply (delete_get_stored_renders Genre library (mkReq g2 ∅ [])). reflexivity.
Defined.

(** ** Deleting *)

Section Removing.
Context `{G : Mongoose}.

Lemma remove_first_missing (id : JsValue) (l : list Doc) :
  existsb (has_id id) l = false → remove_first id l = l.
Proof.
  induction l as [|d l IH]; simpl; [done|].
  destruct (has_id id d); simpl; [done|]. intros H. by rewrite IH.
Qed.

Lemma has_id_other (a : Id) (id : JsValue) (d : Doc) :
  has_id (JStr a) d = true → has_id id d = js_eqb (JStr a) id.
Proof.
  intros H. pose proof (has_id_canonical _ _ H) as Hc.
  apply has_id_inv in H. injection H as ->.
  unfold has_id. by rewrite bool_decide_eq_true_2, andb_true_r.
Qed.

Lemma not_stored_not_in (a : Id) (l : list Doc) :
  a ∉ doc_id <$> l → existsb (has_id (JStr a)) l = false.
Proof.
  induction l as [|d l IH]; [done|]. rewrite fmap_cons, not_elem_of_cons.
  intros [Hne Hl]. simpl. rewrite (IH Hl), orb_false_r.
  destruct (has_id (JStr a) d) eqn:Hd; [|done].
  apply has_id_inv in Hd. by injection Hd as ->.
Qed.

(** In a collection without duplicate ids, removing by id removes the
    document of that id and no other. *)
Lemma remove_first_stored (id : JsValue) (a : Id) (l : list Doc) :
  NoDup (doc_id <$> l) →
  existsb (has_id (JStr a)) (remove_first id l)
  = existsb (has_id (JStr a)) l && negb (js_eqb (JStr a) id).
Proof.
  induction l as [|d l IH]; [done|]. rewrite fmap_cons, NoDup_cons.
  intros [Hd Hl]. cbn [remove_first existsb]. destruct (has_id id d) eqn:Hid.
  - destruct (has_id (JStr a) d) eqn:Ha.
    + rewrite orb_true_l, andb_true_l, <- (has_id_other a id d Ha), Hid.
      apply has_id_inv in Ha. injection Ha as ->. by apply not_stored_not_in.
    + rewrite orb_false_l.
      destruct (js_eqb (JStr a) id) eqn:Hai; [|by rewrite andb_true_r].
      pose proof (has_id_inv _ _ Hid) as ->. simpl in Hai.
      apply bool_decide_eq_true in Hai as ->. congruence.
  - cbn [existsb]. rewrite (IH Hl). destruct (has_id (JStr a) d) eqn:Ha; [|done].
    by rewrite !orb_true_l, andb_true_l, <- (has_id_other a id d Ha), Hid.
Qed.

Lemma no_match_filter (f : Filter) (l : list Doc) :
  filter (λ d, matches f d = true) l = [] ↔ ∀ b, b ∈ l → matches f b = false.
Proof.
  split.
  - intros Hf b Hb. destruct (matches f b) eqn:Hm; [|done].
    by destruct (filter_nonempty (matches f) l b).
  - intros H. induction l as [|d l IH]; [done|].
    rewrite filter_cons_False.
    + apply IH. intros b Hb. apply H. by apply list_elem_of_further.
    + rewrite (H d) by apply list_elem_of_here. done.
Qed.

(** Removing a document that no book refers to keeps every reference of
    the books to a stored document. *)
Lemma remove_keeps_references (path : string) (m : Model) (s : Store) (i : JsValue) :
  m ≠ Book →
  references_stored path m s →
  (∀ b, b ∈ books s → matches (FEq path i) b = false) →
  references_stored path m (set_coll m (remove_first i (coll m s)) s).
Proof.
  intros Hm Hs Hno b a Hb Hr.
  assert (books (set_coll m (remove_first i (coll m s)) s) = books s) as Hbooks
    by (by destruct m).
  rewrite Hbooks in Hb. specialize (Hs b a Hb Hr).
  destruct (stored m a (set_coll m _ s)) eqn:Ha; [done|].
  unfold stored in Hs, Ha.
  assert (coll m (set_coll m (remove_first i (coll m s)) s) = remove_first i (coll m s))
    as Hcoll by (by destruct m).
  rewrite Hcoll in Ha.
  pose proof (removed_is_target _ _ _ Hs Ha) as Heq.
  specialize (Hno b Hb). unfold refers in Hr. rewrite Heq in Hno. congruence.
Qed.

(** What the Author delete-POST handler does, by the posted id and by
    whether a book refers to it. *)
Lemma author_delete_post_run (s : Store) (req : Req) :
  match query_id (field req "authorid") with
  | Throw e =>
      store_after (author_delete_post req) s = s
      ∧ responses (author_delete_post req) s = [Next e]
  | Ok i =>
      (∃ b, b ∈ books s ∧ matches (FEq "author" i) b = true)
        ∧ store_after (author_delete_post req) s = s
        ∧ (∃ locals, responses (author_delete_post req) s = [Render "author_delete" locals])
      ∨ (∀ b, b ∈ books s → matches (FEq "author" i) b = false)
        ∧ store_after (author_delete_post req) s
          = set_coll Author (remove_first i (authors s)) s
        ∧ responses (author_delete_post req) s = [Redirect (Path "/catalog/authors")]
  end.
Proof.
  unfold author_delete_post. run_handler.
  destruct (query_id (field req "authorid")) as [i|e]; simpl; [|done].
  destruct (filter (λ d, matches (FEq "author" i) d = true) (books s)) as [|b l] eqn:Hf; simpl.
  - right. split_and!; [|done|done]. by apply no_match_filter.
  - left. split_and!; [|done|eauto]. exists b.
    assert (b ∈ filter (λ d, matches (FEq "author" i) d = true) (books s)) as Hb
      by (rewrite Hf; apply list_elem_of_here).
    apply list_elem_of_filter in Hb as [? ?]. done.
Qed.

(** Deleting an author keeps the books consistent: if every author a book
    refers to is stored before an Author delete-POST, the same holds
    after it, whatever the request. *)
Theorem author_delete_post_keeps_references (s : Store) (req : Req) :
  references_stored "author" Author s →
  references_stored "author" Author (store_after (author_delete_post req) s).
Proof.
  intros Hs. pose proof (author_delete_post_run s req) as Hrun.
  destruct (query_id (field req "authorid")) as [i|e].
  - destruct Hrun as [(_ & -> & _)|(Hno & -> & _)]; [done|].
    by apply (remove_keeps_references "author" Author).
  - by destruct Hrun as [-> _].
Qed.

(** When no book refers to the posted id, an ObjectId, the Author
    delete-POST handler redirects to the author list and, in a collection
    without duplicate ids, removes the author of that id and no other;
    books, genres and book instances are left alone. *)
Theorem author_delete_post_removes_exactly (s : Store) (req : Req) (text : string) (i : Id) :
  field req "authorid" = JStr text →
  cast_id text = Some i →
  (∀ b, b ∈ books s → matches (FEq "author" (JStr i)) b = false) →
  NoDup (ids Author s) →
  let after := store_after (author_delete_post req) s in
  responses (author_delete_post req) s = [Redirect (Path "/catalog/authors")]
  ∧ (∀ a, stored Author a after = stored Author a s && negb (bool_decide (a = i)))
  ∧ books after = books s ∧ genres after = genres s
  ∧ bookinstances after = bookinstances s.
Proof.
  intros Hf Hc%query_id_cast Hno Hnd after. subst after.
  pose proof (author_delete_post_run s req) as Hrun. rewrite Hf, Hc in Hrun.
  destruct Hrun as [((b & Hb & Hm) & _)|(_ & -> & ->)].
  { by rewrite (Hno b Hb) in Hm. }
  split_and!; try done.
  intros a. unfold stored. simpl. by apply remove_first_stored.
Qed.

(** The BookInstance delete-POST handler, given an id that is an ObjectId,
    redirects to the list and touches no other collection; in a collection
    without duplicate ids it removes the instance of that id and no other,
    so a second, identical request changes nothing (and neither does a
    request for an id that no instance has). Given an id that is no
    ObjectId it removes nothing and the request ends in the error handler. *)
Theorem bookinstance_delete_post_removes_exactly (s : Store) (req : Req) (text : string) :
  field req "id" = JStr text →
  NoDup (ids BookInstance s) →
  let after := store_after (bookinstance_delete_post req) s in
  match cast_id text with
  | Some i =>
      responses (bookinstance_delete_post req) s = [Redirect (Path "/catalog/bookinstances")]
      ∧ (∀ c, stored BookInstance c after
              = stored BookInstance c s && negb (bool_decide (c = i)))
      ∧ authors after = authors s ∧ books after = books s ∧ genres after = genres s
      ∧ store_after (bookinstance_delete_post req) after = after
  | None =>
      responses (bookinstance_delete_post req) s = [Next (CastError "Cast to ObjectId failed")]
      ∧ after = s
  end.
Proof.
  intros Hf Hnd after. destruct (cast_id text) as [i|] eqn:Hc.
  - apply query_id_cast in Hc.
    assert (∀ s', run (bookinstance_delete_post req) s'
                  = (Ok tt, mkH (set_coll BookInstance
                                   (remove_first (JStr i) (bookinstances s')) s')
                                [Redirect (Path "/catalog/bookinstances")])) as Hrun.
    { intros s'. unfold bookinstance_delete_post. run_handler. rewrite Hf. by run_queries Hc. }
    assert (∀ c, stored BookInstance c after
                 = stored BookInstance c s && negb (bool_decide (c = i))) as Hst.
    { intros c. unfold after, store_after. rewrite Hrun. unfold stored. simpl.
      by apply remove_first_stored. }
    unfold after in *. unfold store_after, responses in *. rewrite !Hrun in *. simpl in *.
    split_and!; try done.
    rewrite remove_first_missing; [by destruct s|].
    specialize (Hst i). unfold stored in Hst. simpl in Hst.
    by rewrite Hst, bool_decide_eq_true_2, andb_false_r.
  - apply query_id_malformed in Hc. unfold after, bookinstance_delete_post.
    run_handler. rewrite Hf. by run_queries Hc.
Qed.

(** When the form posts the id of the URL, a genre disappears only if no
    book refers to it. *)
Lemma genre_delete_post_run (s : Store) (req : Req) :
  field req "id" = param_id req →
  match query_id (param_id req) with
  | Throw e => store_after (genre_delete_post req) s = s
  | Ok i =>
      store_after (genre_delete_post req) s = s
      ∨ (∀ b, b ∈ books s → matches (FEq "genre" i) b = false)
        ∧ store_after (genre_delete_post req) s
          = set_coll Genre (remove_first i (genres s)) s
  end.
Proof.
  intros Hid. unfold genre_delete_post. run_handler. rewrite Hid.
  destruct (query_id (param_id req)) as [i|e]; simpl; [|done].
  destruct (filter (λ d, matches (FEq "genre" i) d = true) (books s)) as [|b l] eqn:Hf; simpl.
  - right. split; [|done]. by apply no_match_filter.
  - by left.
Qed.

(** When the form posts the id of the URL, deleting a genre keeps the books
    consistent: if every genre a book refers to is stored before the
    request, the same holds after it. *)
Theorem genre_delete_post_keeps_references (s : Store) (req : Req) :
  field req "id" = param_id req →
  references_stored "genre" Genre s →
  references_stored "genre" Genre (store_after (genre_delete_post req) s).
Proof.
  intros Hid Hs. pose proof (genre_delete_post_run s req Hid) as Hrun.
  destruct (query_id (param_id req)) as [i|e]; [|by rewrite Hrun].
  destruct Hrun as [-> | [Hno ->]]; [done|].
  by apply (remove_keeps_references "genre" Genre).
Qed.

End Removing.

Lemma library_references_authors : references_stored "author" Author library.
Proof.
  intros b a Hb Hr. apply list_elem_of_singleton in Hb as ->.
  assert (get hobbit "author" = JStr a1) as Hg by reflexivity.
  unfold refers, matches in Hr. rewrite Hg in Hr. simpl in Hr.
  rewrite orb_false_r in Hr. by apply bool_decide_eq_true in Hr as <-.
Qed.

Lemma author_delete_post_keeps_references_witness :
  references_stored "author" Author
    (store_after (author_delete_post (mkReq EmptyString {[ "authorid" := JStr a1 ]} []))
       library).
Proof.
  apply (author_delete_post_keeps_references library
           (mkReq EmptyString {[ "authorid" := JStr a1 ]} [])).
  exact library_references_authors.
Defined.

Lemma author_delete_post_removes_exactly_witness :
  let req := mkReq EmptyString {[ "authorid" := JStr a9 ]} [] in
  let s := mkStore [tolkien; doc_of Author a9 [("family_name", JStr "Nobody")]]
             [hobbit] [fantasy] [] in
  let after := store_after (author_delete_post req) s in
  responses (author_delete_post req) s = [Redirect (Path "/catalog/authors")]
  ∧ (∀ a, stored Author a after = stored Author a s && negb (bool_decide (a = a9)))
  ∧ books after = books s ∧ genres after = genres s
  ∧ bookinstances after = bookinstances s.
Proof.
  apply (author_delete_post_removes_exactly
           (mkStore [tolkien; doc_of Author a9 [("family_name", JStr "Nobody")]]
              [hobbit] [fantasy] [])
           (mkReq EmptyString {[ "authorid" := JStr a9 ]} []) a9 a9).
  - reflexivity.
  - reflexivity.
  - intros b Hb. apply list_elem_of_singleton in Hb as ->. reflexivity.
  - apply (bool_decide_unpack _). vm_compute. exact I.
Defined.

Lemma bookinstance_delete_post_removes_exactly_witness :
  let req := mkReq EmptyString {[ "id" := JStr c1 ]} [] in
  let after := store_after (bookinstance_delete_post req) library in
  match cast_id c1 with
  | Some i =>
      responses (bookinstance_delete_post req) library
      = [Redirect (Path "/catalog/bookinstances")]
      ∧ (∀ c, stored BookInstance c after
              = stored BookInstance c library && negb (bool_decide (c = i)))
      ∧ authors after = authors library ∧ books after = books library
      ∧ genres after = genres library
      ∧ store_after (bookinstance_delete_post req) after = after
  | None =>
      responses (bookinstance_delete_post req) library
      = [Next (CastError "Cast to ObjectId failed")]
      ∧ after = library
  end.
Proof.
  apply (bookinstance_delete_post_removes_exactly library
           (mkReq EmptyString {[ "id" := JStr c1 ]} []) c1).
  - reflexivity.
  - apply (bool_decide_unpack _). vm_compute. exact I.
Defined.

Lemma library_references_genres : references_stored "genre" Genre library.
Proof.
  intros b g Hb Hr. apply list_elem_of_singleton in Hb as ->.
  assert (get hobbit "genre" = JArr [JStr g1]) as Hg by reflexivity.
  unfold refers, matches in Hr. rewrite Hg in Hr. simpl in Hr.
  rewrite orb_false_r in Hr. by apply bool_decide_eq_true in Hr as ->.
Qed.

Lemma genre_delete_post_keeps_references_witness :
  references_stored "genre" Genre
    (store_after (genre_delete_post (mkReq g2 {[ "id" := JStr g2 ]} [])) library).
Proof.
  apply (genre_delete_post_keeps_references library (mkReq g2 {[ "id" := JStr g2 ]} [])).
  - reflexivity.
  - exact library_references_genres.
Defined.

(** ** Creating and updating *)

Lemma concat_zeros_length (n : nat) :
  String.length (String.concat EmptyString (replicate n "0")) = n.
Proof.
  induction n as [|n IH]; [done|]. simpl.
  destruct (replicate n "0") as [|z zs] eqn:Hz.
  - by destruct n.
  - simpl in *. rewrite <- IH. done.
Qed.

(** The id a new document receives is the id of no stored document. *)
Lemma fresh_id_fresh (s : Store) : fresh_id s ∉ doc_id <$> all_docs s.
Proof.
  intros Hin. apply (list_elem_of_fmap_2 String.length) in Hin.
  rewrite <- list_fmap_compose in Hin. apply max_list_elem_of_le in Hin.
  unfold fresh_id in Hin. rewrite concat_zeros_length in Hin. lia.
Qed.

Lemma coll_set_coll (m : Model) (l : list Doc) (s : Store) : coll m (set_coll m l s) = l.
Proof. by destruct m. Qed.

Lemma set_coll_same (m : Model) (s : Store) : set_coll m (coll m s) s = s.
Proof. by destruct m, s. Qed.

Section Forms.
Context `{V : Validator} `{G : Mongoose}.

Lemma fresh_id_not_stored (m : Model) (s : Store) : stored m (fresh_id s) s = false.
Proof.
  apply not_stored_not_in. intros Hin. apply (fresh_id_fresh s).
  unfold all_docs. rewrite !fmap_app, !elem_of_app. destruct m; auto.
Qed.

Lemma update_first_missing (id : JsValue) (u : Doc) (l : list Doc) :
  existsb (has_id id) l = false → update_first id u l = l.
Proof.
  induction l as [|d l IH]; simpl; [done|].
  destruct (has_id id d); simpl; [done|]. intros H. by rewrite IH.
Qed.

Lemma prepare_keeps_params (ms : list Middleware) (req r : Req) :
  Forall keeps_params ms → prepare ms req = Ok r → params_id r = params_id req.
Proof.
  intros Hms. revert req. induction Hms as [|m ms Hm _ IH]; intros req; simpl.
  - by intros [= <-].
  - destruct (m req) as [r1|] eqn:Hr1; [|done]. intros Hp.
    rewrite (IH _ Hp). by apply Hm.
Qed.

Lemma checks_keep_params (f : Form) (m : Model) (req r : Req) :
  prepare (checks f m) req = Ok r → params_id r = params_id req.
Proof.
  apply prepare_keeps_params.
  destruct m, f; unfold checks, author_checks, genre_checks, bookinstance_checks,
    book_create_checks, book_update_checks;
    repeat first
      [ apply Forall_nil_2
      | apply Forall_cons_2;
        [ intros q q' Hq;
          first [ by apply (check_body_params _ _ _ _ _ Hq)
                | by apply (sanitizeBody_head _ _ _ _ Hq)
                | by apply (sanitizeBody_each_head _ _ _ _ Hq)
                | by apply (sanitizeBody_all_head _ _ _ Hq)
                | by apply (genre_to_array_head _ _ Hq) ] | ] ].
Qed.

(** A valid update for an id that is an ObjectId no document has does not
    answer 404: the Genre, Book and BookInstance update-POST handlers read
    [url] off the [null] the update returned, the TypeError goes to the
    error handler (status 500), and nothing is written. *)
Theorem update_post_missing_is_an_error (m : Model) (s : Store) (req r : Req) (i : Id) :
  m ≠ Author →
  prepare (checks Update m) req = Ok r →
  verrors r = [] →
  cast_id (params_id req) = Some i →
  stored m i s = false →
  ∃ e, responses (post Update m req) s = [Next e]
       ∧ e = TypeError "Cannot read property 'url' of null"
       ∧ error_status e = 500
       ∧ store_after (post Update m req) s = s.
Proof.
  intros Hm Hp Hv Hc%query_id_cast Hs.
  pose proof (checks_keep_params _ _ _ _ Hp) as Hpid.
  pose proof (find_missing m i s Hs) as Hf. unfold stored in Hs.
  rewrite post_stack, stack_prepare, Hp. eexists.
  destruct m; [done|..]; unfold_handlers; run_handler; rewrite Hv; simpl;
    unfold param_id in *; rewrite Hpid; run_queries Hc; simpl in Hf, Hs; rewrite Hf; simpl;
    rewrite (update_first_missing _ _ _ Hs); by destruct s.
Qed.

(** A Genre update-POST for a stored Genre whose form gives a name that is
    not blank renames the stored genre: the document keeps the id of the
    URL and its name is the submitted name, trimmed and escaped; no
    document of the collection changes its id, the other collections are
    left alone, and the answer is a redirect to the page of the genre. *)
Theorem genre_update_post_renames (s : Store) (req : Req) (name : string) :
  verrors req = [] →
  field req "name" = JStr name →
  trim name ≠ EmptyString →
  stored Genre (params_id req) s = true →
  let after := store_after (genre_update_post req) s in
  ∃ old new,
    List.find (has_id (param_id req)) (genres s) = Some old
    ∧ List.find (has_id (param_id req)) (genres after) = Some new
    ∧ doc_id new = params_id req
    ∧ get new "name" = JStr (clean name)
    ∧ ids Genre after = ids Genre s
    ∧ authors after = authors s ∧ books after = books s
    ∧ bookinstances after = bookinstances s
    ∧ responses (genre_update_post req) s = [Redirect (url old)].
Proof.
  intros Hv Hn Ht Hs after.
  destruct (genre_form_prepared Update req name Hn) as (r & Hp & Hpid & He & Hf).
  rewrite Hv, (nonempty_length _ Ht : nonempty (JStr (trim name)) = true) in He. simpl in He.
  pose proof (stored_canonical _ _ _ Hs) as Hcan.
  apply find_some_existsb in Hs as (old & Hfind & Hin & Hid).
  set (doc := doc_of Genre (params_id req) [("name", JStr (clean name))]).
  assert (run (genre_update_post req) s
          = (Ok tt, mkH (set_coll Genre (update_first (JStr (params_id req)) doc (genres s)) s)
                        [Redirect (url old)])) as Hrun.
  { unfold genre_update_post. change genre_checks with (checks Update Genre).
    rewrite stack_prepare, Hp.
    unfold genre_update_post_handler. run_handler. rewrite He. simpl.
    unfold param_id. rewrite Hpid, (query_id_cast _ _ Hcan). simpl.
    simpl in Hfind. rewrite Hfind. simpl.
    by rewrite (doc_with_id_cast _ _ _ _ Hcan), Hf. }
  assert (get doc "name" = JStr (clean name)) as Hdn by apply genre_doc_name.
  subst after. unfold store_after, responses. rewrite Hrun. simpl.
  exists old, (apply_update doc old). split_and!; try done.
  - apply find_update_first. exact Hfind.
  - simpl. by apply has_id_inv in Hid as [= ->].
  - rewrite get_apply_update; by rewrite Hdn.
  - unfold ids. simpl. apply update_first_ids.
Qed.

End Forms.

Lemma update_post_missing_is_an_error_witness :
  let req := mkReq no_id {[ "name" := JStr "Satire" ]} [] in
  ∃ e, responses (post Update Genre req) library = [Next e]
       ∧ e = TypeError "Cannot read property 'url' of null"
       ∧ error_status e = 500
       ∧ store_after (post Update Genre req) library = library.
Proof.
  apply (update_post_missing_is_an_error Genre library
           (mkReq no_id {[ "name" := JStr "Satire" ]} [])
           (prepared (checks Update Genre) (mkReq no_id {[ "name" := JStr "Satire" ]} []))
           no_id).
  - discriminate.
  - vm_compute. reflexivity.
  - vm_compute. reflexivity.
  - reflexivity.
  - reflexivity.
Defined.

Lemma genre_update_post_renames_witness :
  let req := mkReq g2 {[ "name" := JStr " Verse " ]} [] in
  let after := store_after (genre_update_post req) library in
  ∃ old new,
    List.find (has_id (param_id req)) (genres library) = Some old
    ∧ List.find (has_id (param_id req)) (genres after) = Some new
    ∧ doc_id new = params_id req
    ∧ get new "name" = JStr (clean " Verse ")
    ∧ ids Genre after = ids Genre library
    ∧ authors after = authors library ∧ books after = books library
    ∧ bookinstances after = bookinstances library
    ∧ responses (genre_update_post req) library = [Redirect (url old)].
Proof.
  apply (genre_update_post_renames library (mkReq g2 {[ "name" := JStr " Verse " ]} [])
           " Verse ").
  - reflexivity.
  - reflexivity.
  - by vm_compute.
  - reflexivity.
Defined.

(** On the example library the genre [g2] is renamed to the trimmed name; a
    blank name is refused and an update of an id that is no ObjectId ends
    in the error handler. *)
Example genre_update_post_library :
  (λ g, (doc_id g, get g "name"))
    <$> genres (store_after (genre_update_post (mkReq g2 {[ "name" := JStr " Verse " ]} []))
                  library)
  = [(g1, JStr "Fantasy"); (g2, JStr "Verse")]
  ∧ store_after (genre_update_post (mkReq g2 {[ "name" := JStr "  " ]} [])) library = library
  ∧ responses (genre_update_post (mkReq "zz" {[ "name" := JStr "Verse" ]} [])) library
    = [Next (CastError "Cast to ObjectId failed")].
Proof. vm_compute. split_and!; reflexivity. Qed.

(** ** What the forms accept *)

Section Accepting.
Context `{V : Validator} `{G : Mongoose}.

(** A POST whose validation fails is rejected, for every entity and both
    forms: nothing is written and no redirect is sent. For Author, Book and
    Genre, and for a BookInstance whose book is an ObjectId, the form is
    rendered again with exactly the validation errors. *)
Theorem invalid_post_is_rejected (f : Form) (m : Model) (s : Store) (req r : Req) :
  prepare (checks f m) req = Ok r →
  verrors r ≠ [] →
  store_after (post f m req) s = s
  ∧ (∀ t, Redirect t ∉ responses (post f m req) s)
  ∧ (m ≠ BookInstance ∨ (∃ b i, field r "book" = JStr b ∧ cast_id b = Some i) →
     ∃ locals, responses (post f m req) s = [Render (form_view m) locals]
               ∧ ("errors", L_errors (verrors r)) ∈ locals).
Proof.
  intros Hp He. split_and!.
  - by apply (invalid_post_writes_nothing f m s req r).
  - intros t. rewrite post_stack, stack_prepare, Hp.
    destruct (verrors r) as [|e es] eqn:Hv; [done|].
    destruct m, f; unfold_handlers; run_handler; rewrite Hv; simpl;
      try (destruct (ref_id _); simpl);
      intros Ht; apply list_elem_of_singleton in Ht; discriminate.
  - intros [Hm|(b & i & Hb & Hc)].
    + by apply invalid_post_renders_form.
    + destruct (decide (m = BookInstance)) as [->|Hm]; [|by apply invalid_post_renders_form].
      destruct (invalid_bookinstance_post_renders_form f s req r b i)
        as (locals & Hr & Hl & _); eauto.
Qed.

Lemma failed_nil (name dflt : string) (message : option string) (ok : bool) :
  failed name dflt message ok = [] ↔ ok = true.
Proof. by destruct ok. Qed.

(** The book that a book form is made into has no value that could not be
    cast when its author and its genres are ObjectIds. *)
Lemma book_doc_cast (id : Id) (title author summary isbn : string) (genre : list string)
    (author_id : Id) (genre_ids : list Id) :
  cast_id (clean author) = Some author_id →
  mapM cast_id (escape ∘ trim <$> genre) = Some genre_ids →
  doc_cast_errors (doc_of Book id
                     [("title", JStr (clean title)); ("author", JStr (clean author));
                      ("summary", JStr (clean summary)); ("isbn", JStr (clean isbn));
                      ("genre", JArr (JStr <$> (escape ∘ trim <$> genre)))]) = [].
Proof.
  intros Ha Hg. unfold doc_of, cast_failed. cbn [doc_cast_errors omap list_omap fst snd kind].
  simpl String.eqb. cbn [cast cast_ref]. by rewrite Ha, mapM_cast_item, Hg.
Qed.

(** A Book create-POST whose title, author, summary and isbn are strings
    is accepted exactly when none of the four is blank: the book made from
    the form (texts trimmed and escaped, author and genres as ObjectIds,
    the genre always a list) is saved under a fresh id and the answer is a
    redirect to its page, unless the schema refuses the book, in which case
    nothing is saved and the request ends in the error handler. When one
    of the four is blank nothing is saved and the form comes back with one
    error for each blank field, in the order of the form. *)
Theorem book_created_iff_required_fields (s : Store) (req : Req)
    (title author summary isbn : string) (genre : list string) :
  verrors req = [] →
  field req "title" = JStr title →
  field req "author" = JStr author →
  field req "summary" = JStr summary →
  field req "isbn" = JStr isbn →
  genre_items (field req "genre") = JStr <$> genre →
  let complete :=
    negb (String.eqb (trim title) EmptyString) && negb (String.eqb (trim author) EmptyString)
    && negb (String.eqb (trim summary) EmptyString) && negb (String.eqb (trim isbn) EmptyString) in
  let book :=
    doc_of Book (fresh_id s)
      [("title", JStr (clean title)); ("author", JStr (clean author));
       ("summary", JStr (clean summary)); ("isbn", JStr (clean isbn));
       ("genre", JArr (JStr <$> (escape ∘ trim <$> genre)))] in
  (complete = true →
   if accepted book
   then store_after (book_create_post req) s = insert_doc book s
        ∧ responses (book_create_post req) s = [Redirect (DetailUrl Book (fresh_id s))]
   else store_after (book_create_post req) s = s
        ∧ responses (book_create_post req) s = [Next (ValidationError "Validation failed")])
  ∧ (∀ author_id genre_ids,
       cast_id (clean author) = Some author_id →
       mapM cast_id (escape ∘ trim <$> genre) = Some genre_ids →
       doc_cast_errors book = []
       ∧ get book "title" = JStr (clean title)
       ∧ get book "author" = JStr author_id
       ∧ get book "summary" = JStr (clean summary)
       ∧ get book "isbn" = JStr (clean isbn)
       ∧ get book "genre" = JArr (JStr <$> genre_ids))
  ∧ (complete = false →
     book_errors req ≠ []
     ∧ store_after (book_create_post req) s = s
     ∧ ∃ locals, responses (book_create_post req) s = [Render "book_form" locals]
                 ∧ ("errors", L_errors (book_errors req)) ∈ locals).
Proof.
  intros Hv Ht Ha Hsu Hi Hg complete book.
  destruct (book_form_prepared Create req _ _ _ _ _ Ht Ha Hsu Hi Hg)
    as (r & Hp & Hpid & He & Ft & Fa & Fs & Fi & Fg).
  rewrite Hv in He. simpl in He.
  assert (book_errors req = [] ↔ complete = true) as Hcomplete.
  { unfold book_errors, nonempty, trimmed, complete. rewrite Ht, Ha, Hsu, Hi. simpl.
    by destruct (trim title), (trim author), (trim summary), (trim isbn). }
  split_and!.
  - intros Hc%Hcomplete. rewrite Hc in He.
    unfold book_create_post. change book_create_checks with (checks Create Book).
    rewrite stack_prepare, Hp. unfold book_create_post_handler. run_handler.
    rewrite He, Ft, Fa, Fs, Fi, Fg. simpl. fold book.
    by destruct (accepted book).
  - intros author_id genre_ids Hca Hcg. split; [by eapply book_doc_cast|].
    by apply (book_doc book title author summary isbn genre).
  - intros Hc.
    assert (book_errors req ≠ []) as Hne.
    { intros Hnil%Hcomplete. congruence. }
    split; [done|]. rewrite <- He in *.
    change (book_create_post req) with (post Create Book req). split.
    + exact (invalid_post_writes_nothing Create Book s req r Hp Hne).
    + by apply (invalid_post_renders_form Create Book s req r).
Qed.

(** What the handler of an author form receives of a form whose names are
    strings: the names trimmed and escaped, the dates made Dates, and the
    errors of the four checks. *)
Lemma author_form_prepared (f : Form) (req : Req) (first family : string) :
  field req "first_name" = JStr first →
  field req "family_name" = JStr family →
  ∃ r, prepare (checks f Author) req = Ok r
       ∧ params_id r = params_id req
       ∧ verrors r = verrors req ++ author_errors req
       ∧ field r "first_name" = JStr (clean first)
       ∧ field r "family_name" = JStr (clean family)
       ∧ field r "date_of_birth" = on_string toDate (field req "date_of_birth")
       ∧ field r "date_of_death" = on_string toDate (field req "date_of_death").
Proof.
  intros Hfi Hfa.
  destruct (prepare_checks f Author req) as (r & Hp & Hpid & He & Hf); [done|].
  exists r. split_and!; [done|done|..]; rewrite ?He, ?Hf.
  - f_equal. unfold author_errors, name_errors, date_errors, nonempty, trimmed.
    destruct f; simpl; unfold validate; simpl;
      destruct (is_falsy (field req "date_of_birth")),
        (is_falsy (field req "date_of_death")); simpl; by rewrite ?app_nil_r, <- ?app_assoc.
  - destruct f; simpl; by rewrite Hfi.
  - destruct f; simpl; by rewrite Hfa.
  - by destruct f.
  - by destruct f.
Qed.

Lemma name_errors_nil (name required alphanumeric : string) (t : string) :
  name_errors name required alphanumeric (JStr t) = []
  ↔ negb (String.eqb (trim t) EmptyString) && isAlphanumeric (trim t) = true.
Proof.
  unfold name_errors, nonempty, trimmed. simpl.
  rewrite app_nil, !failed_nil, andb_true_iff. by destruct (trim t).
Qed.

Lemma date_errors_nil (name message : string) (v : JsValue) :
  date_errors name message v = [] ↔ is_falsy v || isISO8601 (to_string v) = true.
Proof. unfold date_errors. destruct (is_falsy v); simpl; [done|apply failed_nil]. Qed.

(** An Author create-POST whose names are strings is accepted exactly when
    both names are alphanumeric and not empty once trimmed and each date is
    left out (a falsy value) or ISO 8601: the author made from the form
    (names trimmed and escaped, dates made Dates) is saved under a fresh id
    and the answer is a redirect to its page, unless the schema refuses the
    author, in which case nothing is saved and the request ends in the
    error handler. Otherwise nothing is saved and the form comes back with
    the errors of the checks that failed. *)
Theorem author_created_iff_valid (s : Store) (req : Req) (first family : string) :
  verrors req = [] →
  field req "first_name" = JStr first →
  field req "family_name" = JStr family →
  let birth := field req "date_of_birth" in
  let death := field req "date_of_death" in
  let valid :=
    negb (String.eqb (trim first) EmptyString) && isAlphanumeric (trim first)
    && negb (String.eqb (trim family) EmptyString) && isAlphanumeric (trim family)
    && (is_falsy birth || isISO8601 (to_string birth))
    && (is_falsy death || isISO8601 (to_string death)) in
  let author :=
    doc_of Author (fresh_id s)
      [("first_name", JStr (clean first)); ("family_name", JStr (clean family));
       ("date_of_birth", on_string toDate birth); ("date_of_death", on_string toDate death)] in
  (valid = true →
   get author "first_name" = JStr (clean first)
   ∧ get author "family_name" = JStr (clean family)
   ∧ if accepted author
     then store_after (author_create_post req) s = insert_doc author s
          ∧ responses (author_create_post req) s = [Redirect (DetailUrl Author (fresh_id s))]
     else store_after (author_create_post req) s = s
          ∧ responses (author_create_post req) s = [Next (ValidationError "Validation failed")])
  ∧ (valid = false →
     author_errors req ≠ []
     ∧ store_after (author_create_post req) s = s
     ∧ ∃ locals, responses (author_create_post req) s = [Render "author_form" locals]
                 ∧ ("errors", L_errors (author_errors req)) ∈ locals).
Proof.
  intros Hv Hfi Hfa birth death valid author.
  destruct (author_form_prepared Create req first family Hfi Hfa)
    as (r & Hp & Hpid & He & F1 & F2 & F3 & F4).
  rewrite Hv in He. simpl in He.
  assert (author_errors req = [] ↔ valid = true) as Hvalid.
  { unfold author_errors, valid. rewrite Hfi, Hfa. fold birth death.
    rewrite !app_nil, !name_errors_nil, !date_errors_nil, !andb_true_iff. tauto. }
  split.
  - intros Hc. split_and!.
    + by apply (get_doc_of _ _ _ "first_name" (JStr (clean first)));
        [distinct_keys|find_key|..].
    + by apply (get_doc_of _ _ _ "family_name" (JStr (clean family)));
        [distinct_keys|find_key|..].
    + apply Hvalid in Hc. rewrite Hc in He.
      unfold author_create_post. change author_checks with (checks Create Author).
      rewrite stack_prepare, Hp. unfold author_create_post_handler. run_handler.
      rewrite He, F1, F2, F3, F4. simpl. fold birth death author.
      by destruct (accepted author).
  - intros Hc.
    assert (author_errors req ≠ []) as Hne.
    { intros Hnil%Hvalid. congruence. }
    split; [done|]. rewrite <- He in *.
    change (author_create_post req) with (post Create Author req). split.
    + exact (invalid_post_writes_nothing Create Author s req r Hp Hne).
    + by apply (invalid_post_renders_form Create Author s req r).
Qed.

End Accepting.

Lemma invalid_post_is_rejected_witness :
  let req := mkReq EmptyString
               (list_to_map [("first_name", JStr "J. R. R."); ("family_name", JStr "Tolkien")]) [] in
  let r := prepared (checks Create Author) req in
  store_after (post Create Author req) library = library
  ∧ (∀ t, Redirect t ∉ responses (post Create Author req) library)
  ∧ (Author ≠ BookInstance ∨ (∃ b i, field r "book" = JStr b ∧ cast_id b = Some i) →
     ∃ locals, responses (post Create Author req) library = [Render (form_view Author) locals]
               ∧ ("errors", L_errors (verrors r)) ∈ locals).
Proof.
  apply (invalid_post_is_rejected Create Author library
           (mkReq EmptyString
              (list_to_map [("first_name", JStr "J. R. R."); ("family_name", JStr "Tolkien")]) [])
           (prepared (checks Create Author)
              (mkReq EmptyString
                 (list_to_map [("first_name", JStr "J. R. R."); ("family_name", JStr "Tolkien")])
                 []))).
  - vm_compute. reflexivity.
  - vm_compute. discriminate.
Defined.

Lemma book_created_iff_required_fields_witness :
  let req := dune "Dune" in
  let s := library in
  let title := "Dune" in
  let author := a1 in
  let summary := "Arrakis" in
  let isbn := "9780441013593" in
  let genre : list string := [] in
  let complete :=
    negb (String.eqb (trim title) EmptyString) && negb (String.eqb (trim author) EmptyString)
    && negb (String.eqb (trim summary) EmptyString) && negb (String.eqb (trim isbn) EmptyString) in
  let book :=
    doc_of Book (fresh_id s)
      [("title", JStr (clean title)); ("author", JStr (clean author));
       ("summary", JStr (clean summary)); ("isbn", JStr (clean isbn));
       ("genre", JArr (JStr <$> (escape ∘ trim <$> genre)))] in
  (complete = true →
   if accepted book
   then store_after (book_create_post req) s = insert_doc book s
        ∧ responses (book_create_post req) s = [Redirect (DetailUrl Book (fresh_id s))]
   else store_after (book_create_post req) s = s
        ∧ responses (book_create_post req) s = [Next (ValidationError "Validation failed")])
  ∧ (∀ author_id genre_ids,
       cast_id (clean author) = Some author_id →
       mapM cast_id (escape ∘ trim <$> genre) = Some genre_ids →
       doc_cast_errors book = []
       ∧ get book "title" = JStr (clean title)
       ∧ get book "author" = JStr author_id
       ∧ get book "summary" = JStr (clean summary)
       ∧ get book "isbn" = JStr (clean isbn)
       ∧ get book "genre" = JArr (JStr <$> genre_ids))
  ∧ (complete = false →
     book_errors req ≠ []
     ∧ store_after (book_create_post req) s = s
     ∧ ∃ locals, responses (book_create_post req) s = [Render "book_form" locals]
                 ∧ ("errors", L_errors (book_errors req)) ∈ locals).
Proof.
  apply (book_created_iff_required_fields library (dune "Dune")
           "Dune" a1 "Arrakis" "9780441013593" []); reflexivity.
Defined.

(** On the example library: "Dune" is saved; a title of blanks, or a
    title given as a list whose first element is empty, is refused with
    the one error of the title; a book whose author is no ObjectId passes
    the checks of the form and is refused by [save]. *)
Example book_create_post_library :
  responses (book_create_post (dune "Dune")) library
  = [Redirect (DetailUrl Book (fresh_id library))]
  ∧ book_errors (dune "   ") = [mkVError "title" "Title must not be empty."]
  ∧ store_after (book_create_post (dune "   ")) library = library
  ∧ verrors (prepared book_create_checks
               (mkReq EmptyString
                  (list_to_map [("title", JArr [JStr EmptyString; JStr "Dune"]);
                                ("author", JStr a1); ("summary", JStr "Arrakis");
                                ("isbn", JStr "9780441013593")]) []))
    = [mkVError "title" "Title must not be empty."]
  ∧ responses (book_create_post
                 (mkReq EmptyString
                    (list_to_map [("title", JStr "Dune"); ("author", JStr "zz");
                                  ("summary", JStr "Arrakis");
                                  ("isbn", JStr "9780441013593")]) [])) library
    = [Next (ValidationError "Validation failed")].
Proof. vm_compute. split_and!; reflexivity. Qed.

Lemma author_created_iff_valid_witness :
  let req := mkReq EmptyString
               (list_to_map [("first_name", JStr " Ursula "); ("family_name", JStr "LeGuin");
                             ("date_of_birth", JStr "1929-10-21")]) [] in
  let s := library in
  let first := " Ursula " in
  let family := "LeGuin" in
  let birth := field req "date_of_birth" in
  let death := field req "date_of_death" in
  let valid :=
    negb (String.eqb (trim first) EmptyString) && isAlphanumeric (trim first)
    && negb (String.eqb (trim family) EmptyString) && isAlphanumeric (trim family)
    && (is_falsy birth || isISO8601 (to_string birth))
    && (is_falsy death || isISO8601 (to_string death)) in
  let author :=
    doc_of Author (fresh_id s)
      [("first_name", JStr (clean first)); ("family_name", JStr (clean family));
       ("date_of_birth", on_string toDate birth); ("date_of_death", on_string toDate death)] in
  (valid = true →
   get author "first_name" = JStr (clean first)
   ∧ get author "family_name" = JStr (clean family)
   ∧ if accepted author
     then store_after (author_create_post req) s = insert_doc author s
          ∧ responses (author_create_post req) s = [Redirect (DetailUrl Author (fresh_id s))]
     else store_after (author_create_post req) s = s
          ∧ responses (author_create_post req) s = [Next (ValidationError "Validation failed")])
  ∧ (valid = false →
     author_errors req ≠ []
     ∧ store_after (author_create_post req) s = s
     ∧ ∃ locals, responses (author_create_post req) s = [Render "author_form" locals]
                 ∧ ("errors", L_errors (author_errors req)) ∈ locals).
Proof.
  apply (author_created_iff_valid library
           (mkReq EmptyString
              (list_to_map [("first_name", JStr " Ursula "); ("family_name", JStr "LeGuin");
                            ("date_of_birth", JStr "1929-10-21")]) [])
           " Ursula " "LeGuin"); reflexivity.
Defined.

(** On the example library: a name with a dot is refused, a name of blanks
    gets both errors of the name, and a valid author is saved with the
    trimmed name. *)
Example author_create_post_library :
  author_errors (mkReq EmptyString
                   (list_to_map [("first_name", JStr "J. R. R.");
                                 ("family_name", JStr "Tolkien")]) [])
  = [mkVError "first_name" "First name has non-alphanumeric characters."]
  ∧ author_errors (mkReq EmptyString
                     (list_to_map [("first_name", JStr "  ");
                                   ("family_name", JStr "Tolkien")]) [])
    = [mkVError "first_name" "First name must be specified.";
       mkVError "first_name" "First name has non-alphanumeric characters."]
  ∧ (λ a, get a "first_name")
      <$> authors (store_after
                     (author_create_post
                        (mkReq EmptyString
                           (list_to_map [("first_name", JStr " Ursula ");
                                         ("family_name", JStr "LeGuin")]) []))
                     library)
    = [JStr "John"; JStr "Ursula"].
Proof. vm_compute. split_and!; reflexivity. Qed.

(** ** The genre of a book *)

Lemma set_checked_twice (g : Doc) : set_checked (set_checked g) = set_checked g.
Proof. unfold set_checked. simpl. by rewrite insert_insert_eq. Qed.

Lemma check_against_marks (g : Doc) (items : list JsValue) :
  Forall (λ v, is_ref v = true) items →
  check_against g items
  = Ok (if existsb (js_eqb (JStr (doc_id g))) items then set_checked g else g)
  ∧ check_against (set_checked g) items = Ok (set_checked g).
Proof.
  intros Hitems. revert g. induction Hitems as [|item items Hitem _ IH]; intros g; [done|].
  destruct item as [| | | |t| |]; try discriminate.
  destruct (IH g) as [IHg IHc]. cbn [check_against ref_text existsb js_eqb].
  change (doc_id (set_checked g)) with (doc_id g).
  destruct (String.eqb_spec (doc_id g) t) as [Heq|Hne].
  - rewrite bool_decide_eq_true_2 by done. by rewrite set_checked_twice, IHc.
  - rewrite bool_decide_eq_false_2 by done. by rewrite IHc, IHg.
Qed.

Lemma check_all_marks (l : list Doc) (book : Doc) :
  Forall (λ v, is_ref v = true) (genre_of book) →
  check_genres_of (VDoc book) (VDocs l) = Ok (check_selected book (VDocs l)).
Proof.
  intros Hitems. unfold check_genres_of, check_selected.
  assert (check_all l (genre_of book)
          = Ok ((λ g, if existsb (js_eqb (JStr (doc_id g))) (genre_of book)
                      then set_checked g else g) <$> l)) as ->; [|done].
  induction l as [|g l IH]; [done|]. simpl.
  by rewrite (proj1 (check_against_marks g _ Hitems)), IH.
Qed.

(** The update form of a stored book whose genres are references shows
    every author and every genre, with exactly the genres of the book
    marked as checked: the nested loops of the GET handler mark the same
    genres as the [indexOf] test the POST handlers use when they show the
    form again. *)
Theorem book_update_get_preselects `{G : Mongoose} (s : Store) (req : Req) (book : Doc) :
  List.find (has_id (param_id req)) (books s) = Some book →
  Forall (λ v, is_ref v = true) (genre_of book) →
  responses (book_update_get req) s =
    [Render "book_form"
       [("title", L_str "Update Book"); ("authors", L_val (VDocs (authors s)));
        ("genres", L_val (check_selected book (VDocs (genres s))));
        ("book", L_val (VDoc book))]].
Proof.
  intros Hf Hitems.
  assert (query_id (param_id req) = Ok (param_id req)) as Hc.
  { apply find_some in Hf as [_ Hid]. apply query_id_cast.
    by apply has_id_canonical in Hid as Hcan; apply has_id_inv in Hid as [= ->]. }
  unfold book_update_get. run_handler. run_queries Hc.
  rewrite Hf, !filter_all, !project_all. simpl.
  pose proof (check_all_marks (genres s) book Hitems) as Hm.
  unfold check_genres_of in Hm.
  destruct (check_all (genres s) (genre_of book)) as [l'|e]; [|done].
  injection Hm as Hm. simpl. by rewrite Hm.
Qed.

Lemma book_update_get_preselects_witness :
  responses (book_update_get (mkReq b1 ∅ [])) library =
    [Render "book_form"
       [("title", L_str "Update Book"); ("authors", L_val (VDocs (authors library)));
        ("genres", L_val (check_selected hobbit (VDocs (genres library))));
        ("book", L_val (VDoc hobbit))]].
Proof.
  apply (book_update_get_preselects library (mkReq b1 ∅ []) hobbit).
  - reflexivity.
  - apply (bool_decide_unpack _). vm_compute. exact I.
Defined.

(** On the example library the form of The Hobbit has Fantasy checked and
    Poetry not. *)
Example hobbit_form_genres :
  match check_selected hobbit (VDocs (genres library)) with
  | VDocs l => (λ g, (doc_id g, get g "checked")) <$> l
  | _ => []
  end = [(g1, JStr "true"); (g2, JUndefined)].
Proof. vm_compute. reflexivity. Qed.

Section Genre_field.
Context `{V : Validator} `{G : Mongoose}.

(** What the handler of a book route receives as genre when the request
    does not hold a number there: an array of the submitted elements (none
    if the field is absent, the value itself if it is not an array), each
    string among them trimmed and escaped. *)
Theorem book_genre_reaches_handler (f : Form) (req r : Req) :
  prepare (checks f Book) req = Ok r →
  (∀ n, field req "genre" ≠ JNum n) →
  field r "genre" = JArr (sanitize [Trim; Escape] <$> genre_items (field req "genre")).
Proof.
  intros Hp Hn.
  destruct (prepare_checks f Book req) as (r' & Hp' & _ & _ & Hf); [done|].
  rewrite Hp in Hp'. injection Hp' as <-. rewrite Hf. by destruct f.
Qed.

(** A genre that is a number outside the range of array lengths makes
    [new Array] throw in the first middleware of the book routes: the
    request goes straight to the error handler (status 500), before any
    field is validated, and nothing is written. *)
Theorem book_post_genre_out_of_range (f : Form) (s : Store) (req : Req) (n : Z) :
  field req "genre" = JNum n →
  ¬ (0 ≤ n < 2 ^ 32)%Z →
  responses (post f Book req) s = [Next (RangeError "Invalid array length")]
  ∧ error_status (RangeError "Invalid array length") = 500
  ∧ store_after (post f Book req) s = s.
Proof.
  intros Hg Hn. rewrite post_stack, stack_prepare.
  assert (prepare (checks f Book) req = Throw (RangeError "Invalid array length")) as ->.
  { destruct f; unfold checks, book_create_checks, book_update_checks; cbn [prepare];
      unfold genre_to_array; rewrite Hg; simpl; by rewrite bool_decide_eq_false_2. }
  done.
Qed.

End Genre_field.

Lemma book_genre_reaches_handler_witness :
  let r := prepared (checks Update Book) hobbit_update in
  field r "genre"
  = JArr (sanitize [Trim; Escape] <$> genre_items (field hobbit_update "genre")).
Proof.
  apply (book_genre_reaches_handler Update hobbit_update
           (prepared (checks Update Book) hobbit_update)).
  - vm_compute. reflexivity.
  - intros n. vm_compute. discriminate.
Defined.

Lemma book_post_genre_out_of_range_witness :
  let req := mkReq EmptyString (list_to_map [("title", JStr "Dune"); ("genre", JNum (-1))]) [] in
  responses (post Create Book req) library = [Next (RangeError "Invalid array length")]
  ∧ error_status (RangeError "Invalid array length") = 500
  ∧ store_after (post Create Book req) library = library.
Proof.
  apply (book_post_genre_out_of_range Create library
           (mkReq EmptyString (list_to_map [("title", JStr "Dune"); ("genre", JNum (-1))]) [])
           (-1)).
  - reflexivity.
  - vm_compute. intros [H _]. by apply H.
Defined.

(** ** The home page *)

(** The home page shows the number of stored books, book instances,
    authors and genres; the number of available instances counts those
    whose status is Available and never exceeds the number of instances.
    No error is shown. *)
Theorem index_counts (s : Store) (req : Req) :
  ∃ data available,
    responses (index req) s =
      [Render "index"
         [("title", L_str "Local Library Home"); ("error", L_js JNull);
          ("data", L_body data)]]
    ∧ data !! "book_count" = Some (JNum (Z.of_nat (length (books s))))
    ∧ data !! "book_instance_count" = Some (JNum (Z.of_nat (length (bookinstances s))))
    ∧ data !! "author_count" = Some (JNum (Z.of_nat (length (authors s))))
    ∧ data !! "genre_count" = Some (JNum (Z.of_nat (length (genres s))))
    ∧ data !! "book_instance_available_count" = Some (JNum (Z.of_nat available))
    ∧ available
      = length (filter (λ c, matches (FEq "status" (JStr "Available")) c = true)
                  (bookinstances s))
    ∧ available ≤ length (bookinstances s).
Proof.
  unfold index, count. run_handler. rewrite !filter_all.
  eexists _, (length (filter (λ d, matches (FEq "status" (JStr "Available")) d = true)
                        (bookinstances s))).
  split_and!; [reflexivity..|apply length_filter].
Qed.

(** ** Errors *)

Section Errors.
Context `{V : Validator} `{G : Mongoose}.

(** The middlewares of a route throw nothing but the RangeError of the
    genre conversion. *)
Lemma checks_throw (f : Form) (m : Model) (req : Req) (e : JsError) :
  prepare (checks f m) req = Throw e → e = RangeError "Invalid array length".
Proof.
  intros Hp.
  assert (m = Book ∨ Forall total (checks f m)) as [-> | Ht].
  { destruct m; [right|by left|right|right]; destruct f; unfold checks; solve_checks. }
  - assert (∃ rest, checks f Book = genre_to_array :: rest ∧ Forall total rest)
      as (rest & Hc & Hrest).
    { destruct f; eexists; (split; [reflexivity|]);
        repeat first [apply Forall_nil_2 | apply Forall_cons_2; [by auto with checks|]]. }
    rewrite Hc in Hp. cbn [prepare] in Hp.
    destruct (genre_to_array req) as [r1|e1] eqn:Hg.
    + destruct (prepare_total rest r1 Hrest) as [r Hr]. congruence.
    + injection Hp as <-. revert Hg. unfold genre_to_array, new_Array.
      destruct (negb _); [|done]. destruct (is_undefined _); [done|].
      destruct (field req "genre"); try done. case_bool_decide; [done|]. by intros [= <-].
  - destruct (prepare_total (checks f m) req Ht) as [r Hr]. congruence.
Qed.

Lemma check_against_throw (g : Doc) (items : list JsValue) (e : JsError) :
  check_against g items = Throw e → error_status e = 500.
Proof.
  revert g. induction items as [|item rest IH]; intros g; cbn [check_against]; [done|].
  destruct item; cbn [ref_text]; try by intros [= <-]. apply IH.
Qed.

Lemma check_all_throw (gs : list Doc) (items : list JsValue) (e : JsError) :
  check_all gs items = Throw e → error_status e = 500.
Proof.
  induction gs as [|g gs IH]; cbn [check_all]; [done|].
  destruct (check_against g items) eqn:Hg.
  - destruct (check_all gs items); [done|]. intros [= <-]. by apply IH.
  - intros [= <-]. by eapply check_against_throw.
Qed.

Lemma ref_id_throw (v : JsValue) (e : JsError) :
  ref_id v = Throw e → error_status e = 500.
Proof. destruct v; by intros [= <-]. Qed.

Lemma query_id_status (v : JsValue) (e : JsError) :
  query_id v = Throw e → error_status e = 500.
Proof. by intros ->%query_id_throw. Qed.

(** An id that a query does not find is not stored. *)
Lemma not_found_not_stored (m : Model) (s : Store) (req : Req) (i : JsValue) :
  query_id (param_id req) = Ok i →
  List.find (has_id i) (coll m s) = None →
  stored m (params_id req) s = false.
Proof.
  intros Hq Hf. destruct (stored m (params_id req) s) eqn:Hs; [|done].
  unfold param_id in Hq. rewrite (query_id_stored _ _ _ Hs) in Hq. injection Hq as <-.
  apply find_some_existsb in Hs as (d & Hd & _). congruence.
Qed.

(** The status of an error that a query, the marking of the genres or the
    reading of a reference threw. *)
Ltac status_500 :=
  first
    [ reflexivity
    | match goal with
      | H : query_id _ = Throw ?e |- error_status ?e = 500 => exact (query_id_status _ _ H)
      | H : check_all _ _ = Throw ?e |- error_status ?e = 500 => exact (check_all_throw _ _ _ H)
      | H : ref_id _ = Throw ?e |- error_status ?e = 500 => exact (ref_id_throw _ _ H)
      end ].

Lemma handler_errors (r : Route) (s : Store) (req : Req) (e : JsError) :
  Next e ∈ responses (handler r req) s →
  error_status e = 500
  ∨ error_status e = 404
    ∧ ∃ m, (r = R_detail m ∨ r = R_update_get m ∨ r = R_delete_post m ∧ m = Book)
           ∧ stored m (params_id req) s = false.
Proof.
  destruct r as [|m|m|m|m|m|m|m|m].
  1: { unfold handler, index, count. run_handler. intros H.
       apply list_elem_of_singleton in H. discriminate. }
  1, 2, 3, 5, 7, 8:
    destruct m; unfold_handlers; run_handler; split_cases;
    intros H; repeat (apply elem_of_cons in H as [H|H]; [try discriminate|]);
    try (by apply elem_of_nil in H); injection H as ->;
    first
      [ left; status_500
      | right; split; [done|]; eexists; split; [eauto|];
        eapply not_found_not_stored; eassumption ].
  all: unfold handler; rewrite post_stack, stack_prepare;
    match goal with
    | |- context [prepare ?ms ?rq] => destruct (prepare ms rq) as [r|e'] eqn:Hp
    end;
    [|intros H; apply list_elem_of_singleton in H; injection H as ->;
      apply checks_throw in Hp as ->; by left];
    destruct m; unfold_handlers; run_handler; destruct (verrors r); simpl;
    split_cases;
    intros H; repeat (apply elem_of_cons in H as [H|H]; [try discriminate|]);
    try (by apply elem_of_nil in H); injection H as ->;
    left; status_500.
Qed.

(** What a failing request is answered with. The error page of any route
    has status 500 or 404, and 404 only on a detail page, an update form
    or the book deletion, for an id that is not stored; outside development
    the page does not carry the error object. *)
Theorem failures_are_404_or_500 (env : string) (r : Route) (s : Store) (req : Req)
    (page : ErrorPage) :
  Failure page ∈ answer env <$> responses (handler r req) s →
  page_view page = "error"
  ∧ (page_status page = 500
     ∨ page_status page = 404
       ∧ ∃ m, (r = R_detail m ∨ r = R_update_get m ∨ r = R_delete_post m ∧ m = Book)
              ∧ stored m (params_id req) s = false)
  ∧ (env ≠ "development" → page_error page = None).
Proof.
  intros H. apply list_elem_of_fmap in H as (a & Ha & Hin).
  destruct a as [view locals|t|e]; try discriminate. injection Ha as ->.
  split_and!; [done|by apply handler_errors in Hin|].
  intros Henv. unfold error_handler. cbn [page_error]. by case_bool_decide.
Qed.

End Errors.

Lemma failures_are_404_or_500_witness :
  let req := mkReq a9 ∅ [] in
  let page := error_handler "production" (HttpError "Author not found" 404) in
  Failure page ∈ answer "production" <$> responses (handler (R_detail Author) req) library
  ∧ page_view page = "error"
  ∧ (page_status page = 500
     ∨ page_status page = 404
       ∧ ∃ m, (R_detail Author = R_detail m ∨ R_detail Author = R_update_get m
               ∨ R_detail Author = R_delete_post m ∧ m = Book)
              ∧ stored m (params_id req) library = false)
  ∧ ("production" ≠ "development" → page_error page = None).
Proof.
  intros req page.
  assert (Failure page
          ∈ answer "production" <$> responses (handler (R_detail Author) req) library) as H.
  { vm_compute. apply list_elem_of_here. }
  split; [exact H|].
  exact (failures_are_404_or_500 "production" (R_detail Author) library req page H).
Defined.
